(** * Verification of the pip resolution / verification engine and the
      yarn-classic workspace resolver

    Shallow embedding of
      - [hermeto/core/package_managers/pip/main.py]
      - [hermeto/core/package_managers/yarn_classic/workspaces.py]
      - [hermeto/core/models/validators.py]

    Conventions of the embedding:
      - Python [str] is [string]; a [set] is a [gset]; a [dict] used as a
        map is a [gmap]; [pathlib.Path] values are their [.parts] tuples.
      - Code that raises, logs or touches the output directory runs in
        the monad [M]: a state (file system and log) threaded through the
        calls, with a result that is either an [error] or a value.  The
        state survives a raised error, as in Python.
      - Messages logged at debug level are not part of the model; info
        and warning messages are.
      - Functions of third-party libraries ([urllib.parse], [packaging],
        archive readers) are parameters of the development. *)

From Stdlib Require Import Ascii String.
From stdpp Require Import base option list sorting gmap sets strings pretty.

Local Open Scope string_scope.

(** ** Python string primitives *)

Module PyStr.

(** [s.startswith(p)] *)
Fixpoint startswith (s p : string) : bool :=
  match p, s with
  | EmptyString, _ => true
  | String b p', String a s' => if decide (a = b) then startswith s' p' else false
  | String _ _, EmptyString => false
  end.

(** [s.endswith(p)]: some suffix of [s] is [p]. *)
Fixpoint endswith (s p : string) : bool :=
  if decide (s = p) then true
  else match s with
       | EmptyString => false
       | String _ s' => endswith s' p
       end.

(** [s.partition(sep)] for a one-character separator: the text before the
    first occurrence, and the text after it; [(s, "")] when absent.  The
    middle component of Python's triple is dropped, every caller ignores
    it. *)
Fixpoint partition (sep : ascii) (s : string) : string * string :=
  match s with
  | EmptyString => (EmptyString, EmptyString)
  | String a s' =>
      if decide (a = sep) then (EmptyString, s')
      else let '(hd, tl) := partition sep s' in (String a hd, tl)
  end.

(** [s.rstrip(c)] for a one-character set. *)
Fixpoint rstrip (c : ascii) (s : string) : string :=
  match s with
  | EmptyString => EmptyString
  | String a s' =>
      match rstrip c s' with
      | EmptyString => if decide (a = c) then EmptyString else String a EmptyString
      | r => String a r
      end
  end.

(** ASCII white space, as [str.split()] and [str.isspace] see it. *)
Definition isspace (a : ascii) : bool :=
  let n := nat_of_ascii a in
  (((9 <=? n) && (n <=? 13)) || ((28 <=? n) && (n <=? 32)))%nat.

(** [s.split()]: the maximal runs of non-space characters.  [cur] is the
    run being read, reversed into place when it ends. *)
Fixpoint split_ws_aux (s : string) (cur : option string) : list string :=
  match s with
  | EmptyString => match cur with Some w => [w] | None => [] end
  | String a s' =>
      if isspace a then
        match cur with
        | Some w => w :: split_ws_aux s' None
        | None => split_ws_aux s' None
        end
      else
        split_ws_aux s' (Some (match cur with
                               | Some w => w +:+ String a EmptyString
                               | None => String a EmptyString
                               end))
  end.

Definition split (s : string) : list string := split_ws_aux s None.

(** [s.split(sep)] for a one-character separator (never returns []). *)
Fixpoint split_on (sep : ascii) (s : string) : list string :=
  match s with
  | EmptyString => [EmptyString]
  | String a s' =>
      if decide (a = sep) then EmptyString :: split_on sep s'
      else match split_on sep s' with
           | w :: ws => String a w :: ws
           | [] => [String a EmptyString]
           end
  end.

(** [s.lower()] on ASCII letters. *)
Definition lower_ascii (a : ascii) : ascii :=
  let n := nat_of_ascii a in
  if ((65 <=? n) && (n <=? 90))%nat then ascii_of_nat (n + 32) else a.

Fixpoint lower (s : string) : string :=
  match s with
  | EmptyString => EmptyString
  | String a s' => String (lower_ascii a) (lower s')
  end.

(** [sep.join(l)] *)
Fixpoint join (sep : string) (l : list string) : string :=
  match l with
  | [] => EmptyString
  | [x] => x
  | x :: l' => x +:+ sep +:+ join sep l'
  end.

(** [c in s] for a one-character [c] *)
Fixpoint contains (c : ascii) (s : string) : bool :=
  match s with
  | EmptyString => false
  | String a s' => if decide (a = c) then true else contains c s'
  end.

(** [s.lstrip()] *)
Fixpoint lstrip_ws (s : string) : string :=
  match s with
  | EmptyString => EmptyString
  | String a s' => if isspace a then lstrip_ws s' else s
  end.

(** [s.rstrip()] *)
Fixpoint rstrip_ws (s : string) : string :=
  match s with
  | EmptyString => EmptyString
  | String a s' =>
      match rstrip_ws s' with
      | EmptyString => if isspace a then EmptyString else String a EmptyString
      | r => String a r
      end
  end.

(** [s.strip()] *)
Definition strip (s : string) : string := rstrip_ws (lstrip_ws s).

(** [any(c.isspace() for c in s)] *)
Fixpoint has_space (s : string) : bool :=
  match s with
  | EmptyString => false
  | String a s' => isspace a || has_space s'
  end.

(** [s[1:]] *)
Definition tail (s : string) : string :=
  match s with
  | EmptyString => EmptyString
  | String _ s' => s'
  end.

End PyStr.

(** ** Errors, log and file system *)

(** The exception classes the modelled code raises or lets through.
    [PackageRejected] and [UnsupportedFeature] carry the reason, the
    suggested solution and the documentation link of
    [hermeto.core.errors]. *)
Inductive error : Type :=
| PackageRejected (reason : string) (solution : option string) (docs : option string)
| UnsupportedFeature (reason : string) (solution : option string) (docs : option string)
| FetchError (reason : string)
| PathOutsideRoot (reason : string)
| ValidationError (reason : string)
| ValueError (reason : string)
| KeyError (key : string)
| IndexError
| RuntimeError (reason : string)
| FileNotFoundError (file : string).

Definition is_rejection (e : error) : bool :=
  match e with PackageRejected _ _ _ => true | _ => false end.

Definition is_unsupported (e : error) : bool :=
  match e with UnsupportedFeature _ _ _ => true | _ => false end.

Inductive level : Type := INFO | WARNING.

(** A [pathlib.Path], as its [.parts]: an absolute path starts with the
    part ["/"]. *)
Abbreviation Path := (list string).

Record State : Type := mkState {
  fs : gmap Path string;            (* regular files and their content *)
  logs : list (level * string)      (* messages, oldest first *)
}.

Definition M (A : Type) : Type := State -> State * (error + A).

Definition ret {A} (a : A) : M A := fun st => (st, inr a).
Definition raise {A} (e : error) : M A := fun st => (st, inl e).
Definition bind {A B} (m : M A) (k : A -> M B) : M B :=
  fun st => match m st with
            | (st', inr a) => k a st'
            | (st', inl e) => (st', inl e)
            end.

(** [try: m except <handles>: handler] *)
Definition try_except {A} (m : M A) (handles : error -> bool) (handler : error -> M A) : M A :=
  fun st => match m st with
            | (st', inl e) => if handles e then handler e st' else (st', inl e)
            | r => r
            end.

Declare Scope py_scope.
Delimit Scope py_scope with py.
Notation "x <- m ;; k" := (bind m (fun x => k))
  (at level 100, m at next level, right associativity) : py_scope.
Notation "m ;;; k" := (bind m (fun _ => k))
  (at level 100, right associativity) : py_scope.
Local Open Scope py_scope.

Definition lift {A} (r : error + A) : M A := fun st => (st, r).
Definition log (l : level) (msg : string) : M unit :=
  fun st => (mkState (fs st) (logs st ++ [(l, msg)]), inr tt).
Definition get_state : M State := fun st => (st, inr st).

(** ** Paths *)

Module PathLib.

(** [PurePosixPath(s).parts]: the root (["/"], or ["//"] for exactly two
    leading slashes) followed by the components that are neither empty
    nor ["."]. *)
Definition root_of (s : string) : list string :=
  match s with
  | String "/"%char (String "/"%char (String "/"%char _)) => ["/"]
  | String "/"%char (String "/"%char _) => ["//"]
  | String "/"%char _ => ["/"]
  | _ => []
  end.

Definition keep_part (p : string) : bool :=
  negb (bool_decide (p = "")) && negb (bool_decide (p = ".")).

Definition parse (s : string) : Path :=
  root_of s ++ filter (fun p => keep_part p = true) (PyStr.split_on "/" s).

Definition is_absolute (p : Path) : bool :=
  match p with
  | r :: _ => PyStr.startswith r "/"
  | [] => false
  end.

(** [a / b]: an absolute right operand replaces the left one. *)
Definition joinpath (a b : Path) : Path := if is_absolute b then b else a ++ b.

(** [Path(seg1, seg2, ...)] *)
Definition Path_of (segments : list string) : Path :=
  foldl (fun acc seg => joinpath acc (parse seg)) [] segments.

(** [p.name]: the last component, [""] for a bare root or the empty path. *)
Definition name (p : Path) : string :=
  match last p with
  | Some n => if PyStr.startswith n "/" then "" else n
  | None => ""
  end.

(** [str(p)] *)
Definition to_string (p : Path) : string :=
  match p with
  | [] => "."
  | r :: rest => if PyStr.startswith r "/" then r +:+ PyStr.join "/" rest
                 else PyStr.join "/" p
  end.

(** [p.relative_to(root)]: the parts after [root], [ValueError] when
    [root] is not a prefix of [p]. *)
Fixpoint relative_to (p root : Path) : error + Path :=
  match root, p with
  | [], _ => inr p
  | r :: root', a :: p' =>
      if decide (a = r) then relative_to p' root'
      else inl (ValueError "path is not in the subpath of the root")
  | _ :: _, [] => inl (ValueError "path is not in the subpath of the root")
  end.

End PathLib.

(** ** Checksums *)

(** Modelled from the spec: [ChecksumInfo] of [hermeto.core.checksum] is
    not part of the sources at hand.  The spec gives it as
    [{algorithm, digest}], hashable, with an equality that ignores the
    case of the hex digest; the constructor below stores the digest in
    lower case, so that structural equality is that equality. *)
Record ChecksumInfo : Type := mkChecksumInfo {
  algorithm : string;
  hexdigest : string
}.

Definition ChecksumInfo_new (alg digest : string) : ChecksumInfo :=
  mkChecksumInfo alg (PyStr.lower digest).

#[global] Instance ChecksumInfo_eq_dec : EqDecision ChecksumInfo.
Proof. solve_decision. Defined.

#[global] Instance ChecksumInfo_countable : Countable ChecksumInfo.
Proof.
  apply (inj_countable' (fun c => (algorithm c, hexdigest c))
                        (fun p => mkChecksumInfo p.1 p.2)).
  by intros [].
Defined.

(** [_to_checksum_info] *)
Definition _to_checksum_info (hash_ : string) : ChecksumInfo :=
  let '(alg, digest) := PyStr.partition ":" hash_ in
  ChecksumInfo_new alg digest.

(** ** DistributionPackageInfo *)

Record DistributionPackageInfo : Type := mkDPI {
  dpi_name : string;
  dpi_version : string;
  dpi_package_type : string;
  dpi_path : Path;
  dpi_url : string;
  dpi_index_url : string;
  dpi_is_yanked : bool;
  pypi_checksums : gset ChecksumInfo;
  req_file_checksums : gset ChecksumInfo;
  checksums_to_match : gset ChecksumInfo
}.

(** Truth value of a Python set. *)
Definition nonempty (s : gset ChecksumInfo) : bool := bool_decide (s ≠ ∅).

(** [DistributionPackageInfo._determine_checksums_to_match] *)
Definition _determine_checksums_to_match
    (pypi req_file : gset ChecksumInfo) : gset ChecksumInfo :=
  if nonempty pypi && nonempty req_file then pypi ∩ req_file
  else if nonempty pypi then pypi
  else if nonempty req_file then req_file
  else ∅.

(** The dataclass constructor followed by [__post_init__]. *)
Definition DistributionPackageInfo_new
    (name version package_type : string) (path : Path) (url index_url : string)
    (is_yanked : bool) (pypi req_file : gset ChecksumInfo) : DistributionPackageInfo :=
  mkDPI name version package_type path url index_url is_yanked pypi req_file
        (_determine_checksums_to_match pypi req_file).

(** [DistributionPackageInfo.should_download] *)
Definition should_download (d : DistributionPackageInfo) : bool :=
  ((0 <? size (checksums_to_match d))
   || (size (pypi_checksums d) =? 0)
   || (size (req_file_checksums d) =? 0))%nat.

(** [DistributionPackageInfo.has_checksums_to_match] *)
Definition has_checksums_to_match (d : DistributionPackageInfo) : bool :=
  (0 <? size (checksums_to_match d))%nat.

(** ** Values of the dictionaries passed between the stages *)

Inductive pyval : Type :=
| PStr (s : string)
| PBool (b : bool)
| PPath (p : Path)
| PNone.

#[global] Instance pyval_eq_dec : EqDecision pyval.
Proof. solve_decision. Defined.

(** ** Constants of [pip/main.py] *)

Definition SDIST_FILE_EXTENSIONS : list string :=
  [".zip"; ".tar.gz"; ".tar.bz2"; ".tar.xz"; ".tar.Z"; ".tar"].
Definition WHEEL_FILE_EXTENSION : string := ".whl".
Definition ALL_FILE_EXTENSIONS : list string :=
  SDIST_FILE_EXTENSIONS ++ [WHEEL_FILE_EXTENSION].

Definition PIP_REQUIREMENTS_TXT_DOC : string :=
  "https://github.com/hermetoproject/hermeto/blob/main/docs/pip.md#requirementstxt".
Definition PIP_EXTERNAL_DEPS_DOC : string :=
  "https://github.com/hermetoproject/hermeto/blob/main/docs/pip.md#external-dependencies".
Definition PIP_NO_SDIST_DOC : string :=
  "https://github.com/hermetoproject/hermeto/blob/main/docs/pip.md#dependency-does-not-distribute-sources".

(** [pypi_simple.PYPI_SIMPLE_ENDPOINT] *)
Definition PYPI_SIMPLE_ENDPOINT : string := "https://pypi.org/simple/".

(** *** [GIT_REF_IN_PATH = re.compile(r"@[a-fA-F0-9]{40}$")] *)

Definition is_hex (a : ascii) : bool :=
  let n := nat_of_ascii a in
  (((48 <=? n) && (n <=? 57)) || ((65 <=? n) && (n <=? 70))
   || ((97 <=? n) && (n <=? 102)))%nat.

(** [n] hexadecimal characters at the head of [s]; what follows them. *)
Fixpoint hex_run (n : nat) (s : string) : option string :=
  match n with
  | O => Some s
  | S n' => match s with
            | String a s' => if is_hex a then hex_run n' s' else None
            | EmptyString => None
            end
  end.

(** [$] without [re.MULTILINE]: the end of the string, or just before a
    line feed that ends the string. *)
Definition at_dollar (s : string) : bool :=
  bool_decide (s = "") || bool_decide (s = String "010"%char "").

(** The pattern matched at the head of [s]. *)
Definition git_ref_here (s : string) : bool :=
  match s with
  | String "@"%char s' =>
      match hex_run 40 s' with
      | Some rest => at_dollar rest
      | None => false
      end
  | _ => false
  end.

(** [GIT_REF_IN_PATH.search(s)] as a truth value. *)
Fixpoint GIT_REF_IN_PATH_search (s : string) : bool :=
  git_ref_here s ||
  match s with
  | String _ s' => GIT_REF_IN_PATH_search s'
  | EmptyString => false
  end.

Fixpoint all_hex (s : string) : bool :=
  match s with
  | EmptyString => true
  | String a s' => is_hex a && all_hex s'
  end.

(** The reading of a full-length git ref at the end of a path: an [@]
    followed by 40 hexadecimal characters, and nothing after them. *)
Definition ends_with_git_ref (s : string) : Prop :=
  exists pre h, s = pre +:+ "@" +:+ h /\ String.length h = 40 /\ all_hex h = true.

(** ** PipRequirement *)

Record PipRequirement : Type := mkReq {
  req_package : string;
  req_raw_package : string;
  req_extras : list string;
  req_version_specs : list (string * string);
  req_environment_marker : option string;
  req_hashes : list string;
  req_qualifiers : gmap string string;
  req_kind : string;
  req_download_line : string;
  req_options : list string;
  req__url : option string
}.

(** [PipRequirement.url].  The property caches its result in [_url]; the
    download line is never reassigned, so the cached and the recomputed
    value agree and the write-back is left out. *)
Definition url (r : PipRequirement) : error + string :=
  match req__url r with
  | Some u => inr u
  | None =>
      if negb (bool_decide (req_kind r = "url") || bool_decide (req_kind r = "vcs"))
      then inl (ValueError ("Cannot extract URL from " +:+ req_kind r +:+ " requirement"))
      else match PyStr.split (req_download_line r) with
           | _ :: _ :: u :: _ => inr u
           | _ => inl IndexError
           end
  end.

(** [urllib.parse.ParseResult], with the [hostname] and [port]
    attributes derived from [netloc]. *)
Record ParseResult : Type := mkParseResult {
  scheme : string;
  netloc : string;
  path : string;
  params : string;
  query : string;
  fragment : string;
  hostname : option string;
  port : option nat
}.

(** [extract_git_info]'s result *)
Record GitInfo : Type := mkGitInfo {
  git_url : string;
  git_ref : string;
  git_host : string;
  git_namespace : string;
  git_repo : string
}.

(** [pypi_simple.DistributionPackage], the fields read here *)
Record DistributionPackage : Type := mkPkg {
  pkg_filename : string;
  pkg_url : string;
  pkg_version : option string;
  pkg_package_type : option string;
  pkg_digests : list (string * string);
  pkg_is_yanked : bool
}.

(** [PipRequirementsFile], the attributes read here: the sub-path of
    the file from the repository root, its global options and its
    requirements. *)
Record PipRequirementsFile : Type := mkReqFile {
  file_subpath_from_root : Path;
  file_options : list string;
  file_requirements : list PipRequirement
}.

(** [RootedPath]: a path and the root it may not leave. *)
Record RootedPath : Type := mkRooted {
  rp_root : Path;
  rp_path : Path
}.

(** Lexical normalisation of an absolute path: [".."] removes the
    component before it, and stops at the root. *)
Definition normalize (p : Path) : Path :=
  foldl (fun acc c =>
           if bool_decide (c = "..") then
             match acc with
             | [] => []
             | [r] => if PyStr.startswith r "/" then [r] else []
             | _ => removelast acc
             end
           else (acc ++ [c])%list) [] p.

(** Modelled from the spec: [RootedPath.join_within_root] belongs to
    [hermeto.core.rooted_path], which is not part of the sources at hand.
    The spec requires every joined path to resolve to a location inside
    the root, and anything else to be a fatal error; the docstring of
    [ensure_no_path_leads_out] says the same.  The joined path is
    resolved lexically (the modelled file system has no symbolic links);
    the result keeps the root. *)
Definition join_within_root (base : RootedPath) (other : list Path) : error + RootedPath :=
  let joined := normalize (foldl PathLib.joinpath (rp_path base) other) in
  match PathLib.relative_to joined (rp_root base) with
  | inr _ => inr (mkRooted (rp_root base) joined)
  | inl _ => inl (PathOutsideRoot
                    ("Joining path " +:+ PathLib.to_string joined +:+ " to "
                     +:+ PathLib.to_string (rp_path base) +:+ ": target is outside "
                     +:+ PathLib.to_string (rp_root base)))
  end.

(** [rooted.subpath_from_root] *)
Definition subpath_from_root (p : RootedPath) : error + Path :=
  PathLib.relative_to (rp_path p) (rp_root p).

(** Sequencing for computations that only raise. *)
Definition ebind {A B} (r : error + A) (k : A -> error + B) : error + B :=
  match r with
  | inl e => inl e
  | inr a => k a
  end.

Notation "x <-? r ;; k" := (ebind r (fun x => k))
  (at level 100, r at next level, right associativity) : py_scope.

(** ** File-system primitives *)

(** [path.unlink()] *)
Definition unlink (p : Path) : M unit :=
  fun st => match fs st !! p with
            | Some _ => (mkState (delete p (fs st)) (logs st), inr tt)
            | None => (st, inl (FileNotFoundError (PathLib.to_string p)))
            end.

(** [path.exists()], for the regular files of the model *)
Definition exists_ (p : Path) : M bool :=
  fun st => (st, inr (bool_decide (is_Some (fs st !! p)))).

(** ** The yarn-classic workspace resolver *)

(** A parsed JSON value; numbers, booleans and null are not told apart. *)
#[local] Unset Elimination Schemes.
Inductive json : Type :=
| JString (s : string)
| JArray (items : list json)
| JObject (fields : list (string * json))
| JOther.
#[local] Set Elimination Schemes.

(** [obj.get(key)] *)
Fixpoint json_get (fields : list (string * json)) (key : string) : option json :=
  match fields with
  | [] => None
  | (k, v) :: rest => if bool_decide (k = key) then Some v else json_get rest key
  end.

Record PackageJson : Type := mkPackageJson {
  pj_path : RootedPath;
  pj_data : list (string * json)
}.

Record Workspace : Type := mkWorkspace {
  ws_path : Path;
  ws_package_json : PackageJson
}.

(** [Workspace(path=..., package_json=...)], with its field validator
    [_ensure_package_is_named]. *)
Definition Workspace_new (p : Path) (package_json : PackageJson) : error + Workspace :=
  match json_get (pj_data package_json) "name" with
  | Some _ => inr (mkWorkspace p package_json)
  | None => inl (ValidationError "Workspaces must contain 'name' field.")
  end.

(** [ensure_no_path_leads_out] *)
Fixpoint ensure_no_path_leads_out (paths : list Path) (source_dir : RootedPath)
  : error + unit :=
  match paths with
  | [] => inr tt
  | p :: rest =>
      _ <-? join_within_root source_dir [p] ;;
      ensure_no_path_leads_out rest source_dir
  end.

(** [_extract_workspaces_globs] *)
Definition _extract_workspaces_globs (package : list (string * json)) : json :=
  match default (JArray []) (json_get package "workspaces") with
  | JObject fields => default (JArray []) (json_get fields "packages")
  | workspaces_globs => workspaces_globs
  end.

Section Workspaces.

(** [json.load] of a file content: the fields of the object it holds. *)
Variable json_loads : string -> option (list (string * json)).
(** [[p.resolve() for p in base.glob(pattern) if p.is_dir()]] *)
Variable glob_dirs : Path -> string -> list Path.

(** Modelled from the spec: [PackageJson.from_file] belongs to
    [hermeto.core.package_managers.yarn_classic.project], which is not
    part of the sources at hand.  The spec takes the manifest of a
    workspace to be the content of its [package.json]; reading it keeps
    the path and the parsed object. *)
Definition PackageJson_from_file (p : RootedPath) : M PackageJson :=
  fun st => match fs st !! rp_path p with
            | None => (st, inl (FileNotFoundError (PathLib.to_string (rp_path p))))
            | Some content =>
                match json_loads content with
                | Some fields => (st, inr (mkPackageJson p fields))
                | None => (st, inl (ValueError "package.json is not a JSON object"))
                end
            end.

(** [_get_workspace_paths], for the declared type of its argument, a
    list of strings; any other value is refused. *)
Fixpoint _get_workspace_paths_list (globs : list json) (source_dir : RootedPath)
  : error + list Path :=
  match globs with
  | [] => inr []
  | JString glob :: rest =>
      paths <-? _get_workspace_paths_list rest source_dir ;;
      inr (glob_dirs (rp_path source_dir) glob ++ paths)%list
  | _ :: _ => inl (ValueError "a workspaces glob is not a string")
  end.

Definition _get_workspace_paths (workspaces_globs : json) (source_dir : RootedPath)
  : error + list Path :=
  match workspaces_globs with
  | JArray globs => _get_workspace_paths_list globs source_dir
  | _ => inl (ValueError "the workspaces globs are not a list")
  end.

(** The loop of [extract_workspace_metadata] over the workspace paths. *)
Fixpoint parse_workspaces (package_path : RootedPath) (workspaces_paths : list Path)
  : M (list Workspace) :=
  match workspaces_paths with
  | [] => ret []
  | wp :: rest =>
      package_json_path <- lift (join_within_root package_path [wp; ["package.json"]]) ;;
      present <- exists_ (rp_path package_json_path) ;;
      if negb present then
        log WARNING ("The Yarn workspace located at " +:+ PathLib.to_string wp
                     +:+ " does not contain a package.json and will be ignored.") ;;;
        parse_workspaces package_path rest
      else
        package_json <- PackageJson_from_file package_json_path ;;
        workspace <- lift (Workspace_new wp package_json) ;;
        parsed_workspaces <- parse_workspaces package_path rest ;;
        ret (workspace :: parsed_workspaces)
  end.

(** [extract_workspace_metadata] *)
Definition extract_workspace_metadata (package_path : RootedPath) : M (list Workspace) :=
  manifest <- lift (join_within_root package_path [["package.json"]]) ;;
  package_json <- PackageJson_from_file manifest ;;
  let workspaces_globs := _extract_workspaces_globs (pj_data package_json) in
  workspaces_paths <- lift (_get_workspace_paths workspaces_globs package_path) ;;
  lift (ensure_no_path_leads_out workspaces_paths package_path) ;;;
  parse_workspaces package_path workspaces_paths.

End Workspaces.

(** [PackageURL], as the arguments its constructor is given. *)
Record PackageURL : Type := mkPurl {
  purl_type : string;
  purl_name : string;
  purl_version : option string;
  purl_qualifiers : option (gmap string string);
  purl_subpath : option string
}.

(** [PropertySet], the fields set by the pip backend. *)
Record PropertySet : Type := mkPropertySet {
  missing_hash_in_file : gset string;
  pip_package_binary : bool;
  pip_build_dependency : bool
}.

(** [Component]; [properties] holds the [PropertySet] whose
    [to_properties()] the source stores. *)
Record Component : Type := mkComponent {
  comp_name : string;
  comp_version : option string;
  comp_purl : string;
  comp_properties : PropertySet
}.

(** The result of [_process_options]. *)
Record Options : Type := mkOptions {
  require_hashes : bool;
  trusted_hosts : list string;
  index_url : option string
}.

(** ** The validators of the models

    [hermeto/core/models/validators.py].  The items and their keys are
    any types with a decidable equality (Python's [==], and the hashing
    of the keys); the dict [by_key] is kept as its items in insertion
    order, the order [by_key.values()] lists them in. *)

Section Validators.

Context {T K : Type} `{EqDecision T} `{EqDecision K}.

(** The uniqueness key [by], and the texts of a key and of an item in
    the message of a conflict. *)
Variable by_ : T -> K.
Variable str_key : K -> string.
Variable str_item : T -> string.
(** [a < b] on keys, the comparison [list.sort] uses. *)
Variable key_lt : K -> K -> bool.

(** [by_key.get(key)] *)
Fixpoint dict_get (by_key : list (K * T)) (key : K) : option T :=
  match by_key with
  | [] => None
  | (k, v) :: rest => if decide (k = key) then Some v else dict_get rest key
  end.

(** The loop of [unique]. *)
Fixpoint unique_loop (items : list T) (dedupe : bool) (by_key : list (K * T))
  : error + list (K * T) :=
  match items with
  | [] => inr by_key
  | item :: rest =>
      let key := by_ item in
      match dict_get by_key key with
      | None => unique_loop rest dedupe (by_key ++ [(key, item)])%list
      | Some found =>
          if negb dedupe || negb (bool_decide (found = item)) then
            inl (ValueError ("conflict by " +:+ str_key key +:+ ": " +:+ str_item found
                             +:+ " X " +:+ str_item item))
          else unique_loop rest dedupe by_key
      end
  end.

(** What the loop of [unique] keeps true of [by_key]: no key twice, and
    every item stored under its own key. *)
Definition by_key_inv (by_key : list (K * T)) : Prop :=
  NoDup by_key.*1 /\ Forall (fun kv => kv.1 = by_ kv.2) by_key.

(** [unique] *)
Definition unique (items : list T) (dedupe : bool) : error + list T :=
  by_key <-? unique_loop items dedupe [] ;;
  inr (by_key.*2).

(** [list.sort(key=by)]: a stable sort that compares keys with [<].
    [sort_insert] puts an item before the first item whose key is not
    below its own. *)
Fixpoint sort_insert (x : T) (l : list T) : list T :=
  match l with
  | [] => [x]
  | y :: l' => if key_lt (by_ y) (by_ x) then y :: sort_insert x l' else x :: y :: l'
  end.

Definition sort_by_key (l : list T) : list T := foldr sort_insert [] l.

(** [unique_sorted] *)
Definition unique_sorted (items : list T) (dedupe : bool) : error + list T :=
  unique_items <-? unique items dedupe ;;
  inr (sort_by_key unique_items).

End Validators.

(** [check_sane_relpath] *)
Definition check_sane_relpath (path : Path) : error + Path :=
  if PathLib.is_absolute path then
    inl (ValueError ("path must be relative: " +:+ PathLib.to_string path))
  else if bool_decide (".." ∈ path) then
    inl (ValueError ("path contains ..: " +:+ PathLib.to_string path))
  else inr path.

(** ** Sample instances of the library functions

    Small executable stand-ins for the third-party functions, used to
    run the model on concrete inputs.  They agree with the libraries on
    the inputs of the examples below: URLs of the shape
    [scheme://host/path#fragment] without escapes, versions already in
    canonical form. *)

Module Sample.

Definition drop2 (s : string) : string :=
  match s with
  | String _ (String _ s') => s'
  | _ => ""
  end.

(** [scheme://netloc/path#fragment] *)
Definition urlparse (s : string) : ParseResult :=
  let '(sch, rest) := PyStr.partition ":" s in
  let '(body, frag) := PyStr.partition "#" rest in
  if PyStr.startswith body "//" then
    let '(loc, p) := PyStr.partition "/" (drop2 body) in
    mkParseResult (PyStr.lower sch) loc ("/" +:+ p) "" "" frag (Some loc) None
  else mkParseResult (PyStr.lower sch) "" body "" "" frag None None.

Definition geturl (u : ParseResult) : string :=
  scheme u +:+ "://" +:+ netloc u +:+ path u
  +:+ (if bool_decide (fragment u = "") then "" else "#" +:+ fragment u).

Definition unquote (s : string) : string := s.

Definition urldefrag (s : string) : string * string := PyStr.partition "#" s.

(** [key=value] sections separated by [&]; blank values are dropped. *)
Definition parse_qs (s : string) : gmap string (list string) :=
  foldl (fun acc section =>
           let '(k, v) := PyStr.partition "=" section in
           if bool_decide (v = "") then acc
           else <[k := (default [] (acc !! k) ++ [v])%list]> acc)
        ∅ (PyStr.split_on "&" s).

Definition canonicalize_version (v : string) : string := v.

(** A stand-in for [hashlib]: the "digest" of a content is the content
    itself, in lower case, under the one algorithm [sha256]. *)
Definition file_digest (alg content : string) : option string :=
  if bool_decide (alg = "sha256") then Some (PyStr.lower content) else None.

(** Archives are the list of their member names, one per line. *)
Definition namelist (content : string) : string + list string :=
  inr (PyStr.split_on "010" content).

(** The downloaders store the remote address as the content. *)
Definition async_download_files (files : gmap string Path) : M unit :=
  fun st => (mkState (map_fold (fun u p acc => <[p := u]> acc) (fs st) files) (logs st),
             inr tt).

Definition download_binary_file (u : string) (p : Path) (insecure : bool) : M unit :=
  fun st => (mkState (<[p := u]> (fs st)) (logs st), inr tt).

Definition clone_as_tarball (u ref : string) (p : Path) : M unit :=
  fun st => (mkState (<[p := u +:+ "@" +:+ ref]> (fs st)) (logs st), inr tt).

(** [git+https://host/namespace/repo@ref] *)
Definition extract_git_info (u : string) : error + GitInfo :=
  let parsed := urlparse u in
  let '(repo_path, ref) := PyStr.partition "@" (path parsed) in
  match PathLib.parse repo_path with
  | [_; namespace; repo] =>
      inr (mkGitInfo ("https://" +:+ netloc parsed +:+ repo_path) ref
             (netloc parsed) namespace repo)
  | _ => inl (UnsupportedFeature "unsupported repository address" None None)
  end.

Definition purl_to_string (p : PackageURL) : string :=
  "pkg:" +:+ purl_type p +:+ "/" +:+ purl_name p
  +:+ match purl_version p with Some v => "@" +:+ v | None => "" end
  +:+ match purl_qualifiers p with
      | Some q => "?" +:+ PyStr.join "&" (map (fun kv => kv.1 +:+ "=" +:+ kv.2) (map_to_list q))
      | None => ""
      end.

Definition output_dir : RootedPath := mkRooted ["/"; "out"] ["/"; "out"].
Definition pip_deps_dir : RootedPath := mkRooted ["/"; "out"] ["/"; "out"; "deps"; "pip"].
Definition requirements_txt : PipRequirementsFile :=
  mkReqFile ["requirements.txt"] [] [].

Definition APP_NAME : string := "hermeto".

Definition commit : string := "0123456789abcdef0123456789abcdef01234567".

Definition sha_a : ChecksumInfo := ChecksumInfo_new "sha256" "aaaa".
Definition sha_b : ChecksumInfo := ChecksumInfo_new "sha256" "bbbb".

(** [foo==1.0 --hash=sha256:bbbb] *)
Definition foo_pinned : PipRequirement :=
  mkReq "foo" "foo" [] [("==", "1.0")] None ["sha256:bbbb"] ∅ "pypi" "foo==1.0" [] None.

(** [foo==1.0], without hashes *)
Definition foo_plain : PipRequirement :=
  mkReq "foo" "foo" [] [("==", "1.0")] None [] ∅ "pypi" "foo==1.0" [] None.

(** [foo>=1.0] *)
Definition foo_unpinned : PipRequirement :=
  mkReq "foo" "foo" [] [(">=", "1.0")] None [] ∅ "pypi" "foo>=1.0" [] None.

(** [bar @ git+https://github.com/org/bar@<commit>] *)
Definition bar_vcs : PipRequirement :=
  mkReq "bar" "bar" [] [] None [] ∅ "vcs"
    ("bar @ git+https://github.com/org/bar@" +:+ commit) [] None.

(** [bar @ hg+https://example.org/org/bar@<commit>] *)
Definition bar_hg : PipRequirement :=
  mkReq "bar" "bar" [] [] None [] ∅ "vcs"
    ("bar @ hg+https://example.org/org/bar@" +:+ commit) [] None.

(** [bar @ git+https://github.com/org/bar@main] *)
Definition bar_branch : PipRequirement :=
  mkReq "bar" "bar" [] [] None [] ∅ "vcs"
    "bar @ git+https://github.com/org/bar@main" [] None.

(** [baz @ https://example.org/baz-2.0.tar.gz --hash=sha256:cccc] *)
Definition baz_url : PipRequirement :=
  mkReq "baz" "baz" [] [] None ["sha256:cccc"] ∅ "url"
    "baz @ https://example.org/baz-2.0.tar.gz" [] None.

(** The same archive under another address, same name and hash *)
Definition baz_mirror : PipRequirement :=
  mkReq "baz" "baz" [] [] None ["sha256:cccc"] ∅ "url"
    "baz @ https://mirror.example.org/pool/baz-2.0.tar.gz" [] None.

Definition sdist_package (filename : string) (yanked : bool) (digest : string)
  : DistributionPackage :=
  mkPkg filename ("https://files.example.org/" +:+ filename) (Some "1.0") (Some "sdist")
    [("sha256", digest)] yanked.

Definition wheel_package (filename : string) (digest : string) : DistributionPackage :=
  mkPkg filename ("https://files.example.org/" +:+ filename) (Some "1.0") (Some "wheel")
    [("sha256", digest)] false.

Definition empty_state : State := mkState ∅ [].

(** Project pages for [foo]: a yanked [.tar.gz] next to a [.zip]; a lone
    sdist; an sdist whose digest differs next to one whose digest agrees
    with [sha256:bbbb]. *)
Definition page_two_sdists (index name : string) : string + list DistributionPackage :=
  inr [sdist_package "foo-1.0.tar.gz" true "aaaa"; sdist_package "foo-1.0.zip" false "aaaa"].

Definition page_one_sdist (index name : string) : string + list DistributionPackage :=
  inr [sdist_package "foo-1.0.tar.gz" false "aaaa"].

Definition page_mixed (index name : string) : string + list DistributionPackage :=
  inr [sdist_package "foo-1.0.tar.gz" false "aaaa"; sdist_package "foo-1.0.zip" false "bbbb"].

Definition sdist_dpi (filename : string) (yanked : bool)
    (pypi req_file : gset ChecksumInfo) : DistributionPackageInfo :=
  DistributionPackageInfo_new "foo" "1.0" "sdist"
    ["/"; "out"; "deps"; "pip"; filename] ("https://files.example.org/" +:+ filename)
    PYPI_SIMPLE_ENDPOINT yanked pypi req_file.

(** A wheel of [foo] whose PyPI digest is [aaaa], downloaded with a
    content whose digest is [zzzz]. *)
Definition mismatched_wheel : DistributionPackageInfo :=
  DistributionPackageInfo_new "foo" "1.0" "wheel"
    ["/"; "out"; "deps"; "pip"; "foo-1.0-py3-none-any.whl"]
    "https://files.example.org/foo-1.0-py3-none-any.whl"
    PYPI_SIMPLE_ENDPOINT false {[ sha_a ]} ∅.

Definition downloaded_state : State :=
  mkState {[ dpi_path mismatched_wheel := "zzzz" ]} [].

(** A requirements file holding the VCS requirement [bar_vcs]. *)
Definition vcs_file : PipRequirementsFile :=
  mkReqFile ["requirements.txt"] [] [bar_vcs].

(** Dependencies as [_resolve_pip] lists them. *)
Definition dependency (kind version : string) (index : pyval) : gmap string pyval :=
  <["index_url" := index]>
  (<["kind" := PStr kind]>
   (<["version" := PStr version]>
    (<["name" := PStr "dep"]> ∅))).

(** A yarn project with the workspaces glob [packages/*], matching the
    directories [packages/a], which has a manifest, and [packages/b],
    which has none. *)
Definition repo : RootedPath := mkRooted ["/"; "repo"] ["/"; "repo"].

Definition json_loads (content : string) : option (list (string * json)) :=
  if bool_decide (content = "root") then
    Some [("name", JString "root"); ("workspaces", JArray [JString "packages/*"])]
  else if bool_decide (content = "a") then Some [("name", JString "a")]
  else None.

Definition glob_dirs (base : Path) (pattern : string) : list Path :=
  if bool_decide (pattern = "packages/*")
  then [(base ++ ["packages"; "a"])%list; (base ++ ["packages"; "b"])%list]
  else [].

(** The same glob, resolving through a link that leaves the project. *)
Definition glob_outside (base : Path) (pattern : string) : list Path :=
  [["/"; "elsewhere"; "c"]].

Definition repo_state : State :=
  mkState (<[ ["/"; "repo"; "packages"; "a"; "package.json"] := "a" ]>
           {[ ["/"; "repo"; "package.json"] := "root" ]}) [].

(** Items with a numeric key, for the validators: the key, and the
    texts of a key and of an item. *)
Definition item_key (x : string * nat) : nat := x.2.
Definition key_str (k : nat) : string := pretty k.
Definition item_str (x : string * nat) : string := x.1 +:+ "=" +:+ pretty x.2.

End Sample.

(** ** The pip engine *)

Section Engine.

(** *** Constants and functions the engine imports *)

(** [hermeto.APP_NAME] *)
Variable APP_NAME : string.
(** [urllib.parse] *)
Variable urlparse : string -> ParseResult.
Variable geturl : ParseResult -> string.
Variable unquote : string -> string.
Variable urldefrag : string -> string * string.
Variable parse_qs : string -> gmap string (list string).
(** [packaging.utils.canonicalize_version] *)
Variable canonicalize_version : string -> string.
(** [hermeto.core.package_managers.general.extract_git_info] *)
Variable extract_git_info : string -> error + GitInfo.
(** [hashlib]: the hex digest of a content under an algorithm, if the
    algorithm is known. *)
Variable file_digest : string -> string -> option string.
(** [zipfile] and [tarfile]: the member names of an archive, or the text
    of the [BadZipFile] / [ReadError] raised on opening it. *)
Variable zip_namelist : string -> string + list string.
Variable tar_names : string -> string + list string.
(** [PyPISimple(index_url).get_project_page(name)]: the packages of the
    project page, or the text of the request error. *)
Variable get_project_page : string -> string -> string + list DistributionPackage.
(** The downloaders: they act on the output directory. *)
Variable async_download_files : gmap string Path -> M unit.
Variable download_binary_file : string -> Path -> bool -> M unit.
Variable clone_as_tarball : string -> string -> Path -> M unit.
(** [PackageURL.to_string] *)
Variable purl_to_string : PackageURL -> string.

(** *** Validation *)

(** [len(vspec) != 1 or vspec[0][0] not in ("==", "===")], negated. *)
Definition pinned (vspec : list (string * string)) : bool :=
  match vspec with
  | [(op, _)] => bool_decide (op = "==") || bool_decide (op = "===")
  | _ => false
  end.

(** The body of the loop of [_validate_requirements].  The [solution]
    and [docs] recorded in an error are the ones the call site passes. *)
Definition _validate_requirement (req : PipRequirement) (allow_binary : bool) : error + unit :=
  if bool_decide (req_kind req = "pypi") then
    if negb (pinned (req_version_specs req)) then
      inl (PackageRejected
             ("Requirement must be pinned to an exact version: " +:+ req_download_line req)
             (Some ("Please pin all packages as <name>==<version>" +:+ String "010"%char
                    "You may wish to use a tool such as pip-compile to pin automatically."))
             (Some PIP_REQUIREMENTS_TXT_DOC))
    else inr tt
  else if bool_decide (req_kind req = "vcs") then
    u <-? url req ;;
    let parsed := urlparse u in
    if negb (PyStr.startswith (scheme parsed) "git") then
      inl (UnsupportedFeature
             ("Unsupported VCS for " +:+ req_download_line req +:+ ": " +:+ scheme parsed
              +:+ " (only git is supported)") None None)
    else if negb (GIT_REF_IN_PATH_search (path parsed)) then
      inl (PackageRejected
             ("No git ref in " +:+ req_download_line req
              +:+ " (expected 40 hexadecimal characters)")
             (Some "Please specify the full commit hash for git URLs or switch to https URLs.")
             (Some PIP_EXTERNAL_DEPS_DOC))
    else inr tt
  else if bool_decide (req_kind req = "url") then
    let n_hashes :=
      length (req_hashes req) +
      (match req_qualifiers req !! "cachito_hash" with
       | Some h => if bool_decide (h = "") then 0 else 1
       | None => 0
       end) in
    if negb (n_hashes =? 1)%nat then
      inl (PackageRejected
             ("URL requirement must specify exactly one hash, but specifies "
              +:+ pretty n_hashes +:+ ": " +:+ req_download_line req +:+ ".")
             (Some ("Please specify the expected hashes for all plain URLs using "
                    +:+ "--hash options (one --hash for each)"))
             (Some PIP_EXTERNAL_DEPS_DOC))
    else
      let allowed_extensions :=
        if allow_binary then ALL_FILE_EXTENSIONS else SDIST_FILE_EXTENSIONS in
      u <-? url req ;;
      let parsed := urlparse u in
      if negb (existsb (PyStr.endswith (path parsed)) allowed_extensions) then
        inl (PackageRejected
               ("URL for requirement does not contain any recognized file extension: "
                +:+ req_download_line req +:+ " (expected one of "
                +:+ PyStr.join ", " allowed_extensions +:+ ")") None None)
      else inr tt
  else inr tt.

(** [_validate_requirements] *)
Fixpoint _validate_requirements (requirements : list PipRequirement) (allow_binary : bool)
  : error + unit :=
  match requirements with
  | [] => inr tt
  | req :: rest =>
      _ <-? _validate_requirement req allow_binary ;;
      _validate_requirements rest allow_binary
  end.

(** The check of one hash specifier in [_validate_provided_hashes]. *)
Fixpoint _validate_hash_specs (hashes : list string) : error + unit :=
  match hashes with
  | [] => inr tt
  | hash_spec :: rest =>
      let '(_, digest) := PyStr.partition ":" hash_spec in
      if bool_decide (digest = "") then
        inl (PackageRejected
               ("Not a valid hash specifier: '" +:+ hash_spec
                +:+ "' (expected 'algorithm:digest')") None None)
      else _validate_hash_specs rest
  end.

(** [_validate_provided_hashes] *)
Fixpoint _validate_provided_hashes (requirements : list PipRequirement) (require_hashes : bool)
  : error + unit :=
  match requirements with
  | [] => inr tt
  | req :: rest =>
      hashes <-? (if bool_decide (req_kind req = "url") then
                    match req_hashes req with
                    | [] => match req_qualifiers req !! "cachito_hash" with
                            | Some h => inr [h]
                            | None => inl (KeyError "cachito_hash")
                            end
                    | hs => inr hs
                    end
                  else inr (req_hashes req)) ;;
      if require_hashes && bool_decide (hashes = []) then
        inl (PackageRejected
               ("Hash is required, dependency does not specify any: " +:+ req_download_line req)
               (Some "Please specify the expected hashes for all dependencies")
               (Some PIP_REQUIREMENTS_TXT_DOC))
      else
        _ <-? _validate_hash_specs hashes ;;
        _validate_provided_hashes rest require_hashes
  end.

(** The loop of [_process_options]: the options left to read, the
    options found so far, the ignored and the rejected ones. *)
Fixpoint _process_options_loop (options : list string) (opts : Options)
    (ignored rejected : list string) : error + (Options * list string * list string) :=
  match options with
  | [] => inr (opts, ignored, rejected)
  | option :: rest =>
      if bool_decide (option = "--require-hashes") then
        _process_options_loop rest
          (mkOptions true (trusted_hosts opts) (index_url opts)) ignored rejected
      else if bool_decide (option = "--trusted-host") then
        match rest with
        | host :: rest' =>
            _process_options_loop rest'
              (mkOptions (require_hashes opts) (trusted_hosts opts ++ [host])%list (index_url opts))
              ignored rejected
        | [] => inl IndexError
        end
      else if bool_decide (option = "-i") || bool_decide (option = "--index-url") then
        match rest with
        | index :: rest' =>
            _process_options_loop rest'
              (mkOptions (require_hashes opts) (trusted_hosts opts) (Some index))
              ignored rejected
        | [] => inl IndexError
        end
      else if bool_decide (option ∈ ["--extra-index-url"; "--no-index"; "-f";
                                     "--find-links"; "--only-binary"]) then
        _process_options_loop rest opts ignored (rejected ++ [option])%list
      else if PyStr.startswith option "-" then
        _process_options_loop rest opts (ignored ++ [option])%list rejected
      else _process_options_loop rest opts ignored rejected
  end.

(** [_process_options] *)
Definition _process_options (options : list string) : M Options :=
  r <- lift (_process_options_loop options (mkOptions false [] None) [] []) ;;
  let '(opts, ignored, rejected) := r in
  (if bool_decide (ignored = []) then ret tt
   else log INFO (APP_NAME +:+ " will ignore the following options: "
                  +:+ PyStr.join ", " ignored)) ;;;
  if bool_decide (rejected = []) then ret opts
  else raise (UnsupportedFeature
                (APP_NAME +:+ " does not support the following options: "
                 +:+ PyStr.join ", " rejected) None None).

(** *** Selecting the distributions of a PyPI requirement *)

(** [_sdist_preference]: the sort key, higher is better.  As in the
    source, the file type is read off [sdist_pkg.name]. *)
Definition _sdist_preference (sdist_pkg : DistributionPackageInfo) : nat * nat :=
  let yanked_pref := if dpi_is_yanked sdist_pkg then 0 else 1 in
  let filename := dpi_name sdist_pkg in
  let filetype_pref :=
    if PyStr.endswith filename ".tar.gz" then 2
    else if PyStr.endswith filename ".zip" then 1
    else 0 in
  (yanked_pref, filetype_pref).

(** Order of Python tuples of two integers. *)
Definition tuple_lt (a b : nat * nat) : bool :=
  ((a.1 <? b.1) || ((a.1 =? b.1) && (a.2 <? b.2)))%nat.

(** [max(best :: l, key=key)]: the first element whose key no later
    element exceeds. *)
Fixpoint max_by {A} (key : A -> nat * nat) (best : A) (l : list A) : A :=
  match l with
  | [] => best
  | x :: l' => max_by key (if tuple_lt (key best) (key x) then x else best) l'
  end.

(** The inner function [_is_valid] of [_process_package_distributions]. *)
Definition _is_valid (allowed_distros : list string) (normalized_version : string)
    (pkg : DistributionPackage) : bool :=
  match pkg_version pkg, pkg_package_type pkg with
  | Some v, Some t =>
      bool_decide (canonicalize_version v = normalized_version)
      && bool_decide (t ∈ allowed_distros)
  | _, _ => false
  end.

(** The DPI built for one package of the project page. *)
Definition dpi_of_package (name version : string) (pip_deps_dir : RootedPath)
    (index : string) (req_file : gset ChecksumInfo) (package : DistributionPackage)
  : error + DistributionPackageInfo :=
  let pypi : gset ChecksumInfo :=
    list_to_set (map (fun ad => ChecksumInfo_new ad.1 ad.2) (pkg_digests package)) in
  p <-? join_within_root pip_deps_dir [PathLib.parse (pkg_filename package)] ;;
  inr (DistributionPackageInfo_new name version (default "" (pkg_package_type package))
         (rp_path p) (pkg_url package) index (pkg_is_yanked package) pypi req_file).

(** The loop over the packages of the project page: the sdists and the
    wheels kept so far. *)
Fixpoint collect_distributions (name version : string) (pip_deps_dir : RootedPath)
    (index : string) (req_file : gset ChecksumInfo)
    (allowed_distros : list string) (normalized_version : string)
    (packages : list DistributionPackage)
    (sdists wheels : list DistributionPackageInfo)
  : M (list DistributionPackageInfo * list DistributionPackageInfo) :=
  match packages with
  | [] => ret (sdists, wheels)
  | package :: rest =>
      let continue_ := collect_distributions name version pip_deps_dir index req_file
                         allowed_distros normalized_version rest in
      if negb (_is_valid allowed_distros normalized_version package) then
        continue_ sdists wheels
      else
        dpi <- lift (dpi_of_package name version pip_deps_dir index req_file package) ;;
        if should_download dpi then
          if bool_decide (dpi_package_type dpi = "sdist") then
            continue_ (sdists ++ [dpi])%list wheels
          else continue_ sdists (wheels ++ [dpi])%list
        else
          log INFO ("Filtering out " +:+ pkg_filename package +:+ " due to checksum mismatch") ;;;
          continue_ sdists wheels
  end.

(** [_process_package_distributions] *)
Definition _process_package_distributions (requirement : PipRequirement)
    (pip_deps_dir : RootedPath) (allow_binary : bool) (index : string)
  : M (list DistributionPackageInfo) :=
  let allowed_distros := if allow_binary then ["sdist"; "wheel"] else ["sdist"] in
  let name := req_package requirement in
  match req_version_specs requirement with
  | [] => raise IndexError
  | (_, version) :: _ =>
      let normalized_version := canonicalize_version version in
      let req_file : gset ChecksumInfo :=
        list_to_set (map _to_checksum_info (req_hashes requirement)) in
      match get_project_page index name with
      | inl e => raise (FetchError ("PyPI query failed: " +:+ e))
      | inr packages =>
          sw <- collect_distributions name version pip_deps_dir index req_file
                  allowed_distros normalized_version packages [] [] ;;
          let '(sdists, wheels) := sw in
          processed_dpis <-
            match sdists with
            | first :: others =>
                let best_sdist := max_by _sdist_preference first others in
                (if dpi_is_yanked best_sdist then
                   log WARNING ("The version " +:+ version +:+ " of package " +:+ name
                                +:+ " is yanked, use a different version")
                 else ret tt) ;;;
                ret [best_sdist]
            | [] =>
                log WARNING ("No sdist found for package " +:+ name +:+ "==" +:+ version) ;;;
                if bool_decide (wheels = []) then
                  raise (if allow_binary then
                           PackageRejected
                             ("No distributions found for package " +:+ name +:+ "==" +:+ version)
                             (Some ("Please check that the package exists on PyPI or that the name"
                                    +:+ " and version are correct." +:+ String "010"%char ""))
                             None
                         else
                           PackageRejected
                             ("No distributions found for package " +:+ name +:+ "==" +:+ version)
                             (Some ("It seems that this version does not exist or isn't published as an"
                                    +:+ " sdist." +:+ String "010"%char ""
                                    +:+ "Try to specify the dependency directly via a URL instead, for example,"
                                    +:+ " the tarball for a GitHub release." +:+ String "010"%char ""
                                    +:+ "Alternatively, allow the use of wheels."))
                             (Some PIP_NO_SDIST_DOC))
                else ret []
            end ;;
          ret (processed_dpis ++ wheels)%list
      end
  end.

(** *** Checksum verification *)

(** Modelled from the spec: [must_match_any_checksum] belongs to
    [hermeto.core.checksum], which is not part of the sources at hand.
    The spec has the verifier compute the algorithms of the expected
    checksums over the content of the artifact and pass if any entry
    matches; its caller here records that it returns nothing and raises
    [PackageRejected] on failure.  Removing the file is left to that
    caller, which unlinks the path itself. *)
Definition must_match_any_checksum (p : Path) (expected : list ChecksumInfo) : M unit :=
  fun st => match fs st !! p with
            | None => (st, inl (FileNotFoundError (PathLib.to_string p)))
            | Some content =>
                if existsb (fun c => bool_decide
                                       (file_digest (algorithm c) content = Some (hexdigest c)))
                     expected
                then (st, inr tt)
                else (st, inl (PackageRejected
                                 ("Failed to verify " +:+ PathLib.name p
                                  +:+ " against any of the provided checksums.")
                                 (Some "Please check the expected checksums of the dependency")
                                 None))
            end.

(** The inner function [_checksum_must_match_or_path_unlink] of
    [_process_req]. *)
Definition _checksum_must_match_or_path_unlink (p : Path) (checksum_info : list ChecksumInfo)
  : M unit :=
  try_except (must_match_any_checksum p checksum_info) is_rejection
    (fun _ =>
       unlink p ;;;
       log WARNING ("Download '" +:+ PathLib.name p
                    +:+ "' was removed from the output directory")).

(** [_is_pkg_info_dir]: [os.path.split] always yields two parts, so the
    test is on the text after the last slash. *)
Definition _is_pkg_info_dir (p : string) : bool :=
  bool_decide (last (PyStr.split_on "/" p) = Some "PKG-INFO").

(** Reading the member names of the archive at [p], then looking for the
    metadata: the [try] block of [_check_metadata_in_sdist]. *)
Definition check_members (reader : string -> string + list string) (format : string)
    (p : Path) : M unit :=
  fun st => match fs st !! p with
            | None => (st, inl (FileNotFoundError (PathLib.to_string p)))
            | Some content =>
                match reader content with
                | inl e =>
                    (st, inl (PackageRejected
                                ("Cannot open " +:+ PathLib.to_string p +:+ " as a " +:+ format
                                 +:+ " file. Error: " +:+ e) None None))
                | inr names =>
                    if existsb _is_pkg_info_dir names then (st, inr tt)
                    else (st, inl (PackageRejected
                                     (PathLib.name p
                                      +:+ " does not include metadata (there is no PKG-INFO file). "
                                      +:+ "It is not a valid sdist and cannot be downloaded from PyPI.")
                                     (Some ("Consider editing your requirements file to download the package from git "
                                            +:+ "or a direct download URL instead."))
                                     (Some PIP_NO_SDIST_DOC)))
                end
            end.

(** [_check_metadata_in_sdist] *)
Definition _check_metadata_in_sdist (sdist_path : Path) : M unit :=
  let name := PathLib.name sdist_path in
  if PyStr.endswith name ".zip" then check_members zip_namelist "Zip" sdist_path
  else if PyStr.endswith name ".tar.Z" then
    log WARNING ("Skip checking metadata from compressed sdist " +:+ name)
  else if existsb (PyStr.endswith name) SDIST_FILE_EXTENSIONS then
    check_members tar_names "Tar" sdist_path
  else raise (ValueError ("Cannot check metadata from " +:+ PathLib.to_string sdist_path
                          +:+ ", which does not have a known supported extension.")).

(** *** Where an external requirement is stored *)

(** The first extension of [exts] that ends [s], [""] if none: the
    [for ... break] loop of [_get_external_requirement_filepath]. *)
Fixpoint first_extension (s : string) (exts : list string) : string :=
  match exts with
  | [] => ""
  | ext :: rest => if PyStr.endswith s ext then ext else first_extension s rest
  end.

(** [hashes[0] if hashes else requirement.qualifiers["cachito_hash"]] *)
Definition hash_spec_of (requirement : PipRequirement) : error + string :=
  match req_hashes requirement with
  | h :: _ => inr h
  | [] => match req_qualifiers requirement !! "cachito_hash" with
          | Some h => inr h
          | None => inl (KeyError "cachito_hash")
          end
  end.

(** [_get_external_requirement_filepath] *)
Definition _get_external_requirement_filepath (requirement : PipRequirement) : error + Path :=
  if bool_decide (req_kind requirement = "url") then
    let package := req_package requirement in
    hash_spec <-? hash_spec_of requirement ;;
    let '(algorithm, digest) := PyStr.partition ":" hash_spec in
    u <-? url requirement ;;
    let orig_url := urlparse u in
    let file_ext := first_extension (path orig_url) ALL_FILE_EXTENSIONS in
    if bool_decide (file_ext = WHEEL_FILE_EXTENSION) then
      let filename := PathLib.name (PathLib.parse (path orig_url)) in
      inr (PathLib.parse (unquote filename))
    else
      inr (PathLib.Path_of
             ["external-" +:+ package;
              package +:+ "-external-" +:+ algorithm +:+ "-" +:+ digest +:+ file_ext])
  else if bool_decide (req_kind requirement = "vcs") then
    u <-? url requirement ;;
    git_info <-? extract_git_info u ;;
    let repo := git_repo git_info in
    let ref := git_ref git_info in
    inr (PathLib.Path_of
           [git_host git_info; git_namespace git_info; repo;
            repo +:+ "-external-gitcommit-" +:+ ref +:+ ".tar.gz"])
  else inl (ValueError ("requirement.kind='" +:+ req_kind requirement
                        +:+ "' is neither 'url' nor 'vcs'")).

(** What identifies a URL requirement for storage: the package name,
    the algorithm and the digest of its hash, the file extension of the
    URL path and, for a wheel, its unquoted file name. *)
Definition url_identifying_data (requirement : PipRequirement)
  : error + (string * string * string * string * string) :=
  hash_spec <-? hash_spec_of requirement ;;
  u <-? url requirement ;;
  let '(algorithm, digest) := PyStr.partition ":" hash_spec in
  let file_ext := first_extension (path (urlparse u)) ALL_FILE_EXTENSIONS in
  inr (req_package requirement, algorithm, digest, file_ext,
       if bool_decide (file_ext = WHEEL_FILE_EXTENSION)
       then unquote (PathLib.name (PathLib.parse (path (urlparse u))))
       else "").

(** What identifies a VCS requirement for storage: the git host, the
    namespace, the repository and the commit ref. *)
Definition vcs_identifying_data (requirement : PipRequirement)
  : error + (string * string * string * string) :=
  u <-? url requirement ;;
  git_info <-? extract_git_info u ;;
  inr (git_host git_info, git_namespace git_info, git_repo git_info, git_ref git_info).

(** *** Downloading and processing one requirement *)

(** [_download_vcs_package] *)
Definition _download_vcs_package (requirement : PipRequirement) (pip_deps_dir : RootedPath)
  : M (gmap string pyval) :=
  u <- lift (url requirement) ;;
  git_info <- lift (extract_git_info u) ;;
  filepath <- lift (_get_external_requirement_filepath requirement) ;;
  download_to <- lift (join_within_root pip_deps_dir [filepath]) ;;
  clone_as_tarball (git_url git_info) (git_ref git_info) (rp_path download_to) ;;;
  ret (<["repo" := PStr (git_repo git_info)]>
       (<["namespace" := PStr (git_namespace git_info)]>
        (<["host" := PStr (git_host git_info)]>
         (<["ref" := PStr (git_ref git_info)]>
          (<["url" := PStr (git_url git_info)]>
           (<["path" := PPath (rp_path download_to)]>
            (<["package" := PStr (req_package requirement)]> ∅))))))).

(** [_add_cachito_hash_to_url] *)
Definition _add_cachito_hash_to_url (parsed_url : ParseResult) (hash_spec : string) : string :=
  let new_fragment := "cachito_hash=" +:+ hash_spec in
  let new_fragment :=
    if bool_decide (fragment parsed_url = "") then new_fragment
    else fragment parsed_url +:+ "&" +:+ new_fragment in
  geturl (mkParseResult (scheme parsed_url) (netloc parsed_url) (path parsed_url)
            (params parsed_url) (query parsed_url) new_fragment
            (hostname parsed_url) (port parsed_url)).

(** [_download_url_package] *)
Definition _download_url_package (requirement : PipRequirement) (pip_deps_dir : RootedPath)
    (trusted : list string) : M (gmap string pyval) :=
  u <- lift (url requirement) ;;
  let parsed := urlparse u in
  filepath <- lift (_get_external_requirement_filepath requirement) ;;
  download_to <- lift (join_within_root pip_deps_dir [filepath]) ;;
  let insecure :=
    match port parsed with
    | Some p =>
        if bool_decide (default "None" (hostname parsed) +:+ ":" +:+ pretty p ∈ trusted)
        then true
        else match hostname parsed with
             | Some h => bool_decide (h ∈ trusted)
             | None => false
             end
    | None => match hostname parsed with
              | Some h => bool_decide (h ∈ trusted)
              | None => false
              end
    end in
  download_binary_file u (rp_path download_to) insecure ;;;
  url_with_hash <-
    (if bool_decide (is_Some (req_qualifiers requirement !! "cachito_hash")) then ret u
     else match req_hashes requirement with
          | h :: _ => ret (_add_cachito_hash_to_url parsed h)
          | [] => raise IndexError
          end) ;;
  ret (<["url_with_hash" := PStr url_with_hash]>
       (<["original_url" := PStr u]>
        (<["path" := PPath (rp_path download_to)]>
         (<["package" := PStr (req_package requirement)]> ∅)))).

(** [download_info["path"]] *)
Definition path_of_info (download_info : gmap string pyval) : error + Path :=
  match download_info !! "path" with
  | Some (PPath p) => inr p
  | Some _ => inl (ValueError "path is not a Path")
  | None => inl (KeyError "path")
  end.

(** [DistributionPackageInfo.download_info] *)
Definition download_info_of (d : DistributionPackageInfo) : gmap string pyval :=
  <["path" := PPath (dpi_path d)]>
  (<["version" := PStr (dpi_version d)]>
   (<["package" := PStr (dpi_name d)]> ∅)).

(** [_process_req].  The dictionary is updated in place in the source;
    here each update yields the next dictionary.  The last step stands
    for the arguments of the closing [log.debug], which are evaluated
    whatever the log level. *)
Definition _process_req (req : PipRequirement) (requirements_file : PipRequirementsFile)
    (pip_deps_dir : RootedPath) (download_info : gmap string pyval)
    (dpi : option DistributionPackageInfo) : M (gmap string pyval) :=
  let download_info := <["kind" := PStr (req_kind req)]> download_info in
  let download_info :=
    <["requirement_file" :=
        PStr (PathLib.to_string (file_subpath_from_root requirements_file))]> download_info in
  let download_info := <["missing_req_file_checksum" := PBool true]> download_info in
  let download_info := <["package_type" := PStr ""]> download_info in
  download_info <-
    match dpi with
    | Some dpi =>
        let download_info :=
          if nonempty (req_file_checksums dpi)
          then <["missing_req_file_checksum" := PBool false]> download_info
          else download_info in
        (if has_checksums_to_match dpi then
           _checksum_must_match_or_path_unlink (dpi_path dpi) (elements (checksums_to_match dpi))
         else ret tt) ;;;
        (if bool_decide (dpi_package_type dpi = "sdist") then
           _check_metadata_in_sdist (dpi_path dpi)
         else ret tt) ;;;
        ret (<["index_url" := PStr (dpi_index_url dpi)]>
             (<["package_type" := PStr (dpi_package_type dpi)]> download_info))
    | None =>
        if bool_decide (req_kind req = "vcs") then ret download_info
        else if bool_decide (req_kind req = "url") then
          let hashes :=
            match req_hashes req with
            | [] => [default "" (req_qualifiers req !! "cachito_hash")]
            | hs => hs
            end in
          if bool_decide (hashes = []) then ret download_info
          else
            let download_info := <["missing_req_file_checksum" := PBool false]> download_info in
            p <- lift (path_of_info download_info) ;;
            _checksum_must_match_or_path_unlink p (map _to_checksum_info hashes) ;;;
            ret download_info
        else ret download_info
    end ;;
  p <- lift (path_of_info download_info) ;;
  _ <- lift (PathLib.relative_to p (rp_root pip_deps_dir)) ;;
  ret download_info.

(** [for x in l: acc.append(f(x))] *)
Fixpoint mapM {A B} (f : A -> M B) (l : list A) : M (list B) :=
  match l with
  | [] => ret []
  | x :: l' => y <- f x ;; ys <- mapM f l' ;; ret (y :: ys)
  end.

(** [{dpi.url: dpi.path for dpi in artifacts if not dpi.path.exists()}] *)
Definition files_to_download (st : State) (artifacts : list DistributionPackageInfo)
  : gmap string Path :=
  foldl (fun files d =>
           if bool_decide (is_Some (fs st !! dpi_path d)) then files
           else <[dpi_url d := dpi_path d]> files) ∅ artifacts.

(** [_process_pypi_req] *)
Definition _process_pypi_req (req : PipRequirement) (requirements_file : PipRequirementsFile)
    (index : string) (pip_deps_dir : RootedPath) (allow_binary : bool)
  : M (list (gmap string pyval)) :=
  artifacts <- _process_package_distributions req pip_deps_dir allow_binary index ;;
  st <- get_state ;;
  async_download_files (files_to_download st artifacts) ;;;
  mapM (fun artifact =>
          _process_req req requirements_file pip_deps_dir (download_info_of artifact)
            (Some artifact)) artifacts.

(** [_process_vcs_req] *)
Definition _process_vcs_req (req : PipRequirement) (pip_deps_dir : RootedPath)
    (requirements_file : PipRequirementsFile) : M (gmap string pyval) :=
  download_info <- _download_vcs_package req pip_deps_dir ;;
  _process_req req requirements_file pip_deps_dir download_info None.

(** [_process_url_req] *)
Definition _process_url_req (req : PipRequirement) (pip_deps_dir : RootedPath)
    (trusted : list string) (requirements_file : PipRequirementsFile)
  : M (gmap string pyval) :=
  download_info <- _download_url_package req pip_deps_dir trusted ;;
  result <- _process_req req requirements_file pip_deps_dir download_info None ;;
  u <- lift (url req) ;;
  if PyStr.endswith u WHEEL_FILE_EXTENSION
  then ret (<["package_type" := PStr "wheel"]> result)
  else ret result.

(** *** A whole requirements file *)

(** The loop of [_download_dependencies] over the requirements. *)
Fixpoint process_requirements (requirements : list PipRequirement)
    (requirements_file : PipRequirementsFile) (options : Options)
    (pip_deps_dir : RootedPath) (allow_binary : bool) : M (list (gmap string pyval)) :=
  match requirements with
  | [] => ret []
  | req :: rest =>
      log INFO ("-- Processing requirement line '" +:+ req_download_line req +:+ "'") ;;;
      download_infos <-
        (if bool_decide (req_kind req = "pypi") then
           _process_pypi_req req requirements_file
             (match index_url options with
              | Some i => if bool_decide (i = "") then PYPI_SIMPLE_ENDPOINT else i
              | None => PYPI_SIMPLE_ENDPOINT
              end)
             pip_deps_dir allow_binary
         else if bool_decide (req_kind req = "vcs") then
           download_info <- _process_vcs_req req pip_deps_dir requirements_file ;;
           ret [download_info]
         else if bool_decide (req_kind req = "url") then
           download_info <- _process_url_req req pip_deps_dir (trusted_hosts options)
                              requirements_file ;;
           ret [download_info]
         else raise (RuntimeError ("Unexpected requirement kind: ''" +:+ req_kind req
                                   +:+ "''"))) ;;
      log INFO ("-- Finished processing requirement line '" +:+ req_download_line req +:+ "'"
                +:+ String "010"%char "") ;;;
      processed <- process_requirements rest requirements_file options pip_deps_dir allow_binary ;;
      ret (download_infos ++ processed)%list
  end.

(** [_download_dependencies] *)
Definition _download_dependencies (output_dir : RootedPath)
    (requirements_file : PipRequirementsFile) (allow_binary : bool)
  : M (list (gmap string pyval)) :=
  options <- _process_options (file_options requirements_file) ;;
  require <-
    (if require_hashes options then
       log INFO "Global --require-hashes option used, will require hashes" ;;; ret true
     else if existsb (fun req => negb (bool_decide (req_hashes req = [])))
               (file_requirements requirements_file) then
       log INFO "At least one dependency uses the --hash option, will require hashes" ;;;
       ret true
     else
       log INFO "No hash options used, will not require hashes unless HTTP(S) dependencies are present." ;;;
       ret false) ;;
  lift (_validate_requirements (file_requirements requirements_file) allow_binary) ;;;
  lift (_validate_provided_hashes (file_requirements requirements_file) require) ;;;
  pip_deps_dir <- lift (join_within_root output_dir [["deps"]; ["pip"]]) ;;
  process_requirements (file_requirements requirements_file) requirements_file options
    pip_deps_dir allow_binary.

(** *** From download information to components *)

Definition get_item (d : gmap string pyval) (key : string) : error + pyval :=
  match d !! key with
  | Some v => inr v
  | None => inl (KeyError key)
  end.

(** [str(v)], as an f-string formats it *)
Definition py_str (v : pyval) : string :=
  match v with
  | PStr s => s
  | PBool true => "True"
  | PBool false => "False"
  | PPath p => PathLib.to_string p
  | PNone => "None"
  end.

(** Truth value *)
Definition py_truth (v : pyval) : bool :=
  match v with
  | PStr s => negb (bool_decide (s = ""))
  | PBool b => b
  | PPath _ => true
  | PNone => false
  end.

(** The inner function [_version] of [_resolve_pip] *)
Definition _version (dep : gmap string pyval) : error + pyval :=
  kind <-? get_item dep "kind" ;;
  if bool_decide (kind = PStr "pypi") then get_item dep "version"
  else if bool_decide (kind = PStr "vcs") then
    u <-? get_item dep "url" ;;
    ref <-? get_item dep "ref" ;;
    inr (PStr ("git+" +:+ py_str u +:+ "@" +:+ py_str ref))
  else get_item dep "url_with_hash".

(** One entry of the [dependencies] list built by [_resolve_pip]. *)
Definition _resolve_pip_dependency (dep : gmap string pyval) : error + gmap string pyval :=
  name <-? get_item dep "package" ;;
  version <-? _version dep ;;
  kind <-? get_item dep "kind" ;;
  requirement_file <-? get_item dep "requirement_file" ;;
  missing <-? get_item dep "missing_req_file_checksum" ;;
  package_type <-? get_item dep "package_type" ;;
  inr (<["package_type" := package_type]>
       (<["missing_req_file_checksum" := missing]>
        (<["requirement_file" := requirement_file]>
         (<["kind" := kind]>
          (<["build_dependency" := default (PBool false) (dep !! "build_dependency")]>
           (<["type" := PStr "pip"]>
            (<["index_url" := default PNone (dep !! "index_url")]>
             (<["version" := version]>
              (<["name" := name]> ∅))))))))).

(** The [PackageURL] built by [_generate_purl_dependency]. *)
Definition purl_of_dependency (package : gmap string pyval) : error + PackageURL :=
  name <-? get_item package "name" ;;
  let dependency_kind := default PNone (package !! "kind") in
  if bool_decide (dependency_kind = PStr "pypi") then
    version <-? get_item package "version" ;;
    index <-? get_item package "index_url" ;;
    match index with
    | PStr i =>
        inr (mkPurl "pypi" (py_str name) (Some (py_str version))
               (if bool_decide (PyStr.rstrip "/" i ≠ PyStr.rstrip "/" PYPI_SIMPLE_ENDPOINT)
                then Some {[ "repository_url" := i ]} else None)
               None)
    | _ => inl (ValueError "index_url has no attribute rstrip")
    end
  else if bool_decide (dependency_kind = PStr "vcs") then
    version <-? get_item package "version" ;;
    inr (mkPurl "pypi" (py_str name) None (Some {[ "vcs_url" := py_str version ]}) None)
  else if bool_decide (dependency_kind = PStr "url") then
    version <-? get_item package "version" ;;
    let '(defragmented_url, frag) := urldefrag (py_str version) in
    match parse_qs frag !! "cachito_hash" with
    | Some (checksum :: _) =>
        inr (mkPurl "pypi" (py_str name) None
               (Some (<["checksum" := checksum]> {[ "download_url" := defragmented_url ]}))
               None)
    | Some [] => inl IndexError
    | None => inl (KeyError "cachito_hash")
    end
  else inl (RuntimeError ("Unexpected requirement kind: " +:+ py_str dependency_kind)).

(** [_generate_purl_dependency] *)
Definition _generate_purl_dependency (package : gmap string pyval) : error + string :=
  purl <-? purl_of_dependency package ;;
  inr (purl_to_string purl).

(** The [PackageURL] built by [_generate_purl_main_package]; [vcs_url]
    is [get_repo_id(package_path.root).as_vcs_url_qualifier()]. *)
Definition purl_of_main_package (name : string) (version : option string) (vcs_url : string)
    (package_path : RootedPath) : error + PackageURL :=
  sub <-? subpath_from_root package_path ;;
  inr (mkPurl "pypi" name version (Some {[ "vcs_url" := vcs_url ]})
         (if bool_decide (sub ≠ []) then Some (PathLib.to_string sub) else None)).

(** The component [fetch_pip_source] appends for one dependency. *)
Definition dependency_component (dependency : gmap string pyval) : error + Component :=
  purl <-? _generate_purl_dependency dependency ;;
  kind <-? get_item dependency "kind" ;;
  version <-? (if bool_decide (kind = PStr "pypi")
               then v <-? get_item dependency "version" ;; inr (Some (py_str v))
               else inr None) ;;
  missing <-? get_item dependency "missing_req_file_checksum" ;;
  missing_hash <-? (if py_truth missing
                    then f <-? get_item dependency "requirement_file" ;;
                         inr ({[ py_str f ]} : gset string)
                    else inr ∅) ;;
  package_type <-? get_item dependency "package_type" ;;
  build <-? get_item dependency "build_dependency" ;;
  name <-? get_item dependency "name" ;;
  inr (mkComponent (py_str name) version purl
         (mkPropertySet missing_hash
            (bool_decide (package_type = PStr "wheel"))
            (bool_decide (build = PBool true)))).

(** *** Parsing the lines of a requirements file *)

(** [UnexpectedFormat] of [hermeto.core.errors] is raised only while a
    requirements file is parsed; the parser's results carry it beside
    the errors of the rest of the code. *)
Inductive parse_error : Type :=
| UnexpectedFormat (reason : string)
| Raised (e : error).

(** [repr(s)] of a string, which the [!r] conversions of the messages
    print. *)
Variable repr : string -> string.

(** [repr(l)] of a list of strings *)
Definition repr_list (l : list string) : string :=
  "[" +:+ PyStr.join ", " (map repr l) +:+ "]".

(** [packaging.requirements.Requirement], the attributes read here;
    [marker] is [str(req.marker) if req.marker else None]. *)
Record Requirement : Type := mkRequirement {
  rq_name : string;
  rq_specifier : list (string * string);
  rq_extras : list string;
  rq_marker : option string
}.

(** [Requirement(line)]: the parsed requirement, or the text of the
    [InvalidRequirement] raised. *)
Variable parse_requirement : string -> string + Requirement.
(** [packaging.utils.canonicalize_name] *)
Variable canonicalize_name : string -> string.

(** [PipRequirementsFile.OPTIONS]: whether the option needs a value. *)
Definition OPTIONS : list (string * bool) :=
  [("--constraint", true); ("--editable", false); ("--extra-index-url", true);
   ("--find-links", true); ("--index-url", true); ("--no-binary", true);
   ("--no-index", false); ("--only-binary", true); ("--pre", false);
   ("--prefer-binary", false); ("--require-hashes", false); ("--requirement", true);
   ("--trusted-host", true); ("--use-feature", true); ("-c", true); ("-e", false);
   ("-f", true); ("--hash", true); ("-i", true); ("-r", true)].

Definition REQUIREMENT_OPTIONS : list string := ["-e"; "--editable"; "--hash"].

(** [OPTIONS.get(option)] *)
Fixpoint options_get (d : list (string * bool)) (key : string) : option bool :=
  match d with
  | [] => None
  | (k, v) :: rest => if bool_decide (k = key) then Some v else options_get rest key
  end.

(** Which list [_context_options] refers to: the unnamed list it
    starts as, [global_options] or [requirement_options]. *)
Inductive option_context : Type := no_context | global_context | requirement_context.

(** The local variables of [_split_options_and_requirement]. *)
Record SplitState : Type := mkSplit {
  sp_global_options : list string;
  sp_requirement_options : list string;
  sp_requirement : list string;
  sp_require_value : bool;
  sp_context_options : option_context
}.

(** [_context_options.append(item)]; the list appended to is the one
    the name refers to. *)
Definition context_append (s : SplitState) (item : string) : SplitState :=
  match sp_context_options s with
  | global_context =>
      mkSplit (sp_global_options s ++ [item])%list (sp_requirement_options s)
        (sp_requirement s) (sp_require_value s) global_context
  | requirement_context =>
      mkSplit (sp_global_options s) (sp_requirement_options s ++ [item])%list
        (sp_requirement s) (sp_require_value s) requirement_context
  | no_context => s
  end.

(** [_context_options[-1]] *)
Definition context_last (s : SplitState) : option string :=
  match sp_context_options s with
  | global_context => last (sp_global_options s)
  | requirement_context => last (sp_requirement_options s)
  | no_context => None
  end.

Definition set_require_value (s : SplitState) (b : bool) : SplitState :=
  mkSplit (sp_global_options s) (sp_requirement_options s) (sp_requirement s) b
    (sp_context_options s).

Definition set_context (s : SplitState) (c : option_context) : SplitState :=
  mkSplit (sp_global_options s) (sp_requirement_options s) (sp_requirement s)
    (sp_require_value s) c.

(** The option and the value of a part that starts with [-]:
    [part.split("=", 1)] if it holds an equals sign, the part and [None]
    otherwise. *)
Definition option_and_value (part : string) : string * option string :=
  if PyStr.contains "=" part
  then let '(o, v) := PyStr.partition "=" part in (o, Some v)
  else (part, None).

(** The loop of [_split_options_and_requirement] over the parts of the
    line. *)
Fixpoint split_options_loop (parts : list string) (s : SplitState)
  : parse_error + SplitState :=
  match parts with
  | [] => inr s
  | part :: rest =>
      if sp_require_value s then
        split_options_loop rest (set_require_value (context_append s part) false)
      else if PyStr.startswith part "-" then
        let '(option, value) := option_and_value part in
        match options_get OPTIONS option with
        | None => inl (UnexpectedFormat ("Unknown requirements file option " +:+ repr part))
        | Some require_value =>
            let s := set_require_value s require_value in
            let s := set_context s (if bool_decide (option ∈ REQUIREMENT_OPTIONS)
                                    then requirement_context else global_context) in
            let has_value := match value with
                             | Some v => negb (bool_decide (v = ""))
                             | None => false
                             end in
            if has_value && negb require_value then
              inl (UnexpectedFormat
                     ("Unexpected value for requirements file option " +:+ repr part))
            else
              let s := context_append s option in
              match value with
              | Some v =>
                  if has_value
                  then split_options_loop rest (set_require_value (context_append s v) false)
                  else split_options_loop rest s
              | None => split_options_loop rest s
              end
        end
      else
        split_options_loop rest
          (mkSplit (sp_global_options s) (sp_requirement_options s)
             (sp_requirement s ++ [part])%list (sp_require_value s) (sp_context_options s))
  end.

(** [_split_options_and_requirement] *)
Definition _split_options_and_requirement (line : string)
  : parse_error + (list string * list string * string) :=
  match split_options_loop (PyStr.split line) (mkSplit [] [] [] false no_context) with
  | inl e => inl e
  | inr s =>
      if sp_require_value s then
        match context_last s with
        | Some option =>
            inl (UnexpectedFormat
                   ("Requirements file option " +:+ repr option +:+ " requires a value"))
        | None => inl (Raised IndexError)
        end
      else if negb (bool_decide (sp_requirement_options s = []))
              && bool_decide (sp_requirement s = []) then
        inl (UnexpectedFormat
               ("Requirements file option(s) " +:+ repr_list (sp_requirement_options s)
                +:+ " can only be applied to a requirement"))
      else inr (sp_global_options s, sp_requirement_options s,
                PyStr.join " " (sp_requirement s))
  end.

(** The loop of [_split_hashes_from_options]: the hashes and the
    reduced options so far, and the flag [is_hash]. *)
Fixpoint split_hashes_loop (options : list string) (is_hash : bool)
    (hashes reduced_options : list string) : list string * list string * bool :=
  match options with
  | [] => (hashes, reduced_options, is_hash)
  | item :: rest =>
      if is_hash then split_hashes_loop rest false (hashes ++ [item])%list reduced_options
      else if bool_decide (item = "--hash") then
        split_hashes_loop rest true hashes reduced_options
      else split_hashes_loop rest false hashes (reduced_options ++ [item])%list
  end.

(** [PipRequirement._split_hashes_from_options] *)
Definition _split_hashes_from_options (options : list string) : list string * list string :=
  (split_hashes_loop options false [] []).1.

(** The shape of [requirement_options] while a line is read: the
    options [-e] and [--editable], and [--hash] followed by its value;
    the flag tells whether the list ends with a [--hash] whose value is
    still to come. *)
Inductive requirement_options_shape : list string -> bool -> Prop :=
| shape_nil : requirement_options_shape [] false
| shape_editable (l : list string) (o : string) :
    requirement_options_shape l false ->
    o = "-e" \/ o = "--editable" ->
    requirement_options_shape (l ++ [o]) false
| shape_hash (l : list string) :
    requirement_options_shape l false ->
    requirement_options_shape (l ++ ["--hash"]) true
| shape_value (l : list string) (v : string) :
    requirement_options_shape l true ->
    requirement_options_shape (l ++ [v]) false.

Definition URL_SCHEMES : list string := ["http"; "https"; "ftp"].
Definition VCS_SCHEMES : list string :=
  ["bzr"; "bzr+ftp"; "bzr+http"; "bzr+https"; "git"; "git+ftp"; "git+http"; "git+https";
   "hg"; "hg+ftp"; "hg+http"; "hg+https"; "svn"; "svn+ftp"; "svn+http"; "svn+https"].

(** [PipRequirement._assess_direct_access_requirement] *)
Definition _assess_direct_access_requirement (line : string) : parse_error + option string :=
  if negb (PyStr.contains ":" line) then inr None
  else
    let scheme_parts := PyStr.split_on "@" (PyStr.partition ":" line).1 in
    if (2 <? length scheme_parts)%nat then
      inl (UnexpectedFormat
             ("Unable to extract scheme from direct access requirement " +:+ repr line))
    else
      let scheme := PyStr.strip (PyStr.lower (default "" (last scheme_parts))) in
      if bool_decide (scheme ∈ URL_SCHEMES) then inr (Some "url")
      else if bool_decide (scheme ∈ VCS_SCHEMES) then inr (Some "vcs")
      else inl (Raised (UnsupportedFeature
                          ("Direct references with " +:+ repr scheme
                           +:+ " scheme are not supported, " +:+ repr line) None None)).

(** [.+://] at the start of [s]: one or more characters other than a
    line feed, then [://]. *)
Fixpoint dot_plus_scheme (s : string) : bool :=
  match s with
  | EmptyString => false
  | String c s' =>
      if bool_decide (c = "010"%char) then false
      else PyStr.startswith s' "://" || dot_plus_scheme s'
  end.

(** [HAS_NAME_IN_DIRECT_ACCESS_REQUIREMENT.search(s)], the pattern
    being [@.+://]. *)
Fixpoint HAS_NAME_IN_DIRECT_ACCESS_REQUIREMENT_search (s : string) : bool :=
  match s with
  | EmptyString => false
  | String c s' =>
      (bool_decide (c = "@"%char) && dot_plus_scheme s')
      || HAS_NAME_IN_DIRECT_ACCESS_REQUIREMENT_search s'
  end.

(** [s.split("; ", 1)] when ["; " in s]: the text before the first
    occurrence and the text after it. *)
Fixpoint split_semicolon_space (s : string) : option (string * string) :=
  match s with
  | EmptyString => None
  | String c s' =>
      if bool_decide (c = ";"%char) && PyStr.startswith s' " " then
        Some (EmptyString, PyStr.tail s')
      else match split_semicolon_space s' with
           | Some (hd, tl) => Some (String c hd, tl)
           | None => None
           end
  end.

(** The loop of [_adjust_direct_access_requirement] over the sections of
    the URL fragment. *)
Fixpoint adjust_sections (sections : list string) (package_name : option string)
    (qualifiers : gmap string string) : option string * gmap string string :=
  match sections with
  | [] => (package_name, qualifiers)
  | section :: rest =>
      if PyStr.contains "=" section then
        let '(attr, value) := PyStr.partition "=" section in
        let value := unquote value in
        adjust_sections rest
          (if bool_decide (attr = "egg") then Some value else package_name)
          (<[attr := value]> qualifiers)
      else adjust_sections rest package_name qualifiers
  end.

(** [PipRequirement._adjust_direct_access_requirement], called with the
    pattern [HAS_NAME_IN_DIRECT_ACCESS_REQUIREMENT]. *)
Definition _adjust_direct_access_requirement (line : string)
  : parse_error + (string * gmap string string) :=
  let '(package_name, url) :=
    if HAS_NAME_IN_DIRECT_ACCESS_REQUIREMENT_search line
    then let '(n, u) := PyStr.partition "@" line in (Some n, u)
    else (None, line) in
  let '(url, environment_marker) :=
    match split_semicolon_space url with
    | Some (u, m) => (u, Some m)
    | None => (url, None)
    end in
  let parsed_url := urlparse url in
  let '(package_name, qualifiers) :=
    if bool_decide (fragment parsed_url = "") then (package_name, ∅)
    else adjust_sections (PyStr.split_on "&" (fragment parsed_url)) package_name ∅ in
  match package_name with
  | Some n =>
      if bool_decide (n = "") then
        inl (Raised (UnsupportedFeature
                       ("Dependency name could not be determined from the requirement "
                        +:+ repr line +:+ " (" +:+ APP_NAME
                        +:+ " needs the name to be explicitly declared)")
                       (Some "Please specify the name of the dependency: <name> @ <url>")
                       (Some PIP_EXTERNAL_DEPS_DOC)))
      else
        let requirement_parts := [PyStr.strip n; "@"; PyStr.strip url] in
        let requirement_parts :=
          match environment_marker with
          | Some m => if bool_decide (m = "") then requirement_parts
                      else (requirement_parts ++ [";"; PyStr.strip m])%list
          | None => requirement_parts
          end in
        inr (PyStr.join " " requirement_parts, qualifiers)
  | None =>
      inl (Raised (UnsupportedFeature
                     ("Dependency name could not be determined from the requirement "
                      +:+ repr line +:+ " (" +:+ APP_NAME
                      +:+ " needs the name to be explicitly declared)")
                     (Some "Please specify the name of the dependency: <name> @ <url>")
                     (Some PIP_EXTERNAL_DEPS_DOC)))
  end.

(** [PipRequirement.from_line] *)
Definition from_line (line : string) (options : list string) : parse_error + PipRequirement :=
  match _assess_direct_access_requirement line with
  | inl e => inl e
  | inr direct_access_kind =>
      match (match direct_access_kind with
             | None => inr ("pypi", line, ∅)
             | Some kind =>
                 match _adjust_direct_access_requirement line with
                 | inl e => inl e
                 | inr (to_be_parsed, qualifiers) => inr (kind, to_be_parsed, qualifiers)
                 end
             end) with
      | inl e => inl e
      | inr (kind, to_be_parsed, qualifiers) =>
          match parse_requirement to_be_parsed with
          | inl exc =>
              inl (UnexpectedFormat ("Unable to parse the requirement " +:+ repr to_be_parsed
                                     +:+ ": " +:+ exc))
          | inr req =>
              let '(hashes, options) := _split_hashes_from_options options in
              inr (mkReq (canonicalize_name (rq_name req)) (rq_name req) (rq_extras req)
                     (rq_specifier req) (rq_marker req) hashes qualifiers kind to_be_parsed
                     options None)
          end
      end
  end.

(** [PipRequirement.__str__] *)
Definition PipRequirement_str (r : PipRequirement) : string :=
  PyStr.join " " (req_options r ++ [req_download_line r]
                  ++ map (fun h => "--hash=" +:+ h) (req_hashes r))%list.

(** * Properties *)

(** String concatenation unfolds on a constructor, as the proofs about
    prefixes and suffixes need. *)
#[local] Arguments String.append !_ _ / : simpl nomatch.

(** ** Reasoning in the monad *)

Ltac unfold_monad :=
  unfold bind, ret, raise, lift, log, get_state, try_except, ebind in *.

Lemma ebind_inr {A B} (r : error + A) (k : A -> error + B) (b : B) :
  ebind r k = inr b -> exists a, r = inr a /\ k a = inr b.
Proof. destruct r as [e|a]; simpl; [discriminate | eauto]. Qed.

Lemma ebind_inl_l {A B} (e : error) (k : A -> error + B) : ebind (inl e) k = inl e.
Proof. reflexivity. Qed.

(** ** Sets of checksums *)

Lemma nonempty_true (s : gset ChecksumInfo) : nonempty s = true <-> s ≠ ∅.
Proof. unfold nonempty. by rewrite bool_decide_eq_true. Qed.

Lemma nonempty_false (s : gset ChecksumInfo) : nonempty s = false <-> s = ∅.
Proof.
  unfold nonempty. rewrite bool_decide_eq_false.
  split; [apply dec_stable | intros -> H; by apply H].
Qed.

Lemma size_pos_nonempty (s : gset ChecksumInfo) : (0 <? size s)%nat = true <-> s ≠ ∅.
Proof.
  rewrite Nat.ltb_lt. split.
  - intros H ->. rewrite size_empty in H. lia.
  - intros H. destruct (decide (size s = 0)) as [Hz|Hz]; [|lia].
    apply size_empty_iff, leibniz_equiv in Hz. done.
Qed.

Lemma size_zero_empty (s : gset ChecksumInfo) : (size s =? 0)%nat = true <-> s = ∅.
Proof. rewrite Nat.eqb_eq, size_empty_iff. apply leibniz_equiv_iff. Qed.

(** [should_download] is false exactly on the disagreement of two
    non-empty sets. *)
Lemma should_download_false (d : DistributionPackageInfo) :
  should_download d = false <->
  checksums_to_match d = ∅ /\ pypi_checksums d ≠ ∅ /\ req_file_checksums d ≠ ∅.
Proof.
  unfold should_download.
  rewrite !orb_false_iff.
  rewrite <- !not_true_iff_false.
  rewrite size_pos_nonempty, !size_zero_empty.
  split.
  - intros [[H1 H2] H3]. split; [by apply dec_stable | done].
  - intros (H1 & H2 & H3). split; [split|]; [|done|done]. intros H. by apply H.
Qed.

Lemma determine_both (pypi req_file : gset ChecksumInfo) :
  pypi ≠ ∅ -> req_file ≠ ∅ ->
  _determine_checksums_to_match pypi req_file = pypi ∩ req_file.
Proof.
  intros H1 H2. unfold _determine_checksums_to_match.
  apply nonempty_true in H1, H2. by rewrite H1, H2.
Qed.

Lemma determine_pypi_only (pypi req_file : gset ChecksumInfo) :
  pypi ≠ ∅ -> req_file = ∅ -> _determine_checksums_to_match pypi req_file = pypi.
Proof.
  intros H1 H2. unfold _determine_checksums_to_match.
  apply nonempty_true in H1. apply nonempty_false in H2. by rewrite H1, H2.
Qed.

Lemma determine_req_only (pypi req_file : gset ChecksumInfo) :
  pypi = ∅ -> req_file ≠ ∅ -> _determine_checksums_to_match pypi req_file = req_file.
Proof.
  intros H1 H2. unfold _determine_checksums_to_match.
  apply nonempty_false in H1. apply nonempty_true in H2. by rewrite H1, H2.
Qed.

Lemma determine_none (pypi req_file : gset ChecksumInfo) :
  pypi = ∅ -> req_file = ∅ -> _determine_checksums_to_match pypi req_file = ∅.
Proof.
  intros H1 H2. unfold _determine_checksums_to_match.
  apply nonempty_false in H1, H2. by rewrite H1, H2.
Qed.

(** C1.  For every [DistributionPackageInfo], the checksums to verify
    are the intersection of the PyPI-reported and the requirements-file
    checksums when both sets are non-empty, the non-empty one when
    exactly one is, and empty when both are empty. *)
Theorem checksums_to_match_policy
    (name version package_type : string) (p : Path) (u index : string) (yanked : bool)
    (pypi req_file : gset ChecksumInfo) :
  let d := DistributionPackageInfo_new name version package_type p u index yanked
             pypi req_file in
  (pypi ≠ ∅ -> req_file ≠ ∅ -> checksums_to_match d = pypi ∩ req_file) /\
  (pypi ≠ ∅ -> req_file = ∅ -> checksums_to_match d = pypi) /\
  (pypi = ∅ -> req_file ≠ ∅ -> checksums_to_match d = req_file) /\
  (pypi = ∅ -> req_file = ∅ -> checksums_to_match d = ∅).
Proof.
  simpl. repeat split.
  - apply determine_both.
  - apply determine_pypi_only.
  - apply determine_req_only.
  - apply determine_none.
Qed.

(** ** Selection of the distributions *)

Lemma tuple_lt_spec (a b : nat * nat) :
  tuple_lt a b = true <-> (a.1 < b.1 \/ (a.1 = b.1 /\ a.2 < b.2)).
Proof.
  unfold tuple_lt.
  by rewrite orb_true_iff, andb_true_iff, !Nat.ltb_lt, Nat.eqb_eq.
Qed.

Lemma tuple_lt_false (a b : nat * nat) :
  tuple_lt a b = false <-> (b.1 < a.1 \/ (a.1 = b.1 /\ b.2 <= a.2)).
Proof.
  rewrite <- not_true_iff_false, tuple_lt_spec. lia.
Qed.

Lemma max_by_in {A} (key : A -> nat * nat) (b : A) (l : list A) :
  max_by key b l ∈ b :: l.
Proof.
  revert b. induction l as [|x l IH]; intros b; simpl.
  - apply list_elem_of_here.
  - specialize (IH (if tuple_lt (key b) (key x) then x else b)).
    destruct (tuple_lt (key b) (key x));
      apply elem_of_cons in IH as [IH|IH]; rewrite !elem_of_cons; auto.
Qed.

Lemma max_by_max {A} (key : A -> nat * nat) (b : A) (l : list A) (x : A) :
  x ∈ b :: l -> tuple_lt (key (max_by key b l)) (key x) = false.
Proof.
  revert b x. induction l as [|y l IH]; intros b x Hx; simpl.
  - apply list_elem_of_singleton in Hx as ->. apply tuple_lt_false. lia.
  - destruct (tuple_lt (key b) (key y)) eqn:Hby.
    + pose proof (IH y) as IHy.
      apply elem_of_cons in Hx as [->|Hx]; [|by apply IHy].
      specialize (IHy y (list_elem_of_here _ _)).
      apply tuple_lt_spec in Hby. apply tuple_lt_false in IHy.
      apply tuple_lt_false. lia.
    + pose proof (IH b) as IHb.
      apply elem_of_cons in Hx as [->|Hx]; [apply IHb, list_elem_of_here|].
      apply elem_of_cons in Hx as [->|Hx]; [|by apply IHb, list_elem_of_further].
      specialize (IHb b (list_elem_of_here _ _)).
      apply tuple_lt_false in Hby, IHb. apply tuple_lt_false. lia.
Qed.

(** A non-yanked candidate beats every yanked one. *)
Lemma max_by_not_yanked (first : DistributionPackageInfo) (others : list DistributionPackageInfo) :
  (exists s, s ∈ first :: others /\ dpi_is_yanked s = false) ->
  dpi_is_yanked (max_by _sdist_preference first others) = false.
Proof.
  intros (s & Hs & Hy).
  pose proof (max_by_max _sdist_preference first others s Hs) as Hmax.
  remember (max_by _sdist_preference first others) as best.
  apply tuple_lt_false in Hmax. unfold _sdist_preference in Hmax. simpl in Hmax.
  rewrite Hy in Hmax.
  destruct (dpi_is_yanked best); [lia | done].
Qed.

Lemma dpi_of_package_inr (name version : string) (dir : RootedPath) (index : string)
    (req_file : gset ChecksumInfo) (package : DistributionPackage)
    (d : DistributionPackageInfo) :
  dpi_of_package name version dir index req_file package = inr d ->
  dpi_package_type d = default "" (pkg_package_type package) /\
  dpi_name d = name /\
  req_file_checksums d = req_file /\
  checksums_to_match d =
    _determine_checksums_to_match (pypi_checksums d) (req_file_checksums d).
Proof.
  unfold dpi_of_package. intros H.
  apply ebind_inr in H as (p & _ & H). by inversion H.
Qed.

(** What is true of every package the loop keeps is true of the lists it
    returns. *)
Lemma collect_distributions_Forall (Ps Pw : DistributionPackageInfo -> Prop)
    (name version : string) (dir : RootedPath) (index : string)
    (req_file : gset ChecksumInfo) (allowed : list string) (nv : string) :
  (forall package d,
      _is_valid allowed nv package = true ->
      dpi_of_package name version dir index req_file package = inr d ->
      should_download d = true ->
      if bool_decide (dpi_package_type d = "sdist") then Ps d else Pw d) ->
  forall packages sdists wheels st st' s' w',
    Forall Ps sdists -> Forall Pw wheels ->
    collect_distributions name version dir index req_file allowed nv packages
      sdists wheels st = (st', inr (s', w')) ->
    Forall Ps s' /\ Forall Pw w'.
Proof.
  intros HP packages.
  induction packages as [|package packages IH]; intros sdists wheels st st' s' w' Hs Hw Hrun.
  - simpl in Hrun. unfold ret in Hrun. by inversion Hrun; subst.
  - simpl in Hrun.
    destruct (_is_valid allowed nv package) eqn:Hvalid; simpl in Hrun;
      [|by eapply IH].
    unfold bind at 1 in Hrun. unfold lift in Hrun.
    destruct (dpi_of_package name version dir index req_file package) as [e|d] eqn:Hd;
      [discriminate|].
    destruct (should_download d) eqn:Hdl.
    + specialize (HP package d Hvalid Hd Hdl).
      destruct (bool_decide (dpi_package_type d = "sdist")).
      * eapply IH; [| |exact Hrun]; [|done]. apply Forall_app. split; [done|]. by constructor.
      * eapply IH; [| |exact Hrun]; [done|]. apply Forall_app. split; [done|]. by constructor.
    + unfold bind, log in Hrun. by eapply IH.
Qed.

(** The loop only writes to the log. *)
Lemma collect_distributions_fs (name version : string) (dir : RootedPath) (index : string)
    (req_file : gset ChecksumInfo) (allowed : list string) (nv : string)
    (packages : list DistributionPackage) :
  forall sdists wheels st,
    fs (collect_distributions name version dir index req_file allowed nv packages
          sdists wheels st).1 = fs st.
Proof.
  induction packages as [|package packages IH]; intros sdists wheels st; [done|].
  simpl. destruct (_is_valid allowed nv package); simpl; [|apply IH].
  unfold bind at 1. unfold lift.
  destruct (dpi_of_package name version dir index req_file package) as [e|d]; [done|].
  destruct (should_download d).
  - destruct (bool_decide (dpi_package_type d = "sdist")); apply IH.
  - unfold bind, log. rewrite IH. done.
Qed.

Lemma is_valid_package_type (allow_binary : bool) (nv : string) (package : DistributionPackage) :
  _is_valid (if allow_binary then ["sdist"; "wheel"] else ["sdist"]) nv package = true ->
  default "" (pkg_package_type package) = "sdist"
  \/ default "" (pkg_package_type package) = "wheel".
Proof.
  unfold _is_valid.
  destruct (pkg_version package); [|discriminate].
  destruct (pkg_package_type package) as [t|]; [|discriminate].
  rewrite andb_true_iff, !bool_decide_eq_true. intros [_ Ht]. simpl.
  destruct allow_binary;
    repeat (apply elem_of_cons in Ht as [Ht|Ht]; auto); by apply elem_of_nil in Ht.
Qed.

(** The sdists kept are sdists, the wheels kept are wheels, and all of
    them passed [should_download] with a [checksums_to_match] computed by
    the constructor. *)
Lemma collect_distributions_kept (name version : string) (dir : RootedPath) (index : string)
    (req_file : gset ChecksumInfo) (allow_binary : bool) (nv : string)
    (packages : list DistributionPackage) (st st' : State)
    (sdists wheels : list DistributionPackageInfo) :
  collect_distributions name version dir index req_file
    (if allow_binary then ["sdist"; "wheel"] else ["sdist"]) nv packages [] [] st
  = (st', inr (sdists, wheels)) ->
  Forall (fun d => dpi_package_type d = "sdist" /\ should_download d = true
                   /\ checksums_to_match d =
                        _determine_checksums_to_match (pypi_checksums d) (req_file_checksums d))
         sdists /\
  Forall (fun d => dpi_package_type d = "wheel" /\ should_download d = true
                   /\ checksums_to_match d =
                        _determine_checksums_to_match (pypi_checksums d) (req_file_checksums d))
         wheels.
Proof.
  apply collect_distributions_Forall; [|done|done].
  intros package d Hvalid Hd Hdl.
  apply dpi_of_package_inr in Hd as (Htype & _ & _ & Hmatch).
  apply is_valid_package_type in Hvalid. rewrite <- Htype in Hvalid.
  case_bool_decide as Hsd; [done|].
  destruct Hvalid; done.
Qed.

(** What [_process_package_distributions] returns, in terms of the lists
    its loop has kept. *)
Lemma process_package_distributions_inr (requirement : PipRequirement) (dir : RootedPath)
    (allow_binary : bool) (index : string) (st st' : State)
    (dpis : list DistributionPackageInfo) :
  _process_package_distributions requirement dir allow_binary index st = (st', inr dpis) ->
  exists op version rest packages st1 sdists wheels,
    req_version_specs requirement = (op, version) :: rest /\
    get_project_page index (req_package requirement) = inr packages /\
    collect_distributions (req_package requirement) version dir index
      (list_to_set (map _to_checksum_info (req_hashes requirement)))
      (if allow_binary then ["sdist"; "wheel"] else ["sdist"])
      (canonicalize_version version) packages [] [] st = (st1, inr (sdists, wheels)) /\
    match sdists with
    | first :: others => dpis = max_by _sdist_preference first others :: wheels
    | [] => dpis = wheels /\ wheels ≠ []
    end.
Proof.
  unfold _process_package_distributions. intros Hrun.
  destruct (req_version_specs requirement) as [|[op version] rest] eqn:Hspec;
    [discriminate|].
  destruct (get_project_page index (req_package requirement)) as [e|packages] eqn:Hpage;
    [discriminate|].
  unfold bind at 1 in Hrun.
  destruct (collect_distributions _ _ _ _ _ _ _ _ _ _ st) as [st1 [e|[sdists wheels]]] eqn:Hc;
    [discriminate|].
  exists op, version, rest, packages, st1, sdists, wheels.
  split; [done|]. split; [done|]. split; [exact Hc|].
  destruct sdists as [|first others].
  - unfold_monad. destruct (bool_decide (wheels = [])) eqn:Hw; simpl in Hrun;
      [discriminate|].
    apply bool_decide_eq_false in Hw. inversion Hrun; subst. by split.
  - unfold_monad.
    destruct (dpi_is_yanked (max_by _sdist_preference first others));
      simpl in Hrun; by inversion Hrun.
Qed.


(** C6 (amended).  When the loop has kept at least one sdist, exactly one
    sdist is returned, ahead of every wheel kept.  It is one of the sdists
    kept, no kept sdist has a greater preference key, and it is not yanked
    whenever some kept sdist is not yanked: the yank status comes first.
    Every sdist and wheel kept has passed the checksum filter. *)
Theorem sdist_selection (requirement : PipRequirement) (dir : RootedPath)
    (allow_binary : bool) (index : string) (st st1 : State)
    (op version : string) (rest : list (string * string))
    (packages : list DistributionPackage)
    (first : DistributionPackageInfo) (others wheels : list DistributionPackageInfo) :
  req_version_specs requirement = (op, version) :: rest ->
  get_project_page index (req_package requirement) = inr packages ->
  collect_distributions (req_package requirement) version dir index
    (list_to_set (map _to_checksum_info (req_hashes requirement)))
    (if allow_binary then ["sdist"; "wheel"] else ["sdist"])
    (canonicalize_version version) packages [] [] st = (st1, inr (first :: others, wheels)) ->
  exists best st2,
    _process_package_distributions requirement dir allow_binary index st
    = (st2, inr (best :: wheels)) /\
    best ∈ first :: others /\
    (forall s, s ∈ first :: others ->
               tuple_lt (_sdist_preference best) (_sdist_preference s) = false) /\
    ((exists s, s ∈ first :: others /\ dpi_is_yanked s = false) ->
     dpi_is_yanked best = false) /\
    Forall (fun d => dpi_package_type d = "sdist" /\ should_download d = true)
           (first :: others) /\
    Forall (fun d => dpi_package_type d = "wheel" /\ should_download d = true) wheels.
Proof.
  intros Hspec Hpage Hc.
  exists (max_by _sdist_preference first others).
  unfold _process_package_distributions. rewrite Hspec, Hpage.
  unfold bind at 1. rewrite Hc.
  pose proof (collect_distributions_kept _ _ _ _ _ _ _ _ _ _ _ _ Hc) as [Hs Hw].
  assert (Hrun : exists st2,
             ((processed_dpis <-
                 ((if dpi_is_yanked (max_by _sdist_preference first others)
                   then log WARNING ("The version " +:+ version +:+ " of package "
                                     +:+ req_package requirement
                                     +:+ " is yanked, use a different version")
                   else ret tt) ;;; ret [max_by _sdist_preference first others]) ;;
               ret (processed_dpis ++ wheels)%list) st1)
             = (st2, inr (max_by _sdist_preference first others :: wheels))).
  { unfold_monad. destruct (dpi_is_yanked _); simpl; eauto. }
  destruct Hrun as [st2 Hrun]. exists st2.
  split; [exact Hrun|].
  split; [apply max_by_in|].
  split; [intros s Hs'; by apply max_by_max|].
  split; [apply max_by_not_yanked|].
  split.
  - eapply Forall_impl; [exact Hs|]. by intros d (? & ? & _).
  - eapply Forall_impl; [exact Hw|]. by intros d (? & ? & _).
Qed.

(** ** Inversion of monadic runs *)

Lemma bind_inr {A B} (m : M A) (k : A -> M B) (st st' : State) (b : B) :
  bind m k st = (st', inr b) ->
  exists a st1, m st = (st1, inr a) /\ k a st1 = (st', inr b).
Proof.
  unfold bind. destruct (m st) as [st1 [e|a]]; [discriminate | eauto].
Qed.

Lemma lift_inr {A} (r : error + A) (st st' : State) (a : A) :
  lift r st = (st', inr a) -> r = inr a /\ st' = st.
Proof. unfold lift. intros H. by inversion H. Qed.

Lemma ret_inr {A} (x a : A) (st st' : State) :
  ret x st = (st', inr a) -> a = x /\ st' = st.
Proof. unfold ret. intros H. by inversion H. Qed.

Lemma mapM_inr {A B} (f : A -> M B) (P : B -> Prop) (l : list A) :
  (forall x st st' y, f x st = (st', inr y) -> P y) ->
  forall st st' ys, mapM f l st = (st', inr ys) -> Forall P ys.
Proof.
  intros Hf. induction l as [|x l IH]; intros st st' ys Hrun; simpl in Hrun.
  - apply ret_inr in Hrun as [-> _]. constructor.
  - apply bind_inr in Hrun as (y & st1 & Hy & Hrun).
    apply bind_inr in Hrun as (ys' & st2 & Hys & Hrun).
    apply ret_inr in Hrun as [-> _].
    constructor; [by eapply Hf | by eapply IH].
Qed.

(** ** Checksum verification *)

Lemma must_match_any_checksum_mismatch (p : Path) (expected : list ChecksumInfo)
    (st : State) (content : string) :
  fs st !! p = Some content ->
  (forall c, c ∈ expected -> file_digest (algorithm c) content ≠ Some (hexdigest c)) ->
  exists e, must_match_any_checksum p expected st = (st, inl e) /\ is_rejection e = true.
Proof.
  intros Hfile Hno. unfold must_match_any_checksum. rewrite Hfile.
  destruct (existsb _ expected) eqn:Hex.
  - apply existsb_exists in Hex as (c & Hc & Hd).
    apply bool_decide_eq_true in Hd. exfalso. eapply Hno; [|exact Hd].
    by apply list_elem_of_In.
  - eauto.
Qed.

(** The step that verifies a download: on a mismatch the file is
    unlinked, a warning is logged and the step returns normally. *)
Lemma checksum_must_match_or_path_unlink_mismatch (p : Path)
    (expected : list ChecksumInfo) (st : State) (content : string) :
  fs st !! p = Some content ->
  (forall c, c ∈ expected -> file_digest (algorithm c) content ≠ Some (hexdigest c)) ->
  _checksum_must_match_or_path_unlink p expected st
  = (mkState (delete p (fs st))
       (logs st ++ [(WARNING, "Download '" +:+ PathLib.name p
                              +:+ "' was removed from the output directory")]),
     inr tt).
Proof.
  intros Hfile Hno.
  destruct (must_match_any_checksum_mismatch p expected st content Hfile Hno)
    as (e & He & Hrej).
  unfold _checksum_must_match_or_path_unlink, try_except. rewrite He, Hrej.
  unfold bind, unlink, log. rewrite Hfile. done.
Qed.

(** [_check_metadata_in_sdist] leaves the files alone and, when the file
    is absent, raises no rejection. *)
Lemma check_metadata_in_sdist_absent (p : Path) (st : State) :
  fs st !! p = None ->
  fs (_check_metadata_in_sdist p st).1 = fs st /\
  logs st `prefix_of` logs (_check_metadata_in_sdist p st).1 /\
  forall e, (_check_metadata_in_sdist p st).2 = inl e -> is_rejection e = false.
Proof.
  intros Hnone. unfold _check_metadata_in_sdist, check_members, log, raise.
  repeat match goal with
         | |- context [if ?b then _ else _] => destruct b
         end; rewrite ?Hnone; simpl;
    (split; [done|]); (split; [by apply prefix_app_r || done|]);
    intros e He; by inversion He.
Qed.

Ltac map_lookup :=
  repeat first [ rewrite lookup_insert_eq
               | rewrite lookup_insert_ne by done ].

Lemma relative_to_error (p root : Path) (e : error) :
  PathLib.relative_to p root = inl e -> is_rejection e = false.
Proof.
  revert p. induction root as [|c root IH]; intros p Hrel;
    destruct p as [|a p]; simpl in Hrel; try discriminate; [by inversion Hrel|].
  destruct (decide (a = c)); [by eapply IH | by inversion Hrel].
Qed.

Lemma path_of_info_error (d : gmap string pyval) (e : error) :
  path_of_info d = inl e -> is_rejection e = false.
Proof.
  unfold path_of_info. destruct (d !! "path") as [[]|]; intros H; by inversion H.
Qed.

(** The closing step of [_process_req] leaves the state alone and raises
    no rejection. *)
Lemma process_req_closing (dir : RootedPath) (d : gmap string pyval)
    (st st' : State) (res : error + gmap string pyval) :
  (p <- lift (path_of_info d) ;;
   _ <- lift (PathLib.relative_to p (rp_root dir)) ;;
   ret d) st = (st', res) ->
  st' = st /\ forall e, res = inl e -> is_rejection e = false.
Proof.
  intros Hrun. unfold_monad.
  destruct (path_of_info d) as [e|p] eqn:Hp.
  - inversion Hrun; subst. split; [done|]. intros e' He'. inversion He'; subst.
    by eapply path_of_info_error.
  - destruct (PathLib.relative_to p (rp_root dir)) as [e|rel] eqn:Hrel;
      inversion Hrun; subst; (split; [done|]); intros e' He'; [|discriminate].
    inversion He'; subst. by eapply relative_to_error.
Qed.

(** The hashes [_process_req] verifies a URL requirement against:
    [req.hashes or [req.qualifiers.get("cachito_hash", "")]]. *)
Lemma process_req_url_mismatch (req : PipRequirement)
    (requirements_file : PipRequirementsFile) (dir : RootedPath)
    (info : gmap string pyval) (p : Path) (st : State) (content : string) :
  req_kind req = "url" ->
  info !! "path" = Some (PPath p) ->
  fs st !! p = Some content ->
  (forall c,
      c ∈ map _to_checksum_info
            (match req_hashes req with
             | [] => [default "" (req_qualifiers req !! "cachito_hash")]
             | hs => hs
             end) ->
      file_digest (algorithm c) content ≠ Some (hexdigest c)) ->
  let warning := (WARNING, "Download '" +:+ PathLib.name p
                           +:+ "' was removed from the output directory") in
  let r := _process_req req requirements_file dir info None st in
  r.1 = mkState (delete p (fs st)) (logs st ++ [warning]) /\
  (forall e, r.2 = inl e -> is_rejection e = false).
Proof.
  intros Hkind Hpath Hfile Hno warning r. subst r.
  destruct (_process_req req requirements_file dir info None st) as [st' res] eqn:Hrun.
  simpl. unfold _process_req in Hrun. cbv zeta in Hrun. rewrite Hkind in Hrun.
  cbn [bool_decide decide_rel] in Hrun.
  assert (Hvcs : bool_decide ("url" = "vcs") = false) by done.
  assert (Hurl : bool_decide ("url" = "url") = true) by done.
  rewrite Hvcs, Hurl in Hrun.
  set (hashes := match req_hashes req with
                 | [] => [default "" (req_qualifiers req !! "cachito_hash")]
                 | hs => hs
                 end) in *.
  assert (Hne : bool_decide (hashes = []) = false).
  { apply bool_decide_eq_false. subst hashes. by destruct (req_hashes req). }
  rewrite Hne in Hrun.
  unfold bind at 1 in Hrun. unfold bind at 1 in Hrun. unfold lift at 1 in Hrun.
  unfold path_of_info at 1 in Hrun. revert Hrun. map_lookup. rewrite Hpath.
  unfold bind at 1.
  rewrite (checksum_must_match_or_path_unlink_mismatch p _ st content Hfile Hno).
  unfold ret at 1. intros Hrun.
  apply process_req_closing in Hrun as [-> Herr]. done.
Qed.

(** C3 (amended).  For a downloaded artifact with checksums to verify,
    none of which matches its content, the verification step unlinks the
    file, logs a warning naming it and returns normally: the rejection
    raised by the verifier is caught.  [_process_req] therefore ends with
    the file removed from the output directory and the warning logged,
    and raises no rejection error, for an artifact of a PyPI requirement
    as for the download of a URL requirement. *)
Theorem checksum_mismatch_removes_artifact (req : PipRequirement)
    (requirements_file : PipRequirementsFile) (pip_deps_dir : RootedPath)
    (dpi : DistributionPackageInfo) (st : State) (content : string) :
  fs st !! dpi_path dpi = Some content ->
  has_checksums_to_match dpi = true ->
  (forall c, c ∈ checksums_to_match dpi ->
             file_digest (algorithm c) content ≠ Some (hexdigest c)) ->
  let warning := (WARNING, "Download '" +:+ PathLib.name (dpi_path dpi)
                           +:+ "' was removed from the output directory") in
  let r := _process_req req requirements_file pip_deps_dir (download_info_of dpi)
             (Some dpi) st in
  _checksum_must_match_or_path_unlink (dpi_path dpi) (elements (checksums_to_match dpi)) st
  = (mkState (delete (dpi_path dpi) (fs st)) (logs st ++ [warning]), inr tt) /\
  fs r.1 = delete (dpi_path dpi) (fs st) /\
  warning ∈ logs r.1 /\
  (forall e, r.2 = inl e -> is_rejection e = false) /\
  (forall (url_req : PipRequirement) (info : gmap string pyval),
      req_kind url_req = "url" ->
      info !! "path" = Some (PPath (dpi_path dpi)) ->
      (forall c,
          c ∈ map _to_checksum_info
                (match req_hashes url_req with
                 | [] => [default "" (req_qualifiers url_req !! "cachito_hash")]
                 | hs => hs
                 end) ->
          file_digest (algorithm c) content ≠ Some (hexdigest c)) ->
      let r' := _process_req url_req requirements_file pip_deps_dir info None st in
      r'.1 = mkState (delete (dpi_path dpi) (fs st)) (logs st ++ [warning]) /\
      (forall e, r'.2 = inl e -> is_rejection e = false)).
Proof.
  intros Hfile Hhas Hno warning r.
  assert (Hstep :
    _checksum_must_match_or_path_unlink (dpi_path dpi) (elements (checksums_to_match dpi)) st
    = (mkState (delete (dpi_path dpi) (fs st)) (logs st ++ [warning]), inr tt)).
  { eapply checksum_must_match_or_path_unlink_mismatch; [exact Hfile|].
    intros c Hc. apply Hno. by apply elem_of_elements in Hc. }
  split; [exact Hstep|].
  assert (Hdpi : fs r.1 = delete (dpi_path dpi) (fs st) /\ warning ∈ logs r.1 /\
                 (forall e, r.2 = inl e -> is_rejection e = false)).
  { subst r.
    destruct (_process_req req requirements_file pip_deps_dir (download_info_of dpi)
                (Some dpi) st) as [st' res] eqn:Hrun.
    simpl. unfold _process_req in Hrun. cbv zeta in Hrun. rewrite Hhas in Hrun.
    unfold bind at 1 in Hrun. unfold bind at 1 in Hrun. rewrite Hstep in Hrun.
    set (st1 := mkState (delete (dpi_path dpi) (fs st)) (logs st ++ [warning])) in *.
    assert (Hgone : fs st1 !! dpi_path dpi = None) by apply lookup_delete_eq.
    assert (Hwarn : warning ∈ logs st1).
    { simpl. apply elem_of_app. right. apply list_elem_of_here. }
    destruct (bool_decide (dpi_package_type dpi = "sdist")).
    - destruct (check_metadata_in_sdist_absent (dpi_path dpi) st1 Hgone)
        as (Hfs & Hlogs & Herr).
      unfold bind at 1 in Hrun. unfold bind at 1 in Hrun.
      destruct (_check_metadata_in_sdist (dpi_path dpi) st1) as [st2 [e|[]]]; simpl in *.
      + inversion Hrun; subst. split; [done|]. split; [by eapply elem_of_prefix|].
        intros e' He'. inversion He'; subst. by apply Herr.
      + apply process_req_closing in Hrun as [-> Hrej].
        split; [done|]. split; [by eapply elem_of_prefix | done].
    - unfold bind at 1 in Hrun. unfold bind at 1 in Hrun. simpl in Hrun.
      apply process_req_closing in Hrun as [-> Hrej]. done. }
  destruct Hdpi as (Hfs & Hwarn & Hrej).
  split; [exact Hfs|]. split; [exact Hwarn|]. split; [exact Hrej|].
  intros url_req info Hkind Hpath Hno'.
  exact (process_req_url_mismatch url_req requirements_file pip_deps_dir info
           (dpi_path dpi) st content Hkind Hpath Hfile Hno').
Qed.

(** ** What [_process_req] records *)

Lemma process_req_tail (dir : RootedPath) (d1 d : gmap string pyval) (st st' : State) :
  (p <- lift (path_of_info d1) ;;
   _ <- lift (PathLib.relative_to p (rp_root dir)) ;;
   ret d1) st = (st', inr d) ->
  d = d1 /\ st' = st.
Proof.
  intros H.
  apply bind_inr in H as (p & st1 & Hp & H). apply lift_inr in Hp as [_ ->].
  apply bind_inr in H as (r & st2 & Hr & H). apply lift_inr in Hr as [_ ->].
  by apply ret_inr in H.
Qed.

(** The kind recorded is the kind of the requirement. *)
Lemma process_req_kind (req : PipRequirement) (requirements_file : PipRequirementsFile)
    (dir : RootedPath) (info : gmap string pyval) (dpi : option DistributionPackageInfo)
    (st st' : State) (d : gmap string pyval) :
  _process_req req requirements_file dir info dpi st = (st', inr d) ->
  d !! "kind" = Some (PStr (req_kind req)).
Proof.
  unfold _process_req. cbv zeta. intros H.
  apply bind_inr in H as (d1 & st1 & H1 & H).
  apply process_req_tail in H as [-> _].
  destruct dpi as [dpi|].
  - apply bind_inr in H1 as (u1 & st2 & _ & H1).
    apply bind_inr in H1 as (u2 & st3 & _ & H1).
    apply ret_inr in H1 as [-> _].
    destruct (nonempty (req_file_checksums dpi)); by map_lookup.
  - destruct (bool_decide (req_kind req = "vcs")).
    { apply ret_inr in H1 as [-> _]. by map_lookup. }
    destruct (bool_decide (req_kind req = "url")).
    2: { apply ret_inr in H1 as [-> _]. by map_lookup. }
    destruct (bool_decide (_ = [])).
    { apply ret_inr in H1 as [-> _]. by map_lookup. }
    apply bind_inr in H1 as (p & st2 & _ & H1).
    apply bind_inr in H1 as (u & st3 & _ & H1).
    apply ret_inr in H1 as [-> _]. by map_lookup.
Qed.

(** A VCS requirement processed without a DPI keeps the flag set at the
    start, and the path of its requirements file. *)
Lemma process_req_vcs (req : PipRequirement) (requirements_file : PipRequirementsFile)
    (dir : RootedPath) (info : gmap string pyval) (st st' : State)
    (d : gmap string pyval) :
  req_kind req = "vcs" ->
  _process_req req requirements_file dir info None st = (st', inr d) ->
  d !! "kind" = Some (PStr "vcs") /\
  d !! "missing_req_file_checksum" = Some (PBool true) /\
  d !! "requirement_file"
  = Some (PStr (PathLib.to_string (file_subpath_from_root requirements_file))).
Proof.
  intros Hkind H. split.
  { rewrite <- Hkind. by eapply process_req_kind. }
  unfold _process_req in H. cbv zeta in H. rewrite Hkind in H.
  apply bind_inr in H as (d1 & st1 & H1 & H).
  apply process_req_tail in H as [-> _].
  simpl in H1. apply ret_inr in H1 as [-> _]. split; by map_lookup.
Qed.

(** A VCS requirement whose download lies under the dependency directory
    is processed without error. *)
Lemma process_req_vcs_returns (req : PipRequirement)
    (requirements_file : PipRequirementsFile) (dir : RootedPath)
    (info : gmap string pyval) (p rel : Path) (st : State) :
  req_kind req = "vcs" ->
  info !! "path" = Some (PPath p) ->
  PathLib.relative_to p (rp_root dir) = inr rel ->
  exists d, _process_req req requirements_file dir info None st = (st, inr d).
Proof.
  intros Hkind Hpath Hrel.
  unfold _process_req. cbv zeta. rewrite Hkind. simpl.
  unfold bind at 1. unfold ret at 1.
  unfold bind at 1. unfold lift at 1. unfold path_of_info.
  map_lookup. rewrite Hpath.
  unfold bind, lift. rewrite Hrel. unfold ret. eauto.
Qed.

(** The flag of a VCS entry carries over to the dependency and to the
    properties of its component. *)
Lemma vcs_component_missing_hash (d : gmap string pyval) (file : string) :
  d !! "missing_req_file_checksum" = Some (PBool true) ->
  d !! "requirement_file" = Some (PStr file) ->
  forall dep, _resolve_pip_dependency d = inr dep ->
    dep !! "missing_req_file_checksum" = Some (PBool true) /\
    forall c, dependency_component dep = inr c ->
      missing_hash_in_file (comp_properties c) = {[ file ]}.
Proof.
  intros Hmiss Hfile dep Hdep.
  unfold _resolve_pip_dependency in Hdep.
  apply ebind_inr in Hdep as (name & _ & Hdep).
  apply ebind_inr in Hdep as (version & _ & Hdep).
  apply ebind_inr in Hdep as (kind & _ & Hdep).
  apply ebind_inr in Hdep as (rf & Hrf & Hdep).
  apply ebind_inr in Hdep as (missing & Hm & Hdep).
  apply ebind_inr in Hdep as (package_type & _ & Hdep).
  unfold get_item in Hrf, Hm. rewrite Hfile in Hrf. rewrite Hmiss in Hm.
  inversion Hrf; inversion Hm; subst. inversion Hdep; subst. clear Hdep Hrf Hm.
  split; [by map_lookup|].
  intros c Hc. unfold dependency_component in Hc.
  apply ebind_inr in Hc as (purl & _ & Hc).
  apply ebind_inr in Hc as (kind' & _ & Hc).
  apply ebind_inr in Hc as (version' & _ & Hc).
  apply ebind_inr in Hc as (missing & Hm & Hc).
  unfold get_item in Hm. revert Hm. map_lookup. intros Hm. inversion Hm; subst.
  simpl in Hc.
  apply ebind_inr in Hc as (missing_hash & Hmh & Hc).
  apply ebind_inr in Hmh as (f & Hf & Hmh).
  unfold get_item in Hf. revert Hf. map_lookup. intros Hf. inversion Hf; subst.
  inversion Hmh; subst.
  apply ebind_inr in Hc as (pt & _ & Hc).
  apply ebind_inr in Hc as (build & _ & Hc).
  apply ebind_inr in Hc as (nm & _ & Hc).
  by inversion Hc.
Qed.

(** Throughout a requirements file, an entry of kind vcs has the flag
    set and names the file. *)
Lemma process_requirements_vcs (requirements_file : PipRequirementsFile)
    (options : Options) (dir : RootedPath) (allow_binary : bool)
    (requirements : list PipRequirement) :
  forall st st' infos,
    process_requirements requirements requirements_file options dir allow_binary st
    = (st', inr infos) ->
    Forall (fun d => d !! "kind" = Some (PStr "vcs") ->
                     d !! "missing_req_file_checksum" = Some (PBool true) /\
                     d !! "requirement_file"
                     = Some (PStr (PathLib.to_string
                                     (file_subpath_from_root requirements_file))))
           infos.
Proof.
  induction requirements as [|req requirements IH]; intros st st' infos Hrun;
    simpl in Hrun.
  - apply ret_inr in Hrun as [-> _]. constructor.
  - apply bind_inr in Hrun as (u & st1 & _ & Hrun).
    apply bind_inr in Hrun as (download_infos & st2 & Hreq & Hrun).
    apply bind_inr in Hrun as (u' & st3 & _ & Hrun).
    apply bind_inr in Hrun as (processed & st4 & Hrest & Hrun).
    apply ret_inr in Hrun as [-> _].
    apply Forall_app. split; [|by eapply IH].
    clear Hrest IH.
    destruct (bool_decide (req_kind req = "pypi")) eqn:Hpypi.
    { apply bool_decide_eq_true in Hpypi.
      unfold _process_pypi_req in Hreq.
      apply bind_inr in Hreq as (artifacts & st5 & _ & Hreq).
      apply bind_inr in Hreq as (st6 & st7 & _ & Hreq).
      apply bind_inr in Hreq as (u'' & st8 & _ & Hreq).
      eapply mapM_inr; [|exact Hreq].
      intros artifact sta stb d Hd Hvcs.
      apply process_req_kind in Hd. rewrite Hpypi in Hd. rewrite Hd in Hvcs.
      discriminate. }
    destruct (bool_decide (req_kind req = "vcs")) eqn:Hvcs.
    { apply bool_decide_eq_true in Hvcs.
      apply bind_inr in Hreq as (d & st5 & Hd & Hreq).
      apply ret_inr in Hreq as [-> _].
      constructor; [|constructor]. intros _.
      unfold _process_vcs_req in Hd.
      apply bind_inr in Hd as (info & st6 & _ & Hd).
      by apply process_req_vcs in Hd as (_ & ? & ?). }
    destruct (bool_decide (req_kind req = "url")) eqn:Hurl; [|discriminate].
    apply bool_decide_eq_true in Hurl.
    apply bind_inr in Hreq as (d & st5 & Hd & Hreq).
    apply ret_inr in Hreq as [-> _].
    constructor; [|constructor]. intros Hk. exfalso.
    unfold _process_url_req in Hd.
    apply bind_inr in Hd as (info & st6 & _ & Hd).
    apply bind_inr in Hd as (result & st7 & Hres & Hd).
    apply bind_inr in Hd as (u1 & st8 & _ & Hd).
    apply process_req_kind in Hres. rewrite Hurl in Hres.
    destruct (PyStr.endswith u1 WHEEL_FILE_EXTENSION);
      apply ret_inr in Hd as [-> _]; revert Hk; map_lookup; rewrite Hres; discriminate.
Qed.

(** C10.  Every dependency of kind vcs is reported with
    [missing_req_file_checksum] set, whatever [--hash] options the
    requirement carries, and its component names the requirements file in
    its missing-hash property. *)
Theorem vcs_always_missing_req_file_checksum :
  (forall (req : PipRequirement) (requirements_file : PipRequirementsFile)
          (dir : RootedPath) (st st' : State) (d : gmap string pyval),
      req_kind req = "vcs" ->
      _process_vcs_req req dir requirements_file st = (st', inr d) ->
      d !! "kind" = Some (PStr "vcs") /\
      d !! "missing_req_file_checksum" = Some (PBool true)) /\
  (forall (req : PipRequirement) (requirements_file : PipRequirementsFile)
          (dir : RootedPath) (info : gmap string pyval) (p rel : Path) (st : State),
      req_kind req = "vcs" ->
      info !! "path" = Some (PPath p) ->
      PathLib.relative_to p (rp_root dir) = inr rel ->
      exists d, _process_req req requirements_file dir info None st = (st, inr d)) /\
  (forall (output_dir : RootedPath) (requirements_file : PipRequirementsFile)
          (allow_binary : bool) (st st' : State) (infos : list (gmap string pyval))
          (d : gmap string pyval),
      _download_dependencies output_dir requirements_file allow_binary st = (st', inr infos) ->
      d ∈ infos ->
      d !! "kind" = Some (PStr "vcs") ->
      d !! "missing_req_file_checksum" = Some (PBool true) /\
      forall dep, _resolve_pip_dependency d = inr dep ->
        dep !! "missing_req_file_checksum" = Some (PBool true) /\
        forall c, dependency_component dep = inr c ->
          missing_hash_in_file (comp_properties c)
          = {[ PathLib.to_string (file_subpath_from_root requirements_file) ]}).
Proof.
  split; [|split].
  - intros req requirements_file dir st st' d Hkind Hrun.
    unfold _process_vcs_req in Hrun.
    apply bind_inr in Hrun as (info & st1 & _ & Hrun).
    by apply process_req_vcs in Hrun as (? & ? & _).
  - apply process_req_vcs_returns.
  - intros output_dir requirements_file allow_binary st st' infos d Hrun Hd Hkind.
    unfold _download_dependencies in Hrun.
    apply bind_inr in Hrun as (options & st1 & _ & Hrun).
    apply bind_inr in Hrun as (require & st2 & _ & Hrun).
    apply bind_inr in Hrun as (u1 & st3 & _ & Hrun).
    apply bind_inr in Hrun as (u2 & st4 & _ & Hrun).
    apply bind_inr in Hrun as (dir & st5 & _ & Hrun).
    apply process_requirements_vcs in Hrun.
    rewrite Forall_forall in Hrun.
    destruct (Hrun d Hd Hkind) as [Hmiss Hfile].
    split; [done|]. by apply vcs_component_missing_hash.
Qed.

(** ** Validation of the requirements *)

Lemma string_app_assoc (a b c : string) : (a +:+ b) +:+ c = a +:+ (b +:+ c).
Proof. induction a as [|x a IH]; simpl; [done | by f_equal]. Qed.

Lemma string_app_nil_r (a : string) : a +:+ "" = a.
Proof. induction a as [|x a IH]; simpl; [done | by f_equal]. Qed.

Lemma endswith_spec (s p : string) :
  PyStr.endswith s p = true <-> exists pre, s = pre +:+ p.
Proof.
  split.
  - induction s as [|a s IH]; simpl.
    + destruct (decide ("" = p)) as [<-|]; [by exists "" | discriminate].
    + destruct (decide (String a s = p)) as [<-|]; [by exists ""|].
      intros H. destruct (IH H) as [pre ->]. by exists (String a pre).
  - intros [pre ->]. induction pre as [|a pre IH]; simpl.
    + destruct p as [|b p]; simpl; [done|].
      by destruct (decide (String b p = String b p)).
    + destruct (decide (String a (pre +:+ p) = p)); [done | exact IH].
Qed.

Lemma hex_run_spec (n : nat) (s rest : string) :
  hex_run n s = Some rest <->
  exists h, s = h +:+ rest /\ String.length h = n /\ all_hex h = true.
Proof.
  revert s. induction n as [|n IH]; intros s; simpl.
  - split.
    + intros H. inversion H; subst. by exists "".
    + intros (h & -> & Hlen & _). destruct h; [done | discriminate].
  - destruct s as [|a s].
    + split; [discriminate|]. intros (h & Hs & Hlen & _).
      destruct h; simpl in *; discriminate.
    + destruct (is_hex a) eqn:Ha.
      * rewrite IH. split.
        -- intros (h & -> & Hlen & Hh). exists (String a h). simpl.
           rewrite Ha, Hh, Hlen. done.
        -- intros (h & Hs & Hlen & Hh). destruct h as [|b h]; [discriminate|].
           simpl in *. inversion Hs; subst. inversion Hlen.
           rewrite Ha in Hh. by exists h.
      * split; [discriminate|]. intros (h & Hs & Hlen & Hh).
        destruct h as [|b h]; [discriminate|]. simpl in *.
        inversion Hs; subst. by rewrite Ha in Hh.
Qed.

Lemma git_ref_here_spec (s : string) :
  git_ref_here s = true <->
  exists h, (s = "@" +:+ h \/ s = "@" +:+ h +:+ String "010"%char "")
            /\ String.length h = 40 /\ all_hex h = true.
Proof.
  unfold git_ref_here. destruct s as [|a s].
  { split; [discriminate|]. by intros (h & [H|H] & _). }
  destruct (decide (a = "@"%char)) as [->|Ha].
  - destruct (hex_run 40 s) as [rest|] eqn:Hrun.
    + apply hex_run_spec in Hrun as (h & -> & Hlen & Hh).
      unfold at_dollar. rewrite orb_true_iff, !bool_decide_eq_true. split.
      * intros [->| ->]; exists h; (split; [|done]); [left | right]; simpl;
          by rewrite ?string_app_nil_r.
      * intros (h' & Hs & Hlen' & Hh').
        assert (Hcase : h +:+ rest = h' \/ h +:+ rest = h' +:+ String "010"%char "").
        { destruct Hs as [Hs|Hs]; simpl in Hs; inversion Hs; auto. }
        clear Hs. revert h' Hlen Hlen' Hh' Hcase. generalize 40.
        induction h as [|b h IH]; intros n h' Hlen Hlen' Hh' Hcase; simpl in *; subst n.
        -- destruct h'; [|discriminate]. simpl in Hcase. destruct Hcase; auto.
        -- destruct h' as [|b' h']; [discriminate|]. simpl in *.
           apply andb_true_iff in Hh as [_ Hh]. apply andb_true_iff in Hh' as [_ Hh'].
           eapply (IH Hh (String.length h) h'); [done|by inversion Hlen'|done|].
           destruct Hcase as [Hc|Hc]; inversion Hc; auto.
    + split; [discriminate|]. intros (h & Hs & Hlen & Hh). exfalso.
      assert (Hsome : exists rest, hex_run 40 s = Some rest).
      { destruct Hs as [Hs|Hs]; simpl in Hs; inversion Hs; subst.
        - exists "". apply hex_run_spec. exists h. by rewrite string_app_nil_r.
        - exists (String "010"%char ""). apply hex_run_spec. by exists h. }
      destruct Hsome as [rest Hsome]. congruence.
  - assert (Hf : match a with
                 | "@"%char => match hex_run 40 s with
                               | Some rest => at_dollar rest
                               | None => false
                               end
                 | _ => false
                 end = false).
    { destruct a as [[] [] [] [] [] [] [] []]; try done; by destruct Ha. }
    rewrite Hf. split; [discriminate|].
    intros (h & [Hs|Hs] & _); simpl in Hs; inversion Hs; by destruct Ha.
Qed.

Lemma GIT_REF_IN_PATH_search_suffix (pre tail : string) :
  git_ref_here tail = true -> GIT_REF_IN_PATH_search (pre +:+ tail) = true.
Proof.
  intros Hhere. induction pre as [|a pre IH].
  - destruct tail; cbn [String.append GIT_REF_IN_PATH_search]; by rewrite Hhere.
  - cbn [String.append GIT_REF_IN_PATH_search]. rewrite IH. apply orb_true_r.
Qed.

(** [GIT_REF_IN_PATH.search]: the path ends with [@] and 40 hexadecimal
    characters, a final line feed apart. *)
Lemma GIT_REF_IN_PATH_search_spec (s : string) :
  GIT_REF_IN_PATH_search s = true <->
  exists pre h, (s = pre +:+ "@" +:+ h \/ s = pre +:+ "@" +:+ h +:+ String "010"%char "")
                /\ String.length h = 40 /\ all_hex h = true.
Proof.
  split.
  - induction s as [|a s IH]; cbn [GIT_REF_IN_PATH_search]; rewrite orb_true_iff.
    + intros [H|H]; [|discriminate].
      apply git_ref_here_spec in H as (h & Hs & Hh). by exists "", h.
    + intros [H|H].
      * apply git_ref_here_spec in H as (h & Hs & Hh). by exists "", h.
      * destruct (IH H) as (pre & h & Hs & Hh). exists (String a pre), h.
        split; [|done]. destruct Hs as [-> | ->]; auto.
  - intros (pre & h & Hs & Hh).
    destruct Hs as [-> | ->]; apply GIT_REF_IN_PATH_search_suffix, git_ref_here_spec;
      exists h; auto.
Qed.

(** Without a final line feed, the pattern is found exactly when the
    path ends with a full-length git ref. *)
Lemma GIT_REF_IN_PATH_search_ends (s : string) :
  PyStr.endswith s (String "010"%char "") = false ->
  (GIT_REF_IN_PATH_search s = true <-> ends_with_git_ref s).
Proof.
  intros Hnl. rewrite GIT_REF_IN_PATH_search_spec. unfold ends_with_git_ref. split.
  - intros (pre & h & [Hs|Hs] & Hh); [by exists pre, h|].
    exfalso. apply not_true_iff_false in Hnl. apply Hnl, endswith_spec.
    exists (pre +:+ "@" +:+ h). by rewrite !string_app_assoc.
  - intros (pre & h & Hs & Hh). exists pre, h. auto.
Qed.

Lemma pinned_spec (vspec : list (string * string)) :
  pinned vspec = true <->
  exists op version, vspec = [(op, version)] /\ (op = "==" \/ op = "===").
Proof.
  unfold pinned. split.
  - destruct vspec as [|[op version] [|? ?]]; try discriminate.
    rewrite orb_true_iff, !bool_decide_eq_true. eauto.
  - intros (op & version & -> & Hop).
    rewrite orb_true_iff, !bool_decide_eq_true. done.
Qed.

(** The first requirement that fails validation fails the whole list. *)
Lemma validate_requirements_first_failure (before after : list PipRequirement)
    (req : PipRequirement) (allow_binary : bool) (e : error) :
  _validate_requirements before allow_binary = inr tt ->
  _validate_requirement req allow_binary = inl e ->
  _validate_requirements (before ++ req :: after) allow_binary = inl e.
Proof.
  intros Hbefore Hreq. induction before as [|r before IH]; simpl in *.
  - by rewrite Hreq.
  - destruct (_validate_requirement r allow_binary) as [e'|[]]; simpl in *;
      [discriminate | by apply IH].
Qed.

(** A requirement that fails validation makes every list holding it
    fail. *)
Lemma validate_requirements_failure (requirements : list PipRequirement)
    (req : PipRequirement) (allow_binary : bool) (e : error) :
  req ∈ requirements ->
  _validate_requirement req allow_binary = inl e ->
  exists e', _validate_requirements requirements allow_binary = inl e'.
Proof.
  intros Hin Hreq. induction requirements as [|r requirements IH];
    [by apply elem_of_nil in Hin|].
  simpl. destruct (_validate_requirement r allow_binary) as [e'|[]] eqn:Hr; simpl;
    [eauto|].
  apply elem_of_cons in Hin as [->|Hin]; [congruence | by apply IH].
Qed.

(** ... and aborts the processing of the requirements file. *)
Lemma download_dependencies_invalid (output_dir : RootedPath)
    (requirements_file : PipRequirementsFile) (req : PipRequirement)
    (allow_binary : bool) (e : error) (st : State) :
  req ∈ file_requirements requirements_file ->
  _validate_requirement req allow_binary = inl e ->
  exists e', (_download_dependencies output_dir requirements_file allow_binary st).2 = inl e'.
Proof.
  intros Hin Hreq.
  destruct (validate_requirements_failure _ _ _ _ Hin Hreq) as [e' He'].
  unfold _download_dependencies. unfold bind at 1.
  destruct (_process_options (file_options requirements_file) st) as [st1 [e1|options]];
    [by eauto|].
  unfold bind at 1.
  destruct (require_hashes options); [|destruct (existsb _ _)];
    unfold bind at 1; unfold log at 1; unfold ret at 1;
    unfold bind at 1; unfold lift at 1; rewrite He'; simpl; eauto.
Qed.

(** C4.  A PyPI requirement passes validation exactly when it has a
    single version specifier with operator [==] or [===].  Otherwise
    validation raises [PackageRejected] with a reason naming the
    requirement line, a suggested solution and a documentation link, and
    that error aborts the validation of any list holding the requirement
    and the processing of its requirements file. *)
Theorem unpinned_pypi_requirement_rejected (req : PipRequirement) (allow_binary : bool) :
  req_kind req = "pypi" ->
  let rejection :=
    PackageRejected
      ("Requirement must be pinned to an exact version: " +:+ req_download_line req)
      (Some ("Please pin all packages as <name>==<version>" +:+ String "010"%char
             "You may wish to use a tool such as pip-compile to pin automatically."))
      (Some PIP_REQUIREMENTS_TXT_DOC) in
  let is_pinned :=
    exists op version,
      req_version_specs req = [(op, version)] /\ (op = "==" \/ op = "===") in
  (is_pinned -> _validate_requirement req allow_binary = inr tt) /\
  (~ is_pinned ->
   _validate_requirement req allow_binary = inl rejection /\
   (forall before after,
       _validate_requirements before allow_binary = inr tt ->
       _validate_requirements (before ++ req :: after) allow_binary = inl rejection) /\
   (forall requirements,
       req ∈ requirements ->
       exists e, _validate_requirements requirements allow_binary = inl e) /\
   (forall output_dir requirements_file st,
       req ∈ file_requirements requirements_file ->
       exists e,
         (_download_dependencies output_dir requirements_file allow_binary st).2 = inl e)).
Proof.
  intros Hkind rejection is_pinned.
  assert (Hone : _validate_requirement req allow_binary
                 = if pinned (req_version_specs req) then inr tt else inl rejection).
  { unfold _validate_requirement. rewrite Hkind. simpl.
    by destruct (pinned (req_version_specs req)). }
  split.
  - intros Hp. apply pinned_spec in Hp. by rewrite Hone, Hp.
  - intros Hn. assert (Hp : pinned (req_version_specs req) = false).
    { apply not_true_iff_false. by rewrite pinned_spec. }
    rewrite Hp in Hone. split; [done|]. split; [|split].
    + intros before after Hbefore. by apply validate_requirements_first_failure.
    + intros requirements Hin. by eapply validate_requirements_failure.
    + intros output_dir requirements_file st Hin.
      by eapply download_dependencies_invalid.
Qed.

(** C5.  For a VCS requirement, validation raises [UnsupportedFeature]
    when the scheme of its URL does not start with [git]; for a git URL
    it raises [PackageRejected] when the path does not end with [@] and a
    40-character hexadecimal ref, and passes when it does.  The two
    errors are of different classes, and either aborts the validation of
    any list holding the requirement and the processing of its
    requirements file. *)
Theorem vcs_requirement_validation (req : PipRequirement) (allow_binary : bool)
    (u : string) :
  req_kind req = "vcs" ->
  url req = inr u ->
  PyStr.endswith (path (urlparse u)) (String "010"%char "") = false ->
  let unsupported :=
    UnsupportedFeature
      ("Unsupported VCS for " +:+ req_download_line req +:+ ": " +:+ scheme (urlparse u)
       +:+ " (only git is supported)") None None in
  let rejection :=
    PackageRejected
      ("No git ref in " +:+ req_download_line req +:+ " (expected 40 hexadecimal characters)")
      (Some "Please specify the full commit hash for git URLs or switch to https URLs.")
      (Some PIP_EXTERNAL_DEPS_DOC) in
  (PyStr.startswith (scheme (urlparse u)) "git" = false ->
   _validate_requirement req allow_binary = inl unsupported) /\
  (PyStr.startswith (scheme (urlparse u)) "git" = true ->
   ~ ends_with_git_ref (path (urlparse u)) ->
   _validate_requirement req allow_binary = inl rejection) /\
  (PyStr.startswith (scheme (urlparse u)) "git" = true ->
   ends_with_git_ref (path (urlparse u)) ->
   _validate_requirement req allow_binary = inr tt) /\
  (is_unsupported unsupported = true /\ is_rejection unsupported = false /\
   is_rejection rejection = true) /\
  (forall e, _validate_requirement req allow_binary = inl e ->
     (forall requirements,
         req ∈ requirements ->
         exists e', _validate_requirements requirements allow_binary = inl e') /\
     (forall output_dir requirements_file st,
         req ∈ file_requirements requirements_file ->
         exists e',
           (_download_dependencies output_dir requirements_file allow_binary st).2 = inl e')).
Proof.
  intros Hkind Hurl Hnl unsupported rejection.
  assert (Hone : _validate_requirement req allow_binary
                 = if negb (PyStr.startswith (scheme (urlparse u)) "git") then inl unsupported
                   else if negb (GIT_REF_IN_PATH_search (path (urlparse u)))
                        then inl rejection else inr tt).
  { unfold _validate_requirement. rewrite Hkind, Hurl. done. }
  pose proof (GIT_REF_IN_PATH_search_ends _ Hnl) as Href.
  split; [|split; [|split; [|split]]].
  - intros Hs. by rewrite Hone, Hs.
  - intros Hs Hn. rewrite Hone, Hs. simpl.
    destruct (GIT_REF_IN_PATH_search (path (urlparse u))); [|done].
    exfalso. by apply Hn, Href.
  - intros Hs Hy. apply Href in Hy. by rewrite Hone, Hs, Hy.
  - done.
  - intros e He. split.
    + intros requirements Hin. by eapply validate_requirements_failure.
    + intros output_dir requirements_file st Hin.
      by eapply download_dependencies_invalid.
Qed.

(** ** Package URLs *)


(** ** Storage paths of external requirements *)

(** C9.  The storage path of a URL or VCS requirement is a function of
    its identifying data alone: two requirements with the same data get
    the same path.  For a URL requirement the path is built from the
    package name, the hash algorithm, the digest and the file extension,
    or is the unquoted file name for a wheel; for a VCS requirement it is
    built from the host, the namespace, the repository and the ref. *)
Theorem external_requirement_filepath_deterministic :
  (forall (r : PipRequirement) (package algorithm digest file_ext wheel : string),
      req_kind r = "url" ->
      url_identifying_data r = inr (package, algorithm, digest, file_ext, wheel) ->
      _get_external_requirement_filepath r
      = inr (if bool_decide (file_ext = WHEEL_FILE_EXTENSION) then PathLib.parse wheel
             else PathLib.Path_of
                    ["external-" +:+ package;
                     package +:+ "-external-" +:+ algorithm +:+ "-" +:+ digest
                     +:+ file_ext])) /\
  (forall (r : PipRequirement) (host namespace repo ref : string),
      req_kind r = "vcs" ->
      vcs_identifying_data r = inr (host, namespace, repo, ref) ->
      _get_external_requirement_filepath r
      = inr (PathLib.Path_of
               [host; namespace; repo;
                repo +:+ "-external-gitcommit-" +:+ ref +:+ ".tar.gz"])) /\
  (forall (r1 r2 : PipRequirement) data,
      req_kind r1 = "url" -> req_kind r2 = "url" ->
      url_identifying_data r1 = inr data -> url_identifying_data r2 = inr data ->
      exists p, _get_external_requirement_filepath r1 = inr p
                /\ _get_external_requirement_filepath r2 = inr p) /\
  (forall (r1 r2 : PipRequirement) data,
      req_kind r1 = "vcs" -> req_kind r2 = "vcs" ->
      vcs_identifying_data r1 = inr data -> vcs_identifying_data r2 = inr data ->
      exists p, _get_external_requirement_filepath r1 = inr p
                /\ _get_external_requirement_filepath r2 = inr p) /\
  (forall (r : PipRequirement) (allow_binary : bool),
      req_kind r = "url" ->
      _validate_requirement r allow_binary = inr tt ->
      exists data, url_identifying_data r = inr data).
Proof.
  assert (Hurl : forall (r : PipRequirement) (package algorithm digest file_ext wheel : string),
      req_kind r = "url" ->
      url_identifying_data r = inr (package, algorithm, digest, file_ext, wheel) ->
      _get_external_requirement_filepath r
      = inr (if bool_decide (file_ext = WHEEL_FILE_EXTENSION) then PathLib.parse wheel
             else PathLib.Path_of
                    ["external-" +:+ package;
                     package +:+ "-external-" +:+ algorithm +:+ "-" +:+ digest
                     +:+ file_ext])).
  { intros r package algorithm digest file_ext wheel Hkind Hdata.
    unfold url_identifying_data in Hdata.
    apply ebind_inr in Hdata as (hash_spec & Hh & Hdata).
    apply ebind_inr in Hdata as (u & Hu & Hdata).
    unfold _get_external_requirement_filepath. rewrite Hkind, Hh.
    cbn [bool_decide decide_rel ebind].
    destruct (PyStr.partition ":" hash_spec) as [alg dig]. rewrite Hu.
    cbn [ebind]. inversion Hdata; subst.
    by destruct (bool_decide (_ = WHEEL_FILE_EXTENSION)). }
  assert (Hvcs : forall (r : PipRequirement) (host namespace repo ref : string),
      req_kind r = "vcs" ->
      vcs_identifying_data r = inr (host, namespace, repo, ref) ->
      _get_external_requirement_filepath r
      = inr (PathLib.Path_of
               [host; namespace; repo;
                repo +:+ "-external-gitcommit-" +:+ ref +:+ ".tar.gz"])).
  { intros r host namespace repo ref Hkind Hdata.
    unfold vcs_identifying_data in Hdata.
    apply ebind_inr in Hdata as (u & Hu & Hdata).
    apply ebind_inr in Hdata as (g & Hg & Hdata).
    unfold _get_external_requirement_filepath. rewrite Hkind, Hu. simpl. rewrite Hg. simpl.
    by inversion Hdata. }
  split; [exact Hurl|]. split; [exact Hvcs|]. split; [|split].
  - intros r1 r2 [[[[package algorithm] digest] file_ext] wheel] H1 H2 Hd1 Hd2.
    eexists. split; by apply Hurl.
  - intros r1 r2 [[[host namespace] repo] ref] H1 H2 Hd1 Hd2.
    eexists. split; by apply Hvcs.
  - intros r allow_binary Hkind Hvalid.
    unfold _validate_requirement in Hvalid. rewrite Hkind in Hvalid. simpl in Hvalid.
    destruct (negb _) eqn:Hn in Hvalid; [discriminate|].
    apply negb_false_iff, Nat.eqb_eq in Hn.
    apply ebind_inr in Hvalid as (u & Hu & _).
    unfold url_identifying_data.
    assert (Hh : exists h, hash_spec_of r = inr h).
    { unfold hash_spec_of. destruct (req_hashes r) as [|h hs]; [|eauto].
      destruct (req_qualifiers r !! "cachito_hash") as [h|]; [eauto|].
      simpl in Hn. discriminate. }
    destruct Hh as [h ->]. rewrite Hu. simpl.
    destruct (PyStr.partition ":" h). eauto.
Qed.

(** ** Parsing the lines of a requirements file *)

Lemma split_hashes_loop_acc (options : list string) :
  forall is_hash hashes reduced_options,
    split_hashes_loop options is_hash hashes reduced_options
    = ((hashes ++ (split_hashes_loop options is_hash [] []).1.1)%list,
       (reduced_options ++ (split_hashes_loop options is_hash [] []).1.2)%list,
       (split_hashes_loop options is_hash [] []).2).
Proof.
  induction options as [|item rest IH]; intros is_hash hashes reduced_options; simpl.
  - by rewrite !app_nil_r.
  - destruct is_hash.
    + rewrite (IH false (hashes ++ [item])%list), (IH false [item]).
      simpl. by rewrite <- app_assoc.
    + destruct (bool_decide (item = "--hash")).
      * by rewrite (IH true hashes).
      * rewrite (IH false hashes (reduced_options ++ [item])%list), (IH false [] [item]).
        simpl. by rewrite <- app_assoc.
Qed.

Lemma split_hashes_loop_app (l1 l2 : list string) :
  forall is_hash hashes reduced_options,
    split_hashes_loop (l1 ++ l2) is_hash hashes reduced_options
    = split_hashes_loop l2 (split_hashes_loop l1 is_hash hashes reduced_options).2
        (split_hashes_loop l1 is_hash hashes reduced_options).1.1
        (split_hashes_loop l1 is_hash hashes reduced_options).1.2.
Proof.
  induction l1 as [|item rest IH]; intros is_hash hashes reduced_options; simpl; [done|].
  destruct is_hash; [apply IH|]. destruct (bool_decide (item = "--hash")); apply IH.
Qed.

Lemma split_hashes_loop_no_flag (pre : list string) :
  "--hash" ∉ pre ->
  forall hashes reduced_options,
    split_hashes_loop pre false hashes reduced_options
    = (hashes, (reduced_options ++ pre)%list, false).
Proof.
  induction pre as [|item rest IH]; intros Hnot hashes reduced_options; simpl.
  - by rewrite app_nil_r.
  - rewrite bool_decide_eq_false_2.
    + rewrite IH; [by rewrite <- app_assoc|].
      intros Hin. apply Hnot. by apply list_elem_of_further.
    + intros ->. apply Hnot. apply list_elem_of_here.
Qed.

Lemma split_hashes_loop_spec (options : list string) :
  forall is_hash,
    let r := split_hashes_loop options is_hash [] [] in
    ("--hash" ∉ r.1.2) /\
    sublist r.1.2 options /\
    sublist r.1.1 options /\
    length options + (if is_hash then 1 else 0)
    = length r.1.2 + 2 * length r.1.1 + (if r.2 then 1 else 0).
Proof.
  induction options as [|item rest IH]; intros is_hash; simpl.
  - split; [by intros ?%elem_of_nil|]. split; [done|]. split; [done|].
    destruct is_hash; simpl; lia.
  - destruct is_hash.
    + rewrite split_hashes_loop_acc. simpl.
      destruct (IH false) as (Hnot & Hred & Hhash & Hlen). simpl in *.
      split; [done|]. split; [by apply sublist_cons|].
      split; [by apply sublist_skip|]. lia.
    + destruct (bool_decide (item = "--hash")) eqn:Hitem.
      * destruct (IH true) as (Hnot & Hred & Hhash & Hlen). simpl in *.
        split; [done|]. split; [by apply sublist_cons|].
        split; [by apply sublist_cons|]. lia.
      * apply bool_decide_eq_false in Hitem.
        rewrite split_hashes_loop_acc. simpl.
        destruct (IH false) as (Hnot & Hred & Hhash & Hlen). simpl in *.
        split.
        { intros Hin. apply elem_of_cons in Hin as [Hin|Hin]; [by symmetry in Hin | done]. }
        split; [by apply sublist_skip|].
        split; [by apply sublist_cons|]. lia.
Qed.

(** X5.  [_split_hashes_from_options] leaves no [--hash] among the
    reduced options; the hashes and the reduced options are sub-lists of
    the options, in their order; and every hash stands for two options,
    the flag and its value, with at most one option, a [--hash] at the
    very end, dropped without a value. *)
Theorem split_hashes_removes_hash_flags (options : list string) :
  ("--hash" ∉ (_split_hashes_from_options options).2) /\
  sublist (_split_hashes_from_options options).2 options /\
  sublist (_split_hashes_from_options options).1 options /\
  length (_split_hashes_from_options options).2
  + 2 * length (_split_hashes_from_options options).1 <= length options /\
  length options <= length (_split_hashes_from_options options).2
                    + 2 * length (_split_hashes_from_options options).1 + 1.
Proof.
  unfold _split_hashes_from_options.
  destruct (split_hashes_loop_spec options false) as (Hnot & Hred & Hhash & Hlen).
  simpl in *. split; [done|]. split; [done|]. split; [done|].
  destruct (split_hashes_loop options false [] []).2; lia.
Qed.

(** X6.  How [_split_hashes_from_options] reads a list of options: up
    to the first [--hash] the options are kept; the option after that
    [--hash] is a hash, whatever it is, and the rest is read in the same
    way; a [--hash] that ends the list is dropped. *)
Theorem split_hashes_reads_flag_value_pairs (pre post : list string) (h : string) :
  "--hash" ∉ pre ->
  _split_hashes_from_options pre = ([], pre) /\
  _split_hashes_from_options (pre ++ "--hash" :: h :: post)
  = (h :: (_split_hashes_from_options post).1,
     (pre ++ (_split_hashes_from_options post).2)%list) /\
  _split_hashes_from_options (pre ++ ["--hash"]) = ([], pre).
Proof.
  intros Hnot. unfold _split_hashes_from_options.
  split; [by rewrite split_hashes_loop_no_flag|]. split.
  - rewrite split_hashes_loop_app, split_hashes_loop_no_flag by done. simpl.
    by rewrite split_hashes_loop_acc.
  - rewrite split_hashes_loop_app, split_hashes_loop_no_flag by done. done.
Qed.

Lemma startswith_app (a b p : string) :
  PyStr.startswith a p = true -> PyStr.startswith (a +:+ b) p = true.
Proof.
  revert a. induction p as [|c p IH]; intros a; [intros _; by destruct (a +:+ b)|].
  destruct a as [|d a]; simpl; [done|].
  destruct (decide (d = c)); [apply IH | done].
Qed.

Lemma contains_app (c : ascii) (a b : string) :
  PyStr.contains c (a +:+ b) = PyStr.contains c a || PyStr.contains c b.
Proof.
  induction a as [|d a IH]; simpl; [done|]. by destruct (decide (d = c)).
Qed.

Lemma partition_app (c : ascii) (a b : string) :
  PyStr.contains c a = false ->
  PyStr.partition c (a +:+ String c b) = (a, b).
Proof.
  induction a as [|d a IH]; simpl.
  - intros _. by destruct (decide (c = c)).
  - destruct (decide (d = c)); [done|]. intros Ha. by rewrite IH.
Qed.

Lemma partition_absent (c : ascii) (a : string) :
  PyStr.contains c a = false -> PyStr.partition c a = (a, "").
Proof.
  induction a as [|d a IH]; simpl; [done|].
  destruct (decide (d = c)); [done|]. intros Ha. by rewrite IH.
Qed.

(** The options of [OPTIONS] that take a value. *)
Lemma options_get_true (opt : string) :
  options_get OPTIONS opt = Some true ->
  opt ∈ ["--constraint"; "--extra-index-url"; "--find-links"; "--index-url"; "--no-binary";
         "--only-binary"; "--requirement"; "--trusted-host"; "--use-feature"; "-c"; "-f";
         "--hash"; "-i"; "-r"].
Proof.
  unfold OPTIONS. simpl.
  repeat (case_bool_decide;
          [subst opt; intros;
           first [discriminate | by apply (bool_decide_unpack _); vm_compute]|]).
  discriminate.
Qed.

Lemma options_get_Some (opt : string) (b : bool) :
  options_get OPTIONS opt = Some b ->
  PyStr.startswith opt "-" = true /\ PyStr.contains "=" opt = false /\
  (opt ∈ REQUIREMENT_OPTIONS ->
   (opt = "--hash" /\ b = true) \/ ((opt = "-e" \/ opt = "--editable") /\ b = false)).
Proof.
  unfold OPTIONS. simpl.
  repeat (case_bool_decide;
          [subst opt; intros [= <-]; split; [reflexivity|]; split; [reflexivity|];
           intros Hin;
           first [by left | by right; split; [left|] | by right; split; [right|]
                  | (exfalso; unfold REQUIREMENT_OPTIONS in Hin;
                     repeat (apply elem_of_cons in Hin as [Hin|Hin]; [discriminate Hin|]);
                     by apply elem_of_nil in Hin)]|]).
  discriminate.
Qed.

(** X7.  While a line is read, a value-taking option written
    [option=value] is read as the option followed by the value. *)
Theorem split_options_equals_sign (opt v : string) (rest : list string) (s : SplitState) :
  sp_require_value s = false ->
  options_get OPTIONS opt = Some true ->
  v <> "" ->
  split_options_loop ((opt +:+ "=" +:+ v) :: rest) s = split_options_loop (opt :: v :: rest) s.
Proof.
  intros Hs Hopt Hv.
  destruct (options_get_Some _ _ Hopt) as (Hdash & Heq & _).
  change ("=" +:+ v) with (String "=" v).
  cbn [split_options_loop]. rewrite Hs.
  rewrite (startswith_app _ _ _ Hdash), Hdash.
  unfold option_and_value.
  rewrite contains_app, Heq. cbn [PyStr.contains orb].
  destruct (decide ("="%char = "="%char)) as [_|Hne]; [|done].
  rewrite (partition_app _ _ _ Heq). cbn beta iota zeta. rewrite Hopt.
  rewrite (bool_decide_eq_false_2 _ Hv). cbn [negb andb].
  by destruct (bool_decide (opt ∈ REQUIREMENT_OPTIONS)).
Qed.

Lemma split_ws_aux_nonempty (s : string) :
  forall cur,
    (forall w, cur = Some w -> w <> "") ->
    Forall (fun t => t <> "") (PyStr.split_ws_aux s cur).
Proof.
  induction s as [|a s IH]; intros cur Hcur; simpl.
  - destruct cur as [w|]; [|by apply Forall_nil].
    apply Forall_singleton. by apply Hcur.
  - destruct (PyStr.isspace a).
    + destruct cur as [w|].
      * apply Forall_cons. split; [by apply Hcur|]. by apply IH.
      * by apply IH.
    + apply IH. intros w [= <-]. destruct cur as [w'|]; [|done]. by destruct w'.
Qed.

Lemma split_nonempty (s : string) : Forall (fun t => t <> "") (PyStr.split s).
Proof. apply split_ws_aux_nonempty. done. Qed.

Lemma join_nonempty (sep : string) (l : list string) :
  l <> [] -> Forall (fun t => t <> "") l -> PyStr.join sep l <> "".
Proof.
  destruct l as [|x l]; [done|]. intros _ Hall.
  apply Forall_cons in Hall as [Hx _]. simpl.
  destruct l; [done|]. by destruct x.
Qed.

(** What the requirement options read so far split into: hashes and
    options that are [-e] or [--editable]. *)
Lemma requirement_options_shape_split (l : list string) (b : bool) :
  requirement_options_shape l b ->
  exists hashes reduced_options,
    split_hashes_loop l false [] [] = (hashes, reduced_options, b) /\
    Forall (fun o => o = "-e" \/ o = "--editable") reduced_options /\
    length l = length reduced_options + 2 * length hashes + (if b then 1 else 0).
Proof.
  induction 1 as [|l o Hl IH Ho|l Hl IH|l v Hl IH].
  - exists [], []. split; [done|]. split; [by apply Forall_nil | done].
  - destruct IH as (hs & red & Hrun & Hred & Hlen).
    exists hs, (red ++ [o])%list. rewrite split_hashes_loop_app, Hrun. simpl.
    rewrite bool_decide_eq_false_2 by (destruct Ho as [-> | ->]; discriminate).
    split; [done|]. split.
    + apply Forall_app. split; [done|]. by apply Forall_singleton.
    + rewrite !length_app. simpl. lia.
  - destruct IH as (hs & red & Hrun & Hred & Hlen).
    exists hs, red. rewrite split_hashes_loop_app, Hrun. simpl.
    split; [done|]. split; [done|]. rewrite !length_app. simpl. lia.
  - destruct IH as (hs & red & Hrun & Hred & Hlen).
    exists (hs ++ [v])%list, red. rewrite split_hashes_loop_app, Hrun. simpl.
    split; [done|]. split; [done|]. rewrite !length_app. simpl. lia.
Qed.

(** The loop over the parts of a line keeps the shape of the requirement
    options, and keeps empty parts out of the requirement. *)
Lemma split_options_loop_shape (parts : list string) :
  forall s s',
    Forall (fun t => t <> "") parts ->
    requirement_options_shape (sp_requirement_options s)
      (match sp_context_options s with
       | requirement_context => sp_require_value s
       | _ => false
       end) ->
    Forall (fun t => t <> "") (sp_requirement s) ->
    split_options_loop parts s = inr s' ->
    requirement_options_shape (sp_requirement_options s')
      (match sp_context_options s' with
       | requirement_context => sp_require_value s'
       | _ => false
       end) /\
    Forall (fun t => t <> "") (sp_requirement s').
Proof.
  induction parts as [|part rest IH]; intros s s' Hparts Hshape Hreq Hrun.
  - simpl in Hrun. inversion Hrun; by subst.
  - apply Forall_cons in Hparts as [Hpart Hparts].
    cbn [split_options_loop] in Hrun.
    destruct s as [g ro rq rv ctx].
    cbn [sp_global_options sp_requirement_options sp_requirement sp_require_value
         sp_context_options] in *.
    destruct rv.
    + apply (IH _ _ Hparts) in Hrun; [done| |].
      * unfold context_append. destruct ctx; simpl; [done|done|].
        by apply shape_value.
      * unfold context_append. by destruct ctx.
    + assert (Hro : requirement_options_shape ro false) by (by destruct ctx).
      clear Hshape.
      destruct (PyStr.startswith part "-").
      * destruct (option_and_value part) as [opt value].
        destruct (options_get OPTIONS opt) as [require_value|] eqn:Hopt; [|discriminate].
        destruct (options_get_Some _ _ Hopt) as (_ & _ & Hcases).
        unfold set_context, set_require_value, context_append in Hrun. simpl in Hrun.
        destruct (bool_decide (opt ∈ REQUIREMENT_OPTIONS)) eqn:Hin.
        -- apply bool_decide_eq_true in Hin.
           destruct (Hcases Hin) as [[-> ->]|[Hed ->]]; simpl in Hrun.
           ++ rewrite andb_false_r in Hrun.
              destruct value as [v|].
              ** destruct (negb (bool_decide (v = ""))); simpl in Hrun.
                 --- apply (IH _ _ Hparts) in Hrun; [done| |done].
                     simpl. apply shape_value. by apply shape_hash.
                 --- apply (IH _ _ Hparts) in Hrun; [done| |done].
                     simpl. by apply shape_hash.
              ** apply (IH _ _ Hparts) in Hrun; [done| |done].
                 simpl. by apply shape_hash.
           ++ rewrite andb_true_r in Hrun.
              destruct value as [v|].
              ** destruct (negb (bool_decide (v = ""))); simpl in Hrun; [discriminate|].
                 apply (IH _ _ Hparts) in Hrun; [done| |done].
                 simpl. by apply shape_editable.
              ** simpl in Hrun. apply (IH _ _ Hparts) in Hrun; [done| |done].
                 simpl. by apply shape_editable.
        -- simpl in Hrun.
           destruct ((match value with
                      | Some v => negb (bool_decide (v = ""))
                      | None => false
                      end) && negb require_value); [discriminate|].
           destruct value as [v|].
           ++ destruct (negb (bool_decide (v = ""))); simpl in Hrun;
                by apply (IH _ _ Hparts) in Hrun.
           ++ by apply (IH _ _ Hparts) in Hrun.
      * apply (IH _ _ Hparts) in Hrun; [done| |].
        -- simpl. by destruct ctx.
        -- simpl. apply Forall_app. split; [done|]. by apply Forall_singleton.
Qed.

(** X8.  When [_split_options_and_requirement] accepts a line, the
    requirement options it returns hold nothing but [-e], [--editable]
    and pairs of [--hash] and a value: [_split_hashes_from_options]
    leaves only [-e] and [--editable] among their reduced options and
    finds a hash for every other two of them.  Requirement options are
    never returned without a requirement. *)
Theorem split_options_requirement_options (line : string)
    (global_options requirement_options : list string) (requirement : string) :
  _split_options_and_requirement line
  = inr (global_options, requirement_options, requirement) ->
  Forall (fun o => o = "-e" \/ o = "--editable")
    (_split_hashes_from_options requirement_options).2 /\
  length requirement_options
  = length (_split_hashes_from_options requirement_options).2
    + 2 * length (_split_hashes_from_options requirement_options).1 /\
  (requirement_options <> [] -> requirement <> "").
Proof.
  unfold _split_options_and_requirement. intros Hrun.
  destruct (split_options_loop (PyStr.split line) (mkSplit [] [] [] false no_context))
    as [e|s] eqn:Hloop; [discriminate|].
  apply split_options_loop_shape in Hloop as [Hshape Hreq];
    [|apply split_nonempty|apply shape_nil|by apply Forall_nil].
  destruct (sp_require_value s) eqn:Hrv.
  { destruct (context_last s); discriminate. }
  destruct (negb (bool_decide (sp_requirement_options s = []))
            && bool_decide (sp_requirement s = [])) eqn:Hempty; [discriminate|].
  inversion Hrun; subst. clear Hrun.
  assert (Hshape' : requirement_options_shape (sp_requirement_options s) false).
  { by destruct (sp_context_options s). }
  destruct (requirement_options_shape_split _ _ Hshape') as (hs & red & Hsplit & Hred & Hlen).
  unfold _split_hashes_from_options. rewrite Hsplit. simpl.
  split; [done|]. split; [lia|].
  intros Hne. apply join_nonempty; [|done].
  intros Hnil. rewrite Hnil in Hempty.
  rewrite (bool_decide_eq_false_2 _ Hne) in Hempty. by simpl in Hempty.
Qed.


Lemma split_hashes_removes_flag (options : list string) :
  "--hash" ∉ (_split_hashes_from_options options).2.
Proof.
  unfold _split_hashes_from_options.
  by destruct (split_hashes_loop_spec options false) as (Hnot & _).
Qed.

Lemma partition_app_absent (c : ascii) (a b : string) :
  PyStr.contains c a = false ->
  PyStr.partition c (a +:+ b)
  = (a +:+ (PyStr.partition c b).1, (PyStr.partition c b).2).
Proof.
  induction a as [|d a IH]; simpl.
  - intros _. by destruct (PyStr.partition c b).
  - destruct (decide (d = c)); [done|]. intros Ha. by rewrite IH.
Qed.

Lemma split_on_absent (c : ascii) (a : string) :
  PyStr.contains c a = false -> PyStr.split_on c a = [a].
Proof.
  induction a as [|d a IH]; simpl; [done|].
  destruct (decide (d = c)); [done|]. intros Ha. by rewrite IH.
Qed.

Lemma split_on_app (c : ascii) (a b : string) :
  PyStr.contains c a = false ->
  PyStr.split_on c (a +:+ String c b) = a :: PyStr.split_on c b.
Proof.
  induction a as [|d a IH]; simpl.
  - intros _. by destruct (decide (c = c)).
  - destruct (decide (d = c)); [done|]. intros Ha. by rewrite IH.
Qed.

Lemma partition_fst_absent (c : ascii) (s : string) :
  PyStr.contains c (PyStr.partition c s).1 = false.
Proof.
  induction s as [|d s IH]; simpl; [done|].
  destruct (decide (d = c)) as [|Hne]; [done|].
  destruct (PyStr.partition c s) as [hd tl]. simpl in *.
  by destruct (decide (d = c)).
Qed.

(** X9.  [_assess_direct_access_requirement] takes a line for a plain
    (PyPI) requirement exactly when the line holds no colon: a line with
    a colon anywhere, be it in an environment marker, is a direct-access
    requirement or an error. *)
Theorem assess_plain_iff_no_colon (line : string) :
  _assess_direct_access_requirement line = inr None <-> PyStr.contains ":" line = false.
Proof.
  unfold _assess_direct_access_requirement.
  destruct (PyStr.contains ":" line); simpl; [|done].
  split; [|done].
  destruct (2 <? length _)%nat; [done|].
  destruct (bool_decide (_ ∈ URL_SCHEMES)); [done|].
  by destruct (bool_decide (_ ∈ VCS_SCHEMES)).
Qed.

(** X10.  Naming the package in front of a direct-access requirement,
    [name@rest], does not change its kind, as long as the name holds
    neither a colon nor an at sign and no at sign stands before the
    first colon of [rest]. *)
Theorem assess_ignores_package_name (name rest kind : string) :
  PyStr.contains ":" name = false ->
  PyStr.contains "@" name = false ->
  PyStr.contains "@" (PyStr.partition ":" rest).1 = false ->
  _assess_direct_access_requirement rest = inr (Some kind) ->
  _assess_direct_access_requirement (name +:+ "@" +:+ rest) = inr (Some kind).
Proof.
  intros Hcolon Hat Hscheme. unfold _assess_direct_access_requirement.
  change ("@" +:+ rest) with (String "@" rest).
  rewrite contains_app. cbn [PyStr.contains].
  destruct (decide ("@"%char = ":"%char)) as [Hne|_]; [discriminate|].
  destruct (PyStr.contains ":" rest) eqn:Hrest; [|by rewrite Hcolon].
  rewrite orb_true_r. cbn [negb].
  rewrite (partition_app_absent _ _ _ Hcolon). cbn [fst PyStr.partition].
  destruct (decide ("@"%char = ":"%char)) as [Hne|_]; [discriminate|].
  destruct (PyStr.partition ":" rest) as [p tl]. cbn [fst] in *.
  rewrite (split_on_app _ _ _ Hat), (split_on_absent _ _ Hscheme).
  cbn [length Nat.ltb Nat.leb last default].
  destruct (bool_decide (_ ∈ URL_SCHEMES)); [done|].
  by destruct (bool_decide (_ ∈ VCS_SCHEMES)).
Qed.

(** What a successful [_assess_direct_access_requirement] tells. *)
Lemma assess_kind (line : string) (kind : option string) :
  _assess_direct_access_requirement line = inr kind ->
  match kind with
  | None => PyStr.contains ":" line = false
  | Some k => PyStr.contains ":" line = true /\ (k = "url" \/ k = "vcs")
  end.
Proof.
  unfold _assess_direct_access_requirement.
  destruct (PyStr.contains ":" line); simpl.
  - destruct (2 <? length _)%nat; [done|].
    destruct (bool_decide (_ ∈ URL_SCHEMES)); [intros [= <-]; split; [done | by left]|].
    destruct (bool_decide (_ ∈ VCS_SCHEMES)); [intros [= <-]; split; [done | by right]|].
    done.
  - by intros [= <-].
Qed.

(** X11.  A requirement [from_line] returns is of kind [pypi], [url] or
    [vcs], and of kind [pypi] exactly when its line holds no colon; its
    reduced options hold no [--hash]; a [pypi] requirement has no
    qualifiers, and its download line is the line itself. *)
Theorem from_line_kind (line : string) (options : list string) (r : PipRequirement) :
  from_line line options = inr r ->
  (req_kind r = "pypi" \/ req_kind r = "url" \/ req_kind r = "vcs") /\
  (req_kind r = "pypi" <-> PyStr.contains ":" line = false) /\
  ("--hash" ∉ req_options r) /\
  (req_hashes r, req_options r) = _split_hashes_from_options options /\
  (req_kind r = "pypi" -> req_qualifiers r = ∅ /\ req_download_line r = line).
Proof.
  unfold from_line. intros Hrun.
  destruct (_assess_direct_access_requirement line) as [e|kind] eqn:Hassess; [discriminate|].
  pose proof (assess_kind _ _ Hassess) as Hkind.
  pose proof (split_hashes_removes_flag options) as Hflag.
  destruct kind as [k|].
  - destruct (_adjust_direct_access_requirement line) as [e|[to_be_parsed qualifiers]];
      [discriminate|].
    destruct (parse_requirement to_be_parsed) as [exc|req]; [discriminate|].
    destruct (_split_hashes_from_options options) as [hashes reduced] eqn:Hsplit.
    inversion Hrun; subst r. clear Hrun. simpl in *.
    destruct Hkind as [Hcolon Hk].
    split; [by right|]. split.
    + rewrite Hcolon. split; [|done]. intros ->. by destruct Hk.
    + split; [done|]. split; [done|]. intros ->. by destruct Hk.
  - destruct (parse_requirement line) as [exc|req]; [discriminate|].
    destruct (_split_hashes_from_options options) as [hashes reduced] eqn:Hsplit.
    inversion Hrun; subst r. clear Hrun. simpl in *.
    split; [by left|]. split; [done|]. split; [done|]. done.
Qed.


(** *** One requirement from its line *)

Lemma split_ws_aux_token (t : string) :
  PyStr.has_space t = false ->
  forall rest cur,
    PyStr.split_ws_aux (t +:+ rest) cur
    = PyStr.split_ws_aux rest
        (match t with
         | EmptyString => cur
         | _ => Some (match cur with Some w => w +:+ t | None => t end)
         end).
Proof.
  induction t as [|a t IH]; intros Ht rest cur; [done|].
  simpl in Ht. apply orb_false_iff in Ht as [Ha Ht].
  cbn [String.append PyStr.split_ws_aux]. rewrite Ha, (IH Ht).
  destruct t as [|b t]; [done|]. f_equal. f_equal.
  destruct cur as [w|]; [|done].
  by rewrite string_app_assoc.
Qed.

(** [" ".join(tokens).split()] gives the tokens back. *)
Lemma split_join (tokens : list string) :
  Forall (fun t => t <> "" /\ PyStr.has_space t = false) tokens ->
  PyStr.split (PyStr.join " " tokens) = tokens.
Proof.
  unfold PyStr.split. induction 1 as [|t tokens [Hne Ht] Hall IH]; [done|].
  destruct tokens as [|t' tokens].
  - simpl. rewrite <- (string_app_nil_r t) at 1.
    rewrite (split_ws_aux_token _ Ht). by destruct t.
  - change (PyStr.join " " (t :: t' :: tokens))
      with (t +:+ String " " (PyStr.join " " (t' :: tokens))).
    rewrite (split_ws_aux_token _ Ht). destruct t as [|a t]; [done|].
    cbn [PyStr.split_ws_aux]. change (PyStr.isspace " ") with true.
    cbn beta iota. by rewrite IH.
Qed.

Lemma lstrip_ws_token (t rest : string) :
  t <> "" -> PyStr.has_space t = false -> PyStr.lstrip_ws (t +:+ rest) = t +:+ rest.
Proof.
  destruct t as [|a t]; [done|]. intros _ Ht. simpl in Ht.
  apply orb_false_iff in Ht as [Ha _]. cbn [String.append PyStr.lstrip_ws]. by rewrite Ha.
Qed.

Lemma rstrip_ws_token (t : string) :
  PyStr.has_space t = false -> PyStr.rstrip_ws t = t.
Proof.
  induction t as [|a t IH]; [done|]. simpl. intros Ht.
  apply orb_false_iff in Ht as [Ha Ht]. rewrite (IH Ht), Ha. by destruct t.
Qed.

Lemma rstrip_ws_token_space (t : string) :
  PyStr.has_space t = false -> PyStr.rstrip_ws (t +:+ " ") = t.
Proof.
  induction t as [|a t IH]; [done|]. cbn [String.append PyStr.rstrip_ws PyStr.has_space].
  intros Ht. apply orb_false_iff in Ht as [Ha Ht]. rewrite (IH Ht), Ha. by destruct t.
Qed.

Lemma split_semicolon_space_token (t : string) :
  PyStr.has_space t = false ->
  forall c, split_semicolon_space (String c t) = None.
Proof.
  induction t as [|a t IH]; intros Ht c.
  - simpl. by rewrite andb_false_r.
  - simpl in Ht. apply orb_false_iff in Ht as [Ha Ht].
    cbn [split_semicolon_space PyStr.startswith]. fold split_semicolon_space.
    destruct (decide (a = " "%char)) as [->|Hne]; [done|].
    rewrite andb_false_r.
    change (match (if bool_decide (a = ";"%char) && PyStr.startswith t " "
                   then Some (EmptyString, PyStr.tail t)
                   else match split_semicolon_space t with
                        | Some (hd, tl) => Some (String a hd, tl)
                        | None => None
                        end)
            with Some (hd, tl) => Some (String c hd, tl) | None => None end = None)
      with (match split_semicolon_space (String a t)
            with Some (hd, tl) => Some (String c hd, tl) | None => None end = None).
    by rewrite IH.
Qed.

(** The package name after the sections of the fragment: the one before
    them, unless a section sets [egg]. *)
Lemma adjust_sections_name (sections : list string) :
  forall package_name qualifiers,
    ((adjust_sections sections package_name qualifiers).1 = package_name \/
     is_Some ((adjust_sections sections package_name qualifiers).2 !! "egg")) /\
    (is_Some (qualifiers !! "egg") ->
     is_Some ((adjust_sections sections package_name qualifiers).2 !! "egg")).
Proof.
  induction sections as [|section rest IH]; intros package_name qualifiers; simpl.
  - split; [by left | done].
  - destruct (PyStr.contains "=" section); [|apply IH].
    destruct (PyStr.partition "=" section) as [attr value].
    destruct (IH (if bool_decide (attr = "egg") then Some (unquote value) else package_name)
                 (<[attr := unquote value]> qualifiers)) as [Hname Hegg].
    split.
    + case_bool_decide as Hattr; [|done]. subst attr. right. apply Hegg.
      rewrite lookup_insert_eq. eauto.
    + intros Hq. apply Hegg. destruct (decide (attr = "egg")) as [->|Hne].
      * rewrite lookup_insert_eq. eauto.
      * by rewrite lookup_insert_ne.
Qed.

Lemma lstrip_ws_no_space (t : string) :
  PyStr.has_space t = false -> PyStr.lstrip_ws t = t.
Proof.
  destruct t as [|a t]; [done|]. simpl. intros Ht.
  apply orb_false_iff in Ht as [Ha _]. by rewrite Ha.
Qed.

(** What [_adjust_direct_access_requirement] returns when no section of
    the fragment sets [egg]: the line holds a name before its first at
    sign, and the new line is made of that name, the URL and the
    environment marker, stripped. *)
Lemma adjust_without_egg (line to_be_parsed : string) (qualifiers : gmap string string) :
  _adjust_direct_access_requirement line = inr (to_be_parsed, qualifiers) ->
  qualifiers !! "egg" = None ->
  HAS_NAME_IN_DIRECT_ACCESS_REQUIREMENT_search line = true /\
  to_be_parsed
  = PyStr.join " "
      ([PyStr.strip (PyStr.partition "@" line).1; "@";
        PyStr.strip (match split_semicolon_space (PyStr.partition "@" line).2 with
                     | Some (u, _) => u
                     | None => (PyStr.partition "@" line).2
                     end)]
       ++ match split_semicolon_space (PyStr.partition "@" line).2 with
          | Some (_, m) => if bool_decide (m = "") then [] else [";"; PyStr.strip m]
          | None => []
          end)%list.
Proof.
  unfold _adjust_direct_access_requirement. intros Hrun Hegg.
  destruct (HAS_NAME_IN_DIRECT_ACCESS_REQUIREMENT_search line).
  - destruct (PyStr.partition "@" line) as [n u]. cbn [fst snd].
    destruct (match split_semicolon_space u with
              | Some (u0, m) => (u0, Some m)
              | None => (u, None)
              end) as [url' marker] eqn:Hsplit.
    destruct (if bool_decide (fragment (urlparse url') = "")
              then (Some n, ∅)
              else adjust_sections (PyStr.split_on "&" (fragment (urlparse url'))) (Some n) ∅)
      as [package_name q] eqn:Hq.
    assert (Hname : package_name = Some n \/ is_Some (q !! "egg")).
    { destruct (bool_decide (fragment (urlparse url') = "")); [inversion Hq; by left|].
      pose proof (adjust_sections_name
                    (PyStr.split_on "&" (fragment (urlparse url'))) (Some n) ∅) as [Hn _].
      by rewrite Hq in Hn. }
    destruct package_name as [n'|]; [|discriminate].
    destruct (bool_decide (n' = "")); [discriminate|].
    inversion Hrun; subst. clear Hrun.
    destruct Hname as [[= ->]|Hsome]; [|rewrite Hegg in Hsome; by destruct Hsome].
    split; [done|].
    destruct (split_semicolon_space u) as [[u0 m]|]; inversion Hsplit; subst; [|done].
    by destruct (bool_decide (m = "")).
  - exfalso.
    destruct (match split_semicolon_space line with
              | Some (u0, m) => (u0, Some m)
              | None => (line, None)
              end) as [url' marker].
    destruct (if bool_decide (fragment (urlparse url') = "")
              then (None, ∅)
              else adjust_sections (PyStr.split_on "&" (fragment (urlparse url'))) None ∅)
      as [package_name q] eqn:Hq.
    assert (Hname : package_name = None \/ is_Some (q !! "egg")).
    { destruct (bool_decide (fragment (urlparse url') = "")); [inversion Hq; by left|].
      pose proof (adjust_sections_name
                    (PyStr.split_on "&" (fragment (urlparse url'))) None ∅) as [Hn _].
      by rewrite Hq in Hn. }
    destruct package_name as [n'|]; [|discriminate].
    destruct (bool_decide (n' = "")); [discriminate|].
    inversion Hrun; subst. clear Hrun.
    destruct Hname as [?|Hsome]; [done|]. rewrite Hegg in Hsome. by destruct Hsome.
Qed.

(** X12.  For a line [name @ url] whose name and URL are single words
    (no white space), the name without an at sign, the URL with a colon:
    when [from_line] accepts the line and no section of the URL fragment
    sets [egg], the requirement is a [url] or [vcs] one, its download
    line is the line, and its [url] property is the URL. *)
Theorem from_line_direct_reference (name u : string) (options : list string)
    (r : PipRequirement) :
  name <> "" -> PyStr.has_space name = false -> PyStr.contains "@" name = false ->
  u <> "" -> PyStr.has_space u = false -> PyStr.contains ":" u = true ->
  from_line (name +:+ " @ " +:+ u) options = inr r ->
  req_qualifiers r !! "egg" = None ->
  (req_kind r = "url" \/ req_kind r = "vcs") /\
  req_download_line r = name +:+ " @ " +:+ u /\
  url r = inr u.
Proof.
  intros Hn Hns Hnat Hu Hus Hcolon Hrun Hegg.
  assert (Hline : name +:+ " @ " +:+ u = (name +:+ " ") +:+ String "@" (String " " u)).
  { by rewrite string_app_assoc. }
  unfold from_line in Hrun.
  destruct (_assess_direct_access_requirement (name +:+ " @ " +:+ u)) as [e|kind] eqn:Hassess;
    [discriminate|].
  pose proof (assess_kind _ _ Hassess) as Hkind.
  destruct kind as [k|]; [|by rewrite !contains_app, Hcolon, !orb_true_r in Hkind].
  destruct Hkind as [_ Hk].
  destruct (_adjust_direct_access_requirement (name +:+ " @ " +:+ u))
    as [e|[to_be_parsed qualifiers]] eqn:Hadj; [discriminate|].
  destruct (parse_requirement to_be_parsed) as [exc|req]; [discriminate|].
  destruct (_split_hashes_from_options options) as [hashes reduced].
  inversion Hrun; subst r. clear Hrun. cbn [req_kind req_download_line req_qualifiers] in *.
  destruct (adjust_without_egg _ _ _ Hadj Hegg) as [_ Htbp].
  assert (Hpart : PyStr.partition "@" (name +:+ " @ " +:+ u) = (name +:+ " ", String " " u)).
  { rewrite Hline. apply partition_app. rewrite contains_app, Hnat. done. }
  rewrite Hpart in Htbp. cbn [fst snd] in Htbp.
  rewrite (split_semicolon_space_token _ Hus) in Htbp.
  assert (Hstrip1 : PyStr.strip (name +:+ " ") = name).
  { unfold PyStr.strip. rewrite (lstrip_ws_token _ _ Hn Hns).
    by apply rstrip_ws_token_space. }
  assert (Hstrip2 : PyStr.strip (String " " u) = u).
  { unfold PyStr.strip. cbn [PyStr.lstrip_ws]. change (PyStr.isspace " ") with true.
    cbn beta iota. by rewrite (lstrip_ws_no_space _ Hus), (rstrip_ws_token _ Hus). }
  rewrite Hstrip1, Hstrip2 in Htbp. cbn [app] in Htbp. subst to_be_parsed.
  split; [done|]. split; [done|].
  unfold url. cbn [req__url req_kind req_download_line].
  rewrite split_join
    by (repeat (apply Forall_cons; split; [done|]); apply Forall_nil_2).
  by destruct Hk as [-> | ->].
Qed.


(** *** Writing a requirement and reading it back *)

Lemma join_cons (sep x : string) (l : list string) :
  l <> [] -> PyStr.join sep (x :: l) = x +:+ sep +:+ PyStr.join sep l.
Proof. by destruct l. Qed.

Lemma join_app (sep : string) (l1 l2 : list string) :
  l1 <> [] -> l2 <> [] ->
  PyStr.join sep (l1 ++ l2) = PyStr.join sep l1 +:+ sep +:+ PyStr.join sep l2.
Proof.
  intros H1 H2. induction l1 as [|x l1 IH]; [done|].
  destruct l1 as [|y l1].
  - simpl app. by rewrite join_cons.
  - rewrite <- app_comm_cons. rewrite join_cons by done.
    rewrite IH by done. rewrite (join_cons sep x (y :: l1)) by done.
    by rewrite !string_app_assoc.
Qed.

(** A joined list of words counts as its words in a longer join. *)
Lemma join_flatten (sep : string) (l1 tokens l2 : list string) :
  tokens <> [] ->
  PyStr.join sep (l1 ++ [PyStr.join sep tokens] ++ l2)
  = PyStr.join sep (l1 ++ tokens ++ l2).
Proof.
  intros Ht.
  assert (Hmid : PyStr.join sep ([PyStr.join sep tokens] ++ l2)
                 = PyStr.join sep (tokens ++ l2)).
  { destruct l2 as [|z l2]; [by rewrite !app_nil_r|].
    rewrite (join_app sep tokens (z :: l2)) by done. simpl app. by rewrite join_cons. }
  destruct l1 as [|x l1]; [done|].
  rewrite (join_app sep (x :: l1)) by done.
  rewrite (join_app sep (x :: l1) (tokens ++ l2)); [by rewrite Hmid|done|].
  by destruct tokens.
Qed.

Lemma has_space_app (a b : string) :
  PyStr.has_space (a +:+ b) = PyStr.has_space a || PyStr.has_space b.
Proof.
  induction a as [|c a IH]; [done|]. cbn [String.append PyStr.has_space].
  by rewrite IH, orb_assoc.
Qed.

Lemma split_options_loop_app (l1 l2 : list string) :
  forall s,
    split_options_loop (l1 ++ l2) s
    = match split_options_loop l1 s with
      | inl e => inl e
      | inr s' => split_options_loop l2 s'
      end.
Proof.
  induction l1 as [|part l1 IH]; intros s; [done|].
  rewrite <- app_comm_cons. cbn [split_options_loop].
  destruct (sp_require_value s); [apply IH|].
  destruct (PyStr.startswith part "-"); [|apply IH].
  destruct (option_and_value part) as [opt value].
  destruct (options_get OPTIONS opt) as [require_value|]; [|done].
  destruct (_ && negb require_value); [done|].
  destruct value as [v|]; [|apply IH].
  destruct (negb (bool_decide (v = ""))); apply IH.
Qed.

Lemma split_options_loop_editable (opts : list string) :
  Forall (fun o => o = "-e" \/ o = "--editable") opts ->
  forall g ro rq ctx,
    split_options_loop opts (mkSplit g ro rq false ctx)
    = inr (mkSplit g (ro ++ opts) rq false
             (match opts with [] => ctx | _ => requirement_context end)).
Proof.
  induction 1 as [|o opts Ho Hall IH]; intros g ro rq ctx.
  - simpl. by rewrite app_nil_r.
  - assert (Hstep : split_options_loop (o :: opts) (mkSplit g ro rq false ctx)
                    = split_options_loop opts
                        (mkSplit g (ro ++ [o]) rq false requirement_context)).
    { destruct Ho as [-> | ->]; reflexivity. }
    rewrite Hstep, IH. rewrite <- app_assoc. simpl.
    by destruct opts.
Qed.

Lemma split_options_loop_words (tokens : list string) :
  Forall (fun t => PyStr.startswith t "-" = false) tokens ->
  forall g ro rq ctx,
    split_options_loop tokens (mkSplit g ro rq false ctx)
    = inr (mkSplit g ro (rq ++ tokens) false ctx).
Proof.
  induction 1 as [|t tokens Ht Hall IH]; intros g ro rq ctx.
  - simpl. by rewrite app_nil_r.
  - cbn [split_options_loop sp_require_value]. rewrite Ht.
    cbn [sp_global_options sp_requirement_options sp_requirement sp_context_options].
    rewrite IH. by rewrite <- app_assoc.
Qed.

Lemma split_options_loop_hashes (hashes : list string) :
  Forall (fun h => h <> "") hashes ->
  forall g ro rq ctx,
    split_options_loop (map (fun h => "--hash=" +:+ h) hashes) (mkSplit g ro rq false ctx)
    = inr (mkSplit g (ro ++ concat (map (fun h => ["--hash"; h]) hashes)) rq false
             (match hashes with [] => ctx | _ => requirement_context end)).
Proof.
  induction 1 as [|h hashes Hh Hall IH]; intros g ro rq ctx.
  - simpl. by rewrite app_nil_r.
  - assert (Hstep : split_options_loop (map (fun h => "--hash=" +:+ h) (h :: hashes))
                      (mkSplit g ro rq false ctx)
                    = split_options_loop (map (fun h => "--hash=" +:+ h) hashes)
                        (mkSplit g (ro ++ ["--hash"; h]) rq false requirement_context)).
    { cbn [map split_options_loop sp_require_value].
      change (PyStr.startswith ("--hash=" +:+ h) "-") with true.
      change (option_and_value ("--hash=" +:+ h)) with ("--hash", Some h).
      cbn beta iota zeta.
      change (options_get OPTIONS "--hash") with (Some true).
      cbn beta iota zeta.
      rewrite (bool_decide_eq_false_2 _ Hh). cbn [negb andb].
      change (bool_decide ("--hash" ∈ REQUIREMENT_OPTIONS)) with true.
      unfold set_context, set_require_value, context_append. simpl.
      by rewrite <- app_assoc. }
    rewrite Hstep, IH. rewrite <- app_assoc. simpl. by destruct hashes.
Qed.

Lemma split_hashes_loop_pairs (hashes : list string) :
  forall hs reduced,
    split_hashes_loop (concat (map (fun h => ["--hash"; h]) hashes)) false hs reduced
    = ((hs ++ hashes)%list, reduced, false).
Proof.
  induction hashes as [|h hashes IH]; intros hs reduced; simpl.
  - by rewrite app_nil_r.
  - rewrite IH. by rewrite <- app_assoc.
Qed.

(** X13.  Reading back what [__str__] writes.  For a requirement whose
    options are [-e] or [--editable], whose download line is made of
    words that do not start with a dash, and whose hashes are single
    non-empty words, [_split_options_and_requirement] splits the text of
    the requirement into no global option, requirement options from
    which [_split_hashes_from_options] gives back the hashes and the
    options, and the download line. *)
Theorem requirement_str_round_trip (r : PipRequirement) (tokens : list string) :
  Forall (fun o => o = "-e" \/ o = "--editable") (req_options r) ->
  tokens <> [] ->
  Forall (fun t => t <> "" /\ PyStr.has_space t = false /\ PyStr.startswith t "-" = false)
    tokens ->
  req_download_line r = PyStr.join " " tokens ->
  Forall (fun h => h <> "" /\ PyStr.has_space h = false) (req_hashes r) ->
  exists requirement_options,
    _split_options_and_requirement (PipRequirement_str r)
    = inr ([], requirement_options, req_download_line r) /\
    _split_hashes_from_options requirement_options = (req_hashes r, req_options r).
Proof.
  intros Hopts Hne Htokens Hline Hhashes.
  exists (req_options r ++ concat (map (fun h => ["--hash"; h]) (req_hashes r)))%list.
  split.
  - unfold _split_options_and_requirement, PipRequirement_str.
    rewrite Hline, join_flatten by done.
    rewrite split_join.
    + assert (Hwords : Forall (fun t => PyStr.startswith t "-" = false) tokens)
        by (eapply Forall_impl; [exact Htokens|]; by intros t (_ & _ & Ht)).
      assert (Hvalues : Forall (fun h => h <> "") (req_hashes r))
        by (eapply Forall_impl; [exact Hhashes|]; by intros h [Hh _]).
      rewrite split_options_loop_app, (split_options_loop_editable _ Hopts).
      cbn beta iota. rewrite split_options_loop_app.
      rewrite (split_options_loop_words _ Hwords). cbn beta iota.
      rewrite (split_options_loop_hashes _ Hvalues).
      cbn [sp_require_value sp_requirement_options sp_requirement sp_global_options app].
      rewrite (bool_decide_eq_false_2 (tokens = [])) by done.
      by rewrite andb_false_r.
    + apply Forall_app. split.
      * eapply Forall_impl; [exact Hopts|]. by intros o [-> | ->].
      * apply Forall_app. split.
        -- eapply Forall_impl; [exact Htokens|]. by intros t (? & ? & _).
        -- apply Forall_fmap. eapply Forall_impl; [exact Hhashes|].
           intros h [_ Hh]. unfold compose. split; [done|]. by rewrite has_space_app, Hh.
  - unfold _split_hashes_from_options.
    rewrite split_hashes_loop_app, split_hashes_loop_no_flag.
    + cbn [fst snd]. by rewrite split_hashes_loop_pairs.
    + intros Hin. rewrite Forall_forall in Hopts. by destruct (Hopts _ Hin).
Qed.


(** ** The options of a requirements file *)

(** Reading options that take no argument: the flag [--require-hashes]
    is recorded, the unsupported options are collected in order and so
    are the other dashed options, which are ignored. *)
Lemma process_options_loop_flags (pre : list string) :
  Forall (fun o => o ∉ ["--trusted-host"; "-i"; "--index-url"]) pre ->
  forall rest opts ignored rejected,
    _process_options_loop (pre ++ rest) opts ignored rejected
    = _process_options_loop rest
        (mkOptions (require_hashes opts || bool_decide ("--require-hashes" ∈ pre))
           (trusted_hosts opts) (index_url opts))
        (ignored ++ filter (fun o => o <> "--require-hashes"
                                     /\ (o ∉ ["--extra-index-url"; "--no-index"; "-f";
                                              "--find-links"; "--only-binary"])
                                     /\ PyStr.startswith o "-" = true) pre)
        (rejected ++ filter (fun o => o ∈ ["--extra-index-url"; "--no-index"; "-f";
                                           "--find-links"; "--only-binary"]) pre).
Proof.
  induction 1 as [|o pre Ho Hall IH]; intros rest opts ignored rejected.
  - rewrite !filter_nil, !app_nil_r. simpl app.
    rewrite bool_decide_eq_false_2 by apply not_elem_of_nil.
    rewrite orb_false_r. by destruct opts.
  - rewrite <- app_comm_cons. cbn [_process_options_loop].
    assert (Hth : o <> "--trusted-host").
    { intros ->. apply Ho. apply list_elem_of_here. }
    assert (Hi : o <> "-i").
    { intros ->. apply Ho. apply list_elem_of_further, list_elem_of_here. }
    assert (Hiu : o <> "--index-url").
    { intros ->. apply Ho. do 2 apply list_elem_of_further. apply list_elem_of_here. }
    destruct (decide (o = "--require-hashes")) as [->|Hrh].
    + rewrite bool_decide_eq_true_2 by done. rewrite IH.
      rewrite filter_cons_False by (by intros [? _]).
      rewrite filter_cons_False
        by (intros Hin; repeat (apply elem_of_cons in Hin as [Hin|Hin]; [discriminate Hin|]);
            by apply elem_of_nil in Hin).
      cbn [require_hashes trusted_hosts index_url].
      rewrite (bool_decide_eq_true_2 ("--require-hashes" ∈ "--require-hashes" :: pre))
        by apply list_elem_of_here.
      by rewrite orb_true_r.
    + rewrite (bool_decide_eq_false_2 (o = "--require-hashes")) by done.
      rewrite (bool_decide_eq_false_2 (o = "--trusted-host")) by done.
      rewrite (bool_decide_eq_false_2 (o = "-i")) by done.
      rewrite (bool_decide_eq_false_2 (o = "--index-url")) by done.
      cbn [orb].
      assert (Hmem : bool_decide ("--require-hashes" ∈ o :: pre)
                     = bool_decide ("--require-hashes" ∈ pre)).
      { apply bool_decide_ext. split.
        - intros Hin. apply elem_of_cons in Hin as [Hin|Hin]; [by symmetry in Hin | done].
        - apply list_elem_of_further. }
      rewrite Hmem.
      destruct (decide (o ∈ ["--extra-index-url"; "--no-index"; "-f";
                             "--find-links"; "--only-binary"])) as [Hrej|Hrej].
      * rewrite bool_decide_eq_true_2 by done. rewrite IH.
        rewrite filter_cons_False by (by intros (_ & ? & _)).
        rewrite (filter_cons_True (fun o => o ∈ _)) by done.
        by rewrite <- app_assoc.
      * rewrite bool_decide_eq_false_2 by done.
        destruct (PyStr.startswith o "-") eqn:Hdash.
        -- rewrite IH. rewrite filter_cons_True by done.
           rewrite (filter_cons_False (fun o => o ∈ _)) by done.
           by rewrite <- app_assoc.
        -- rewrite IH. rewrite filter_cons_False by (intros (_ & _ & ?); congruence).
           by rewrite (filter_cons_False (fun o => o ∈ _)) by done.
Qed.

(** X14.  [_process_options] on options that take no argument (none of
    them is [--trusted-host], [-i] or [--index-url]): the dashed options
    that are neither [--require-hashes] nor unsupported are logged as
    ignored, all together and in order; then, if some options are
    unsupported, [UnsupportedFeature] names them all, in order;
    otherwise the result requires hashes exactly when [--require-hashes]
    is among the options, and has no trusted host and no index URL. *)
Theorem process_options_flags (options : list string) (st : State) :
  Forall (fun o => o ∉ ["--trusted-host"; "-i"; "--index-url"]) options ->
  _process_options options st
  = let ignored :=
      filter (fun o => o <> "--require-hashes"
                       /\ (o ∉ ["--extra-index-url"; "--no-index"; "-f";
                                "--find-links"; "--only-binary"])
                       /\ PyStr.startswith o "-" = true) options in
    let rejected :=
      filter (fun o => o ∈ ["--extra-index-url"; "--no-index"; "-f";
                            "--find-links"; "--only-binary"]) options in
    (if bool_decide (ignored = []) then st
     else mkState (fs st)
            (logs st ++ [(INFO, APP_NAME +:+ " will ignore the following options: "
                                +:+ PyStr.join ", " ignored)]),
     if bool_decide (rejected = [])
     then inr (mkOptions (bool_decide ("--require-hashes" ∈ options)) [] None)
     else inl (UnsupportedFeature
                 (APP_NAME +:+ " does not support the following options: "
                  +:+ PyStr.join ", " rejected) None None)).
Proof.
  intros Hflags. unfold _process_options.
  rewrite <- (app_nil_r options) at 1.
  rewrite (process_options_loop_flags _ Hflags). cbn [_process_options_loop app].
  cbn [require_hashes trusted_hosts index_url orb].
  unfold bind, lift, ret, raise, log.
  destruct (bool_decide (filter _ options = [])); cbn beta iota;
    by destruct (bool_decide (filter _ options = [])).
Qed.

(** X15.  An option that needs an argument and ends the list has none
    to read: [_process_options] raises [IndexError], without a log entry
    and whatever unsupported options came before. *)
Theorem process_options_dangling_argument (pre : list string) (o : string) (st : State) :
  Forall (fun o => o ∉ ["--trusted-host"; "-i"; "--index-url"]) pre ->
  o ∈ ["--trusted-host"; "-i"; "--index-url"] ->
  _process_options (pre ++ [o]) st = (st, inl IndexError).
Proof.
  intros Hflags Ho. unfold _process_options.
  rewrite (process_options_loop_flags _ Hflags).
  assert (Hloop : forall opts ignored rejected,
             _process_options_loop [o] opts ignored rejected = inl IndexError).
  { intros opts ignored rejected.
    repeat (apply elem_of_cons in Ho as [->|Ho]; [reflexivity|]).
    by apply elem_of_nil in Ho. }
  by rewrite Hloop.
Qed.


(** [_process_options] only writes to the log. *)
Lemma process_options_fs (options : list string) (st : State) :
  fs (_process_options options st).1 = fs st.
Proof.
  unfold _process_options, bind, lift, ret, raise, log.
  destruct (_process_options_loop options _ [] []) as [e|[[opts ignored] rejected]]; [done|].
  destruct (bool_decide (ignored = [])); cbn beta iota;
    by destruct (bool_decide (rejected = [])).
Qed.

(** When hashes are required, a requirement that is not a URL one and
    has no hash stops [_validate_provided_hashes]. *)
Lemma validate_provided_hashes_missing (requirements : list PipRequirement)
    (bare : PipRequirement) :
  bare ∈ requirements ->
  req_kind bare <> "url" ->
  req_hashes bare = [] ->
  exists e, _validate_provided_hashes requirements true = inl e.
Proof.
  intros Hin Hkind Hhashes. induction requirements as [|req rest IH];
    [by apply elem_of_nil in Hin|].
  cbn [_validate_provided_hashes].
  destruct (if bool_decide (req_kind req = "url") then _ else _) as [e|hashes] eqn:Hh;
    [eauto|].
  cbn [ebind andb].
  destruct (bool_decide (hashes = [])) eqn:Hempty; [eauto|].
  destruct (_validate_hash_specs hashes) as [e|[]]; [eauto|]. cbn [ebind].
  apply elem_of_cons in Hin as [->|Hin]; [|by apply IH].
  rewrite (bool_decide_eq_false_2 _ Hkind) in Hh. inversion Hh; subst hashes.
  rewrite Hhashes in Hempty. done.
Qed.

(** X16.  Hashes are all or nothing: when one requirement of the file
    has a [--hash], a PyPI or VCS requirement of the file without any
    makes [_download_dependencies] fail, before anything is downloaded:
    the files are as they were. *)
Theorem hashes_required_of_all (output_dir : RootedPath)
    (requirements_file : PipRequirementsFile) (allow_binary : bool)
    (hashed bare : PipRequirement) (st : State) :
  hashed ∈ file_requirements requirements_file ->
  req_hashes hashed <> [] ->
  bare ∈ file_requirements requirements_file ->
  req_kind bare <> "url" ->
  req_hashes bare = [] ->
  exists st' e,
    _download_dependencies output_dir requirements_file allow_binary st = (st', inl e) /\
    fs st' = fs st.
Proof.
  intros Hhashed Hhashes Hbare Hkind Hnone.
  destruct (validate_provided_hashes_missing _ _ Hbare Hkind Hnone) as [e' He'].
  assert (Hany : existsb (fun req => negb (bool_decide (req_hashes req = [])))
                   (file_requirements requirements_file) = true).
  { apply existsb_exists. exists hashed. split; [by apply list_elem_of_In|].
    by rewrite bool_decide_eq_false_2. }
  unfold _download_dependencies. unfold bind at 1.
  pose proof (process_options_fs (file_options requirements_file) st) as Hfs.
  destruct (_process_options (file_options requirements_file) st) as [st1 [e|options]];
    simpl in Hfs; [eauto|].
  rewrite Hany.
  destruct (require_hashes options); unfold bind, log, ret, lift; cbn beta iota;
    (destruct (_validate_requirements _ allow_binary) as [e|[]];
     [eexists _, _; split; [reflexivity | exact Hfs]|]);
    rewrite He'; eexists _, _; (split; [reflexivity | exact Hfs]).
Qed.


(** ** The metadata of an sdist *)

Lemma split_on_last_part (c : ascii) (d x : string) :
  PyStr.contains c x = false ->
  exists l, l <> [] /\ PyStr.split_on c (d +:+ String c x) = (l ++ [x])%list.
Proof.
  intros Hx. induction d as [|a d IH]; cbn [String.append PyStr.split_on].
  - destruct (decide (c = c)); [|done]. exists [""]. split; [done|].
    by rewrite (split_on_absent _ _ Hx).
  - destruct IH as (l & Hl & ->). destruct l as [|w l]; [done|].
    destruct (decide (a = c)).
    + by exists ("" :: w :: l).
    + by exists (String a w :: l).
Qed.

Lemma split_on_nonempty (c : ascii) (s : string) : PyStr.split_on c s <> [].
Proof.
  destruct s as [|a s]; simpl; [done|].
  destruct (decide (a = c)); [done|]. by destruct (PyStr.split_on c s).
Qed.

Lemma last_cons_nonempty {A} (x : A) (l : list A) : l <> [] -> last (x :: l) = last l.
Proof. by destruct l. Qed.

(** The text after the last separator. *)
Lemma last_split_on (c : ascii) (p x : string) :
  last (PyStr.split_on c p) = Some x <->
  PyStr.contains c x = false /\ (p = x \/ exists d, p = d +:+ String c x).
Proof.
  split.
  - revert x. induction p as [|a p IH]; intros x; simpl.
    + intros [= <-]. by split; [|left].
    + destruct (decide (a = c)) as [->|Hne].
      * rewrite last_cons_nonempty by apply split_on_nonempty.
        intros Hlast. destruct (IH _ Hlast) as [Hx [->|[d ->]]].
        -- split; [done|]. right. by exists "".
        -- split; [done|]. right. by exists (String c d).
      * destruct (PyStr.split_on c p) as [|w ws] eqn:Hsplit;
          [by destruct (split_on_nonempty c p)|].
        destruct ws as [|w' ws].
        -- intros [= <-]. destruct (IH w eq_refl) as [Hw [->|[d ->]]].
           ++ split; [|by left]. simpl. by destruct (decide (a = c)).
           ++ destruct (split_on_last_part c d w Hw) as (l & Hl & Heq).
              rewrite Heq in Hsplit. destruct l as [|? [|? ?]]; by inversion Hsplit.
        -- rewrite last_cons_nonempty by done. intros Hlast.
           rewrite <- (last_cons_nonempty w) in Hlast by done.
           destruct (IH _ Hlast) as [Hx [->|[d ->]]].
           ++ by rewrite (split_on_absent _ _ Hx) in Hsplit.
           ++ split; [done|]. right. by exists (String a d).
  - intros [Hx [->|[d ->]]].
    + by rewrite (split_on_absent _ _ Hx).
    + destruct (split_on_last_part c d x Hx) as (l & _ & ->). apply last_snoc.
Qed.

Lemma is_pkg_info_dir_spec (p : string) :
  _is_pkg_info_dir p = true <-> p = "PKG-INFO" \/ exists d, p = d +:+ "/PKG-INFO".
Proof.
  unfold _is_pkg_info_dir. rewrite bool_decide_eq_true, last_split_on.
  change (PyStr.contains "/" "PKG-INFO") with false.
  change (String "/" "PKG-INFO") with "/PKG-INFO".
  split; [by intros [_ Hp] | by intros Hp].
Qed.

(** X17.  [_is_pkg_info_dir] holds of [PKG-INFO] itself and of every
    path that ends with [/PKG-INFO], at any depth, and of nothing
    else. *)
Theorem is_pkg_info_dir_any_depth (p : string) :
  _is_pkg_info_dir p = true <-> p = "PKG-INFO" \/ exists d, p = d +:+ "/PKG-INFO".
Proof. apply is_pkg_info_dir_spec. Qed.

(** X18.  [_check_metadata_in_sdist] never changes the files.  It
    accepts an archive in two cases only: the name ends with [.tar.Z]
    (and not with [.zip]), and then the archive is not even read, a
    warning is logged; or the archive is there, its members can be
    listed, with the Zip reader if the name ends with [.zip] and with
    the Tar reader otherwise, and one of them is [PKG-INFO] or ends with
    [/PKG-INFO]. *)
Theorem check_metadata_accepts (sdist_path : Path) (st st' : State) :
  _check_metadata_in_sdist sdist_path st = (st', inr tt) ->
  fs st' = fs st /\
  ((PyStr.endswith (PathLib.name sdist_path) ".zip" = false /\
    PyStr.endswith (PathLib.name sdist_path) ".tar.Z" = true /\
    logs st' = (logs st ++ [(WARNING, "Skip checking metadata from compressed sdist "
                                      +:+ PathLib.name sdist_path)])%list) \/
   (st' = st /\
    exists content names member,
      fs st !! sdist_path = Some content /\
      (if PyStr.endswith (PathLib.name sdist_path) ".zip"
       then zip_namelist content else tar_names content) = inr names /\
      member ∈ names /\
      (member = "PKG-INFO" \/ exists d, member = d +:+ "/PKG-INFO"))).
Proof.
  unfold _check_metadata_in_sdist.
  assert (Hmembers : forall reader format,
             check_members reader format sdist_path st = (st', inr tt) ->
             st' = st /\
             exists content names member,
               fs st !! sdist_path = Some content /\ reader content = inr names /\
               member ∈ names /\
               (member = "PKG-INFO" \/ exists d, member = d +:+ "/PKG-INFO")).
  { intros reader format. unfold check_members.
    destruct (fs st !! sdist_path) as [content|]; [|discriminate].
    destruct (reader content) as [e|names] eqn:Hread; [discriminate|].
    destruct (existsb _is_pkg_info_dir names) eqn:Hex; [|discriminate].
    intros [= <-]. split; [done|].
    apply existsb_exists in Hex as (member & Hin & Hm).
    exists content, names, member. split; [done|]. split; [done|].
    split; [by apply list_elem_of_In | by apply is_pkg_info_dir_spec]. }
  destruct (PyStr.endswith (PathLib.name sdist_path) ".zip") eqn:Hzip.
  - intros Hrun. destruct (Hmembers _ _ Hrun) as [-> Hex]. split; [done|]. by right.
  - destruct (PyStr.endswith (PathLib.name sdist_path) ".tar.Z") eqn:HZ.
    + unfold log. intros [= <-]. split; [done|]. by left.
    + destruct (existsb _ SDIST_FILE_EXTENSIONS); [|discriminate].
      intros Hrun. destruct (Hmembers _ _ Hrun) as [-> Hex]. split; [done|]. by right.
Qed.


(** ** The artifacts of a PyPI requirement *)

(** [_process_package_distributions] only writes to the log. *)
Lemma process_package_distributions_fs (requirement : PipRequirement) (dir : RootedPath)
    (allow_binary : bool) (index : string) (st : State) :
  fs (_process_package_distributions requirement dir allow_binary index st).1 = fs st.
Proof.
  unfold _process_package_distributions.
  destruct (req_version_specs requirement) as [|[op version] rest]; [done|].
  destruct (get_project_page index (req_package requirement)) as [e|packages]; [done|].
  unfold bind at 1.
  pose proof (collect_distributions_fs (req_package requirement) version dir index
                (list_to_set (map _to_checksum_info (req_hashes requirement)))
                (if allow_binary then ["sdist"; "wheel"] else ["sdist"])
                (canonicalize_version version) packages [] [] st) as Hfs.
  destruct (collect_distributions _ _ _ _ _ _ _ _ _ _ st) as [st1 [e|[sdists wheels]]];
    simpl in Hfs; [done|].
  destruct sdists as [|first others]; unfold_monad.
  - by destruct (bool_decide (wheels = [])), allow_binary.
  - by destruct (dpi_is_yanked (max_by _sdist_preference first others)).
Qed.

(** What every distribution kept by the loop carries. *)
Lemma collect_distributions_fields (name version : string) (dir : RootedPath)
    (index : string) (req_file : gset ChecksumInfo) (allow_binary : bool) (nv : string)
    (packages : list DistributionPackage) (st st' : State)
    (sdists wheels : list DistributionPackageInfo) :
  collect_distributions name version dir index req_file
    (if allow_binary then ["sdist"; "wheel"] else ["sdist"]) nv packages [] [] st
  = (st', inr (sdists, wheels)) ->
  Forall (fun d => dpi_package_type d = "sdist" /\
                   dpi_name d = name /\ dpi_version d = version /\ dpi_index_url d = index /\
                   should_download d = true /\
                   exists rel, PathLib.relative_to (dpi_path d) (rp_root dir) = inr rel)
         sdists /\
  Forall (fun d => (allow_binary = true /\ dpi_package_type d = "wheel") /\
                   dpi_name d = name /\ dpi_version d = version /\ dpi_index_url d = index /\
                   should_download d = true /\
                   exists rel, PathLib.relative_to (dpi_path d) (rp_root dir) = inr rel)
         wheels.
Proof.
  intros Hrun.
  eapply collect_distributions_Forall; [| | |exact Hrun]; [|by apply Forall_nil..].
  intros package d Hvalid Hd Hdl.
  assert (Hfields : dpi_name d = name /\ dpi_version d = version /\ dpi_index_url d = index /\
                    dpi_package_type d = default "" (pkg_package_type package) /\
                    exists rel, PathLib.relative_to (dpi_path d) (rp_root dir) = inr rel).
  { unfold dpi_of_package in Hd.
    destruct (join_within_root dir [PathLib.parse (pkg_filename package)]) as [e|p] eqn:Hp;
      [discriminate|].
    simpl in Hd. inversion Hd; subst d. simpl. do 4 (split; [done|]).
    unfold join_within_root in Hp.
    destruct (PathLib.relative_to _ (rp_root dir)) as [e|rel] eqn:Hrel; [discriminate|].
    inversion Hp; subst p. simpl. eauto. }
  destruct Hfields as (Hn & Hv & Hi & Ht & Hrel).
  assert (Htype : dpi_package_type d = "sdist"
                  \/ (allow_binary = true /\ dpi_package_type d = "wheel")).
  { unfold _is_valid in Hvalid.
    destruct (pkg_version package); [|discriminate].
    destruct (pkg_package_type package) as [t|]; [|discriminate].
    apply andb_true_iff in Hvalid as [_ Hin]. apply bool_decide_eq_true in Hin.
    simpl in Ht. rewrite Ht.
    destruct allow_binary.
    - apply elem_of_cons in Hin as [->|Hin]; [by left|].
      apply list_elem_of_singleton in Hin as ->. by right.
    - apply list_elem_of_singleton in Hin as ->. by left. }
  case_bool_decide as Hsdist; [done|].
  destruct Htype as [?|?]; done.
Qed.

(** X19.  What [_process_package_distributions] returns when it
    succeeds: at least one artifact; every artifact has the name of the
    requirement, its pinned version, the index queried, its path inside
    the root of the output directory, and has passed the checksum
    filter; every artifact is an sdist or, if binaries are allowed, a
    wheel; at most one is an sdist.  The files are not touched. *)
Theorem process_package_distributions_artifacts (requirement : PipRequirement)
    (dir : RootedPath) (allow_binary : bool) (index : string) (st st' : State)
    (artifacts : list DistributionPackageInfo) :
  _process_package_distributions requirement dir allow_binary index st
  = (st', inr artifacts) ->
  fs st' = fs st /\
  artifacts <> [] /\
  Forall (fun d => dpi_name d = req_package requirement /\
                   (exists op rest,
                       req_version_specs requirement = (op, dpi_version d) :: rest) /\
                   dpi_index_url d = index /\
                   (dpi_package_type d = "sdist"
                    \/ (allow_binary = true /\ dpi_package_type d = "wheel")) /\
                   should_download d = true /\
                   exists rel, PathLib.relative_to (dpi_path d) (rp_root dir) = inr rel)
         artifacts /\
  length (filter (fun d => dpi_package_type d = "sdist") artifacts) <= 1.
Proof.
  intros Hrun.
  pose proof (process_package_distributions_fs requirement dir allow_binary index st) as Hfs.
  rewrite Hrun in Hfs. simpl in Hfs. split; [done|].
  destruct (process_package_distributions_inr _ _ _ _ _ _ _ Hrun)
    as (op & version & rest & packages & st1 & sdists & wheels & Hspec & Hpage & Hc & Hres).
  destruct (collect_distributions_fields _ _ _ _ _ _ _ _ _ _ _ _ Hc) as [Hs Hw].
  assert (Hwheels : Forall (fun d => dpi_name d = req_package requirement /\
                      (exists op rest,
                          req_version_specs requirement = (op, dpi_version d) :: rest) /\
                      dpi_index_url d = index /\
                      (dpi_package_type d = "sdist"
                       \/ (allow_binary = true /\ dpi_package_type d = "wheel")) /\
                      should_download d = true /\
                      exists rel, PathLib.relative_to (dpi_path d) (rp_root dir) = inr rel)
                     wheels).
  { eapply Forall_impl; [exact Hw|]. intros d (Ht & Hn & Hv & Hi & Hdl & Hrel).
    split; [done|]. split; [exists op, rest; by rewrite Hv|]. split; [done|].
    split; [by right|]. done. }
  assert (Hnone : filter (fun d => dpi_package_type d = "sdist") wheels = []).
  { clear -Hw. induction Hw as [|d wheels Hd Hw IH]; [done|].
    rewrite filter_cons_False; [done|]. destruct Hd as [[_ Ht] _]. by rewrite Ht. }
  destruct sdists as [|first others].
  - destruct Hres as [-> Hne]. split; [done|]. split; [done|]. rewrite Hnone. simpl. lia.
  - subst artifacts. split; [done|]. split.
    + apply Forall_cons. split; [|done].
      rewrite Forall_forall in Hs.
      destruct (Hs _ (max_by_in _sdist_preference first others))
        as (Ht & Hn & Hv & Hi & Hdl & Hrel).
      split; [done|]. split; [exists op, rest; by rewrite Hv|]. split; [done|].
      split; [by left|]. done.
    + destruct (decide (dpi_package_type (max_by _sdist_preference first others) = "sdist")).
      * rewrite filter_cons_True by done. rewrite Hnone. simpl. lia.
      * rewrite filter_cons_False by done. rewrite Hnone. simpl. lia.
Qed.

Lemma sdist_preference_same_name (b x : DistributionPackageInfo) :
  dpi_name x = dpi_name b ->
  tuple_lt (_sdist_preference b) (_sdist_preference x)
  = dpi_is_yanked b && negb (dpi_is_yanked x).
Proof.
  intros Hname. unfold _sdist_preference, tuple_lt. rewrite Hname. cbn [fst snd].
  rewrite Nat.ltb_irrefl, andb_false_r, orb_false_r.
  by destruct (dpi_is_yanked b), (dpi_is_yanked x).
Qed.

(** Among sdists of one name the preference key only tells the yanked
    from the others, so the maximum is the first sdist that is not
    yanked, and the first sdist if all are yanked. *)
Lemma max_by_same_name (others : list DistributionPackageInfo) :
  forall first,
    Forall (fun d => dpi_name d = dpi_name first) others ->
    max_by _sdist_preference first others
    = default first (head (filter (fun d => dpi_is_yanked d = false) (first :: others))).
Proof.
  induction others as [|x others IH]; intros first Hall.
  - simpl. destruct (decide (dpi_is_yanked first = false)).
    + by rewrite filter_cons_True.
    + by rewrite filter_cons_False.
  - apply Forall_cons in Hall as [Hx Hall]. cbn [max_by].
    rewrite (sdist_preference_same_name _ _ Hx).
    destruct (dpi_is_yanked first) eqn:Hf; cbn [andb].
    + rewrite (filter_cons_False _ first) by (rewrite Hf; done).
      destruct (dpi_is_yanked x) eqn:Hyx; cbn [negb].
      * rewrite (IH first Hall).
        rewrite (filter_cons_False _ first) by (rewrite Hf; done).
        by rewrite (filter_cons_False _ x) by (rewrite Hyx; done).
      * rewrite (IH x).
        -- rewrite (filter_cons_True _ x) by done. done.
        -- eapply Forall_impl; [exact Hall|]. intros d Hd. simpl in Hd. congruence.
    + rewrite (IH first Hall). by rewrite !(filter_cons_True _ first).
Qed.

(** X20.  Which sdist is returned.  The preference key reads the file
    type off the package name, which all the sdists kept for one
    requirement share; so, when the loop has kept at least one sdist,
    the sdist returned is the first kept sdist that is not yanked, in the
    order of the project page, and the first kept sdist if all are
    yanked, whatever the file extensions. *)
Theorem sdist_first_not_yanked (requirement : PipRequirement) (dir : RootedPath)
    (allow_binary : bool) (index : string) (st st1 : State)
    (op version : string) (rest : list (string * string))
    (packages : list DistributionPackage)
    (first : DistributionPackageInfo) (others wheels : list DistributionPackageInfo) :
  req_version_specs requirement = (op, version) :: rest ->
  get_project_page index (req_package requirement) = inr packages ->
  collect_distributions (req_package requirement) version dir index
    (list_to_set (map _to_checksum_info (req_hashes requirement)))
    (if allow_binary then ["sdist"; "wheel"] else ["sdist"])
    (canonicalize_version version) packages [] [] st = (st1, inr (first :: others, wheels)) ->
  exists st2,
    _process_package_distributions requirement dir allow_binary index st
    = (st2, inr (default first
                   (head (filter (fun d => dpi_is_yanked d = false) (first :: others)))
                 :: wheels)).
Proof.
  intros Hspec Hpage Hc.
  destruct (collect_distributions_fields _ _ _ _ _ _ _ _ _ _ _ _ Hc) as [Hs _].
  assert (Hnames : Forall (fun d => dpi_name d = dpi_name first) others).
  { apply Forall_cons in Hs as [(_ & Hf & _) Hs].
    eapply Forall_impl; [exact Hs|]. intros d (_ & Hd & _). simpl. congruence. }
  rewrite <- (max_by_same_name _ _ Hnames).
  unfold _process_package_distributions. rewrite Hspec, Hpage.
  unfold bind at 1. rewrite Hc. unfold_monad.
  destruct (dpi_is_yanked (max_by _sdist_preference first others)); eauto.
Qed.


(** ** The download information of a requirement *)

(** What [_process_req] returns: the download information with four
    keys set, updated from the artifact if there is one, and, for a URL
    requirement, marked as having a checksum; its path is inside the
    root of the output directory. *)
Lemma process_req_result (req : PipRequirement) (requirements_file : PipRequirementsFile)
    (dir : RootedPath) (info : gmap string pyval) (dpi : option DistributionPackageInfo)
    (st st' : State) (d : gmap string pyval) :
  _process_req req requirements_file dir info dpi st = (st', inr d) ->
  d = (let base :=
         <["package_type" := PStr ""]>
         (<["missing_req_file_checksum" := PBool true]>
          (<["requirement_file" :=
               PStr (PathLib.to_string (file_subpath_from_root requirements_file))]>
           (<["kind" := PStr (req_kind req)]> info))) in
       match dpi with
       | Some a =>
           <["index_url" := PStr (dpi_index_url a)]>
           (<["package_type" := PStr (dpi_package_type a)]>
            (if nonempty (req_file_checksums a)
             then <["missing_req_file_checksum" := PBool false]> base else base))
       | None =>
           if bool_decide (req_kind req = "vcs") then base
           else if bool_decide (req_kind req = "url")
                then <["missing_req_file_checksum" := PBool false]> base
                else base
       end) /\
  exists p rel,
    d !! "path" = Some (PPath p) /\ PathLib.relative_to p (rp_root dir) = inr rel.
Proof.
  unfold _process_req. cbv zeta. intros H.
  apply bind_inr in H as (d1 & st1 & H1 & H).
  apply bind_inr in H as (p & st2 & Hp & H). apply lift_inr in Hp as [Hp ->].
  apply bind_inr in H as (rel & st2 & Hrel & H). apply lift_inr in Hrel as [Hrel ->].
  apply ret_inr in H as [-> _].
  split.
  - destruct dpi as [dpi|].
    + apply bind_inr in H1 as (u1 & st2 & _ & H1).
      apply bind_inr in H1 as (u2 & st3 & _ & H1).
      by apply ret_inr in H1 as [-> _].
    + destruct (bool_decide (req_kind req = "vcs")).
      { by apply ret_inr in H1 as [-> _]. }
      destruct (bool_decide (req_kind req = "url")).
      2: { by apply ret_inr in H1 as [-> _]. }
      destruct (bool_decide (_ = [])) eqn:Hempty.
      { apply bool_decide_eq_true in Hempty. by destruct (req_hashes req). }
      apply bind_inr in H1 as (p' & st2 & _ & H1).
      apply bind_inr in H1 as (u & st3 & _ & H1).
      by apply ret_inr in H1 as [-> _].
  - exists p, rel. split; [|done].
    unfold path_of_info in Hp. destruct (d1 !! "path") as [[]|]; by inversion Hp.
Qed.

(** What a successful [_download_vcs_package] returns. *)
Lemma download_vcs_package_inr (req : PipRequirement) (dir : RootedPath)
    (st st' : State) (info : gmap string pyval) :
  _download_vcs_package req dir st = (st', inr info) ->
  exists git_info p rel,
    info = <["repo" := PStr (git_repo git_info)]>
           (<["namespace" := PStr (git_namespace git_info)]>
            (<["host" := PStr (git_host git_info)]>
             (<["ref" := PStr (git_ref git_info)]>
              (<["url" := PStr (git_url git_info)]>
               (<["path" := PPath p]>
                (<["package" := PStr (req_package req)]> ∅)))))) /\
    PathLib.relative_to p (rp_root dir) = inr rel.
Proof.
  unfold _download_vcs_package. intros H.
  apply bind_inr in H as (u & st1 & _ & H).
  apply bind_inr in H as (git_info & st2 & _ & H).
  apply bind_inr in H as (filepath & st3 & _ & H).
  apply bind_inr in H as (download_to & st4 & Hto & H). apply lift_inr in Hto as [Hto _].
  apply bind_inr in H as (u' & st5 & _ & H).
  apply ret_inr in H as [-> _].
  unfold join_within_root in Hto.
  destruct (PathLib.relative_to _ (rp_root dir)) as [e|rel] eqn:Hrel; [discriminate|].
  inversion Hto; subst download_to. simpl. eauto.
Qed.

(** What a successful [_download_url_package] returns. *)
Lemma download_url_package_inr (req : PipRequirement) (dir : RootedPath)
    (trusted : list string) (st st' : State) (info : gmap string pyval) :
  _download_url_package req dir trusted st = (st', inr info) ->
  exists u url_with_hash p rel,
    url req = inr u /\
    info = <["url_with_hash" := PStr url_with_hash]>
           (<["original_url" := PStr u]>
            (<["path" := PPath p]>
             (<["package" := PStr (req_package req)]> ∅))) /\
    PathLib.relative_to p (rp_root dir) = inr rel.
Proof.
  unfold _download_url_package. intros H.
  apply bind_inr in H as (u & st1 & Hu & H). apply lift_inr in Hu as [Hu _].
  apply bind_inr in H as (filepath & st3 & _ & H).
  apply bind_inr in H as (download_to & st4 & Hto & H). apply lift_inr in Hto as [Hto _].
  apply bind_inr in H as (u' & st5 & _ & H).
  apply bind_inr in H as (url_with_hash & st6 & _ & H).
  apply ret_inr in H as [-> _].
  unfold join_within_root in Hto.
  destruct (PathLib.relative_to _ (rp_root dir)) as [e|rel] eqn:Hrel; [discriminate|].
  inversion Hto; subst download_to. simpl. exists u, url_with_hash. eauto.
Qed.

(** X21.  Processing a VCS requirement is downloading it and setting
    four keys: [_process_vcs_req] fails only if [_download_vcs_package]
    does, with the same error, and otherwise returns the download
    information with the kind, the requirements file, the flag
    [missing_req_file_checksum] set and an empty package type, in the
    state the download left. *)
Theorem process_vcs_req_sets_four_keys (req : PipRequirement) (dir : RootedPath)
    (requirements_file : PipRequirementsFile) (st : State) :
  req_kind req = "vcs" ->
  _process_vcs_req req dir requirements_file st
  = match _download_vcs_package req dir st with
    | (st1, inl e) => (st1, inl e)
    | (st1, inr info) =>
        (st1, inr (<["package_type" := PStr ""]>
                   (<["missing_req_file_checksum" := PBool true]>
                    (<["requirement_file" :=
                         PStr (PathLib.to_string (file_subpath_from_root requirements_file))]>
                     (<["kind" := PStr "vcs"]> info)))))
    end.
Proof.
  intros Hkind. unfold _process_vcs_req. unfold bind at 1.
  destruct (_download_vcs_package req dir st) as [st1 [e|info]] eqn:Hd; [done|].
  destruct (download_vcs_package_inr _ _ _ _ _ Hd) as (git_info & p & rel & -> & Hrel).
  unfold _process_req. cbv zeta. rewrite Hkind.
  rewrite (bool_decide_eq_true_2 ("vcs" = "vcs")) by done.
  unfold bind, ret, lift, path_of_info. map_lookup. by rewrite Hrel.
Qed.

(** X22.  What [_process_url_req] records for a URL requirement: the
    kind [url]; the flag [missing_req_file_checksum] cleared, always;
    the URL as [original_url]; a path inside the root of the output
    directory; and the package type [wheel] exactly when the URL of the
    requirement, fragment included, ends with [.whl]. *)
Theorem process_url_req_records (req : PipRequirement) (dir : RootedPath)
    (trusted : list string) (requirements_file : PipRequirementsFile)
    (st st' : State) (d : gmap string pyval) :
  req_kind req = "url" ->
  _process_url_req req dir trusted requirements_file st = (st', inr d) ->
  exists u,
    url req = inr u /\
    d !! "kind" = Some (PStr "url") /\
    d !! "missing_req_file_checksum" = Some (PBool false) /\
    d !! "original_url" = Some (PStr u) /\
    d !! "package_type"
    = Some (PStr (if PyStr.endswith u ".whl" then "wheel" else "")) /\
    exists p rel,
      d !! "path" = Some (PPath p) /\ PathLib.relative_to p (rp_root dir) = inr rel.
Proof.
  intros Hkind H. unfold _process_url_req in H.
  apply bind_inr in H as (info & st1 & Hinfo & H).
  apply bind_inr in H as (result & st2 & Hres & H).
  apply bind_inr in H as (u' & st3 & Hu' & H). apply lift_inr in Hu' as [Hu' _].
  destruct (download_url_package_inr _ _ _ _ _ _ Hinfo)
    as (u & url_with_hash & p & rel & Hu & -> & Hrel).
  rewrite Hu in Hu'. inversion Hu'; subst u'. clear Hu'.
  apply process_req_result in Hres as [-> _]. cbv zeta in H.
  rewrite Hkind in H.
  rewrite (bool_decide_eq_false_2 ("url" = "vcs")) in H by done.
  rewrite (bool_decide_eq_true_2 ("url" = "url")) in H by done.
  exists u. split; [done|].
  change WHEEL_FILE_EXTENSION with ".whl" in H.
  destruct (PyStr.endswith u ".whl"); apply ret_inr in H as [-> _];
    map_lookup; repeat (split; [done|]); exists p, rel; by map_lookup.
Qed.


Lemma mapM_Forall2 {A B} (f : A -> M B) (l : list A) :
  forall st st' ys,
    mapM f l st = (st', inr ys) ->
    Forall2 (fun x y => exists sta stb, f x sta = (stb, inr y)) l ys.
Proof.
  induction l as [|x l IH]; intros st st' ys H; simpl in H.
  - apply ret_inr in H as [-> _]. constructor.
  - apply bind_inr in H as (y & st1 & Hy & H).
    apply bind_inr in H as (ys' & st2 & Hys & H).
    apply ret_inr in H as [-> _]. constructor; [eauto | by eapply IH].
Qed.

Lemma nonempty_req_file_checksums (hashes : list string) :
  nonempty (list_to_set (map _to_checksum_info hashes)) = negb (bool_decide (hashes = [])).
Proof.
  destruct hashes as [|h hashes]; simpl.
  - by apply nonempty_false.
  - apply nonempty_true. intros Hempty.
    assert (Hin : _to_checksum_info h ∈ ({[_to_checksum_info h]}
                    ∪ list_to_set (map _to_checksum_info hashes) : gset ChecksumInfo)).
    { apply elem_of_union. left. by apply elem_of_singleton. }
    rewrite Hempty in Hin. by apply elem_of_empty in Hin.
Qed.

(** The artifacts of a requirement, field by field. *)
Lemma process_package_distributions_fields (requirement : PipRequirement)
    (dir : RootedPath) (allow_binary : bool) (index : string) (st st' : State)
    (artifacts : list DistributionPackageInfo) :
  _process_package_distributions requirement dir allow_binary index st
  = (st', inr artifacts) ->
  artifacts <> [] /\
  exists op version rest,
    req_version_specs requirement = (op, version) :: rest /\
    Forall (fun a => dpi_name a = req_package requirement /\
                     dpi_version a = version /\
                     dpi_index_url a = index /\
                     (dpi_package_type a = "sdist"
                      \/ (allow_binary = true /\ dpi_package_type a = "wheel")) /\
                     req_file_checksums a
                     = list_to_set (map _to_checksum_info (req_hashes requirement)))
           artifacts.
Proof.
  intros Hrun.
  destruct (process_package_distributions_inr _ _ _ _ _ _ _ Hrun)
    as (op & version & rest & packages & st1 & sdists & wheels & Hspec & Hpage & Hc & Hres).
  destruct (collect_distributions_fields _ _ _ _ _ _ _ _ _ _ _ _ Hc) as [Hs Hw].
  assert (Hreq : Forall (fun a => req_file_checksums a
                   = list_to_set (map _to_checksum_info (req_hashes requirement))) sdists /\
                 Forall (fun a => req_file_checksums a
                   = list_to_set (map _to_checksum_info (req_hashes requirement))) wheels).
  { eapply collect_distributions_Forall; [| | |exact Hc]; [|by apply Forall_nil..].
    intros package a _ Ha _. apply dpi_of_package_inr in Ha as (_ & _ & Hr & _).
    by destruct (bool_decide (dpi_package_type a = "sdist")). }
  destruct Hreq as [Hrs Hrw].
  assert (Hall : Forall (fun a => dpi_name a = req_package requirement /\
                     dpi_version a = version /\
                     dpi_index_url a = index /\
                     (dpi_package_type a = "sdist"
                      \/ (allow_binary = true /\ dpi_package_type a = "wheel")) /\
                     req_file_checksums a
                     = list_to_set (map _to_checksum_info (req_hashes requirement)))
                  (sdists ++ wheels)).
  { apply Forall_app. split.
    - rewrite Forall_forall in *. intros a Ha.
      destruct (Hs a Ha) as (Ht & Hn & Hv & Hi & _).
      do 3 (split; [done|]). split; [by left | by apply Hrs].
    - rewrite Forall_forall in *. intros a Ha.
      destruct (Hw a Ha) as (Ht & Hn & Hv & Hi & _).
      do 3 (split; [done|]). split; [by right | by apply Hrw]. }
  split.
  - destruct sdists; [by destruct Hres as [-> ?] | by subst].
  - exists op, version, rest. split; [done|].
    rewrite Forall_forall in *. intros a Ha. apply Hall.
    destruct sdists as [|first others].
    + destruct Hres as [-> _]. done.
    + subst artifacts. apply elem_of_cons in Ha as [->|Ha].
      * apply elem_of_app. left. apply max_by_in.
      * apply elem_of_app. by right.
Qed.

(** X23.  What [_process_pypi_req] records, for each artifact of the
    requirement and for at least one: the kind, the name and the pinned
    version of the requirement, the index queried, the package type
    ([sdist], or [wheel] if binaries are allowed), and the flag
    [missing_req_file_checksum], which is set exactly when the
    requirement has no [--hash]. *)
Theorem process_pypi_req_records (req : PipRequirement)
    (requirements_file : PipRequirementsFile) (index : string) (dir : RootedPath)
    (allow_binary : bool) (st st' : State) (infos : list (gmap string pyval)) :
  _process_pypi_req req requirements_file index dir allow_binary st = (st', inr infos) ->
  infos <> [] /\
  exists op version rest,
    req_version_specs req = (op, version) :: rest /\
    Forall (fun d => d !! "kind" = Some (PStr (req_kind req)) /\
                     d !! "package" = Some (PStr (req_package req)) /\
                     d !! "version" = Some (PStr version) /\
                     d !! "index_url" = Some (PStr index) /\
                     d !! "missing_req_file_checksum"
                     = Some (PBool (bool_decide (req_hashes req = []))) /\
                     (d !! "package_type" = Some (PStr "sdist")
                      \/ (allow_binary = true /\ d !! "package_type" = Some (PStr "wheel"))))
           infos.
Proof.
  unfold _process_pypi_req. intros H.
  apply bind_inr in H as (artifacts & st1 & Ha & H).
  apply bind_inr in H as (st0 & st2 & _ & H).
  apply bind_inr in H as (u & st3 & _ & H).
  apply mapM_Forall2 in H.
  destruct (process_package_distributions_fields _ _ _ _ _ _ _ Ha)
    as (Hne & op & version & rest & Hspec & Hall).
  split.
  - intros ->. apply Forall2_nil_inv_r in H. done.
  - exists op, version, rest. split; [done|].
    clear Hne Ha. induction H as [|a d artifacts infos (sta & stb & Hd) H IH];
      [by apply Forall_nil|].
    apply Forall_cons in Hall as [(Hn & Hv & Hi & Ht & Hr) Hall].
    apply Forall_cons. split; [|by apply IH].
    apply process_req_result in Hd as [-> _]. cbv zeta.
    rewrite Hr, nonempty_req_file_checksums.
    unfold download_info_of. rewrite Hn, Hv, Hi.
    destruct (bool_decide (req_hashes req = [])); cbn [negb]; map_lookup;
      (do 5 (split; [done|]));
      (destruct Ht as [-> | [-> ->]]; [by left | by right]).
Qed.

End Engine.

(** ** Workspaces *)

Section WorkspaceProperties.

Variable json_loads : string -> option (list (string * json)).
Variable glob_dirs : Path -> string -> list Path.

Lemma join_within_root_error (base : RootedPath) (other : list Path) (e : error) :
  join_within_root base other = inl e -> exists reason, e = PathOutsideRoot reason.
Proof.
  unfold join_within_root. destruct (PathLib.relative_to _ _); intros H; inversion H.
  eauto.
Qed.

Lemma join_within_root_inside (base rp : RootedPath) (other : list Path) :
  join_within_root base other = inr rp ->
  rp_root rp = rp_root base /\
  exists rel, PathLib.relative_to (rp_path rp) (rp_root base) = inr rel.
Proof.
  unfold join_within_root.
  destruct (PathLib.relative_to _ _) as [e|rel] eqn:Hrel; intros H; inversion H; subst.
  simpl. eauto.
Qed.

Lemma ensure_no_path_leads_out_inr (paths : list Path) (source_dir : RootedPath) :
  ensure_no_path_leads_out paths source_dir = inr tt ->
  forall wp, wp ∈ paths -> exists rp, join_within_root source_dir [wp] = inr rp.
Proof.
  induction paths as [|p paths IH]; intros H wp Hin; [by apply elem_of_nil in Hin|].
  simpl in H. destruct (join_within_root source_dir [p]) as [e|rp] eqn:Hp;
    [discriminate|]. simpl in H.
  apply elem_of_cons in Hin as [->|Hin]; [eauto | by apply IH].
Qed.

Lemma ensure_no_path_leads_out_outside (paths : list Path) (source_dir : RootedPath)
    (wp : Path) (e : error) :
  wp ∈ paths ->
  join_within_root source_dir [wp] = inl e ->
  exists reason, ensure_no_path_leads_out paths source_dir = inl (PathOutsideRoot reason).
Proof.
  intros Hin Hout. induction paths as [|p paths IH]; [by apply elem_of_nil in Hin|].
  simpl. destruct (join_within_root source_dir [p]) as [e'|rp] eqn:Hp; simpl.
  - apply join_within_root_error in Hp as [reason ->]. eauto.
  - apply elem_of_cons in Hin as [->|Hin]; [congruence | by apply IH].
Qed.

(** The loop over the workspace paths: the files are left alone, the log
    only grows, every workspace returned comes from a listed path whose
    manifest exists, and every listed path without manifest is left out
    with a warning. *)
Lemma parse_workspaces_spec (package_path : RootedPath) (paths : list Path) :
  forall st st' ws,
    parse_workspaces json_loads package_path paths st = (st', inr ws) ->
    fs st' = fs st /\
    logs st `prefix_of` logs st' /\
    Forall (fun w =>
              ws_path w ∈ paths /\
              exists manifest,
                join_within_root package_path [ws_path w; ["package.json"]] = inr manifest
                /\ is_Some (fs st !! rp_path manifest)
                /\ pj_path (ws_package_json w) = manifest) ws /\
    (forall wp manifest,
        wp ∈ paths ->
        join_within_root package_path [wp; ["package.json"]] = inr manifest ->
        fs st !! rp_path manifest = None ->
        (wp ∉ ws_path <$> ws) /\
        (WARNING, "The Yarn workspace located at " +:+ PathLib.to_string wp
                  +:+ " does not contain a package.json and will be ignored.")
        ∈ logs st').
Proof.
  induction paths as [|wp paths IH]; intros st st' ws Hrun; simpl in Hrun.
  - apply ret_inr in Hrun as [-> ->].
    split; [done|]. split; [done|]. split; [by apply Forall_nil|].
    by intros ? ? ?%elem_of_nil.
  - apply bind_inr in Hrun as (manifest & st1 & Hm & Hrun).
    apply lift_inr in Hm as [Hm ->].
    apply bind_inr in Hrun as (present & st1 & Hp & Hrun).
    unfold exists_ in Hp. inversion Hp; subst. clear Hp.
    destruct (bool_decide (is_Some (fs st1 !! rp_path manifest))) eqn:Hpresent;
      simpl in Hrun.
    + apply bool_decide_eq_true in Hpresent.
      apply bind_inr in Hrun as (pj & st2 & Hpj & Hrun).
      assert (Hst2 : st2 = st1 /\ pj_path pj = manifest).
      { unfold PackageJson_from_file in Hpj.
        destruct (fs st1 !! rp_path manifest); [|discriminate].
        destruct (json_loads s); inversion Hpj; by subst. }
      destruct Hst2 as [-> Hpath].
      apply bind_inr in Hrun as (w & st2 & Hw & Hrun).
      apply lift_inr in Hw as [Hw ->].
      assert (Hwp : ws_path w = wp /\ ws_package_json w = pj).
      { unfold Workspace_new in Hw. destruct (json_get _ _); by inversion Hw. }
      destruct Hwp as [Hwp Hwpj].
      apply bind_inr in Hrun as (ws' & st2 & Hrest & Hrun).
      apply ret_inr in Hrun as [-> ->].
      destruct (IH _ _ _ Hrest) as (Hfs & Hlogs & Hall & Hskip).
      split; [done|]. split; [done|]. split.
      * constructor.
        -- split; [rewrite Hwp; apply list_elem_of_here|].
           exists manifest. rewrite Hwp, Hwpj. done.
        -- eapply Forall_impl; [exact Hall|]. intros w' [Hin Hex].
           split; [by apply list_elem_of_further | done].
      * intros wp' manifest' Hin Hm' Hnone.
        apply elem_of_cons in Hin as [->|Hin].
        { rewrite Hm in Hm'. inversion Hm'; subst.
          rewrite Hnone in Hpresent. by destruct Hpresent. }
        destruct (Hskip wp' manifest' Hin Hm' Hnone) as [Hnot Hwarn].
        split; [|done]. simpl. rewrite Hwp. intros Hc.
        apply elem_of_cons in Hc as [->|Hc]; [|done].
        rewrite Hm in Hm'. inversion Hm'; subst.
        rewrite Hnone in Hpresent. by destruct Hpresent.
    + apply bool_decide_eq_false in Hpresent.
      apply bind_inr in Hrun as (u & st2 & Hlog & Hrun).
      unfold log in Hlog. inversion Hlog; subst. clear Hlog.
      destruct (IH _ _ _ Hrun) as (Hfs & Hlogs & Hall & Hskip). simpl in *.
      split; [done|]. split; [by eapply prefix_app_l|]. split.
      * eapply Forall_impl; [exact Hall|]. intros w' [Hin Hex].
        split; [by apply list_elem_of_further | done].
      * intros wp' manifest' Hin Hm' Hnone.
        apply elem_of_cons in Hin as [->|Hin]; [|by eapply Hskip].
        split.
        -- intros Hc. apply list_elem_of_fmap in Hc as (w & Hw & Hc).
           rewrite Forall_forall in Hall. destruct (Hall w Hc) as [_ (m & Hm2 & Hsome & _)].
           rewrite <- Hw in Hm2. rewrite Hm' in Hm2. inversion Hm2; subst.
           rewrite Hnone in Hsome. by destruct Hsome.
        -- eapply elem_of_prefix; [|exact Hlogs].
           apply elem_of_app. right. apply list_elem_of_here.
Qed.


End WorkspaceProperties.

(** ** Validators *)

Section ValidatorProperties.

Context {T K : Type} `{EqDecision T} `{EqDecision K}.
Variable by_ : T -> K.
Variable str_key : K -> string.
Variable str_item : T -> string.
Variable key_lt : K -> K -> bool.

Lemma dict_get_None (by_key : list (K * T)) (key : K) :
  dict_get by_key key = None <-> key ∉ by_key.*1.
Proof.
  induction by_key as [|[k v] rest IH]; simpl.
  - split; [intros _ Hin; by apply elem_of_nil in Hin | done].
  - destruct (decide (k = key)) as [->|Hne].
    + split; [done|]. intros Hn. destruct Hn. apply list_elem_of_here.
    + rewrite IH. split.
      * intros Hn Hin. apply elem_of_cons in Hin as [->|Hin]; [done | by apply Hn].
      * intros Hn Hin. apply Hn. by apply list_elem_of_further.
Qed.

Lemma dict_get_Some (by_key : list (K * T)) (key : K) (v : T) :
  dict_get by_key key = Some v -> (key, v) ∈ by_key.
Proof.
  induction by_key as [|[k w] rest IH]; simpl; [done|].
  destruct (decide (k = key)) as [->|Hne].
  - intros [= ->]. apply list_elem_of_here.
  - intros Hg. apply list_elem_of_further. by apply IH.
Qed.

Lemma by_key_inv_snoc (by_key : list (K * T)) (item : T) :
  by_key_inv by_ by_key ->
  dict_get by_key (by_ item) = None ->
  by_key_inv by_ (by_key ++ [(by_ item, item)]).
Proof.
  intros [Hnd Hall] Hnone. apply dict_get_None in Hnone. split.
  - rewrite fmap_app. apply NoDup_app. split; [done|]. split.
    + intros k Hk Hin. simpl in Hin. apply list_elem_of_singleton in Hin. by subst.
    + simpl. apply NoDup_singleton.
  - apply Forall_app. split; [done|]. by apply Forall_singleton.
Qed.

Lemma by_key_inv_item (by_key : list (K * T)) (x : T) :
  by_key_inv by_ by_key -> x ∈ by_key.*2 -> (by_ x, x) ∈ by_key.
Proof.
  intros [_ Hall] Hin. apply list_elem_of_fmap in Hin as ([k v] & -> & Hin).
  rewrite Forall_forall in Hall. specialize (Hall _ Hin). simpl in *. by subst.
Qed.

Lemma by_key_inv_same_key (by_key : list (K * T)) (k : K) (v w : T) :
  by_key_inv by_ by_key -> (k, v) ∈ by_key -> (k, w) ∈ by_key -> v = w.
Proof.
  intros [Hnd _]. induction by_key as [|[k' v'] rest IH]; intros Hv Hw.
  - by apply elem_of_nil in Hv.
  - simpl in Hnd. apply NoDup_cons in Hnd as [Hnot Hnd].
    apply elem_of_cons in Hv as [Hv|Hv]; apply elem_of_cons in Hw as [Hw|Hw].
    + congruence.
    + inversion Hv; subst. destruct Hnot. apply list_elem_of_fmap. by exists (k', w).
    + inversion Hw; subst. destruct Hnot. apply list_elem_of_fmap. by exists (k', v).
    + by apply IH.
Qed.

Lemma by_key_inv_keys (by_key : list (K * T)) :
  by_key_inv by_ by_key -> by_ <$> by_key.*2 = by_key.*1.
Proof.
  intros [_ Hall]. induction Hall as [|[k v] rest Hkv Hall IH]; simpl; [done|].
  simpl in Hkv. subst k. csimpl. by f_equal.
Qed.

(** A successful run of the loop extends [by_key] by a sub-list of the
    items, keeps the invariant, and leaves every item stored. *)
Lemma unique_loop_inr (dedupe : bool) (items : list T) :
  forall by_key result,
    by_key_inv by_ by_key ->
    unique_loop by_ str_key str_item items dedupe by_key = inr result ->
    exists new,
      result = (by_key ++ new)%list /\
      by_key_inv by_ result /\
      sublist new.*2 items /\
      (forall x, x ∈ items -> (by_ x, x) ∈ result) /\
      (dedupe = false -> new.*2 = items).
Proof.
  induction items as [|item rest IH]; intros by_key result Hinv Hrun; simpl in Hrun.
  - inversion Hrun; subst. exists []. rewrite app_nil_r.
    split; [done|]. split; [done|]. split; [by apply sublist_nil|].
    split; [by intros x Hx%elem_of_nil | done].
  - destruct (dict_get by_key (by_ item)) as [found|] eqn:Hget.
    + destruct (negb dedupe || negb (bool_decide (found = item))) eqn:Hc; [discriminate|].
      apply orb_false_iff in Hc as [Hd Heq].
      apply negb_false_iff in Hd. apply negb_false_iff, bool_decide_eq_true in Heq.
      subst found.
      destruct (IH _ _ Hinv Hrun) as (new & -> & Hinv' & Hsub & Hin & Hall).
      exists new. split; [done|]. split; [done|].
      split; [by apply sublist_cons|]. split.
      * intros x Hx. apply elem_of_cons in Hx as [->|Hx]; [|by apply Hin].
        apply elem_of_app. left. by apply dict_get_Some.
      * intros Hf. by rewrite Hf in Hd.
    + pose proof (by_key_inv_snoc _ _ Hinv Hget) as Hinv1.
      destruct (IH _ _ Hinv1 Hrun) as (new & -> & Hinv' & Hsub & Hin & Hall).
      exists ((by_ item, item) :: new). rewrite <- app_assoc. simpl.
      split; [done|]. split; [by rewrite <- app_assoc in Hinv'|].
      split; [by apply sublist_skip|]. split.
      * intros x Hx. apply elem_of_cons in Hx as [->|Hx].
        -- apply elem_of_app. right. apply list_elem_of_here.
        -- specialize (Hin x Hx). by rewrite <- app_assoc in Hin.
      * intros Hf. csimpl. f_equal. by apply Hall.
Qed.


(** X1.  When [unique] succeeds, no two items of its result have the
    same key, the result is a sub-list of the input (the input order is
    kept), it has exactly the items of the input, and without [dedupe]
    it is the input itself. *)
Theorem unique_keeps_one_item_per_key (items : list T) (dedupe : bool) (l : list T) :
  unique by_ str_key str_item items dedupe = inr l ->
  NoDup (by_ <$> l) /\
  sublist l items /\
  (forall x, x ∈ l <-> x ∈ items) /\
  (dedupe = false -> l = items).
Proof.
  unfold unique. intros Hrun.
  destruct (unique_loop by_ str_key str_item items dedupe []) as [e|result] eqn:Hloop;
    [discriminate|].
  simpl in Hrun. inversion Hrun; subst l. clear Hrun.
  assert (Hinv0 : by_key_inv by_ []) by (split; [apply NoDup_nil_2 | apply Forall_nil_2]).
  destruct (unique_loop_inr _ _ _ _ Hinv0 Hloop) as (new & -> & Hinv & Hsub & Hin & Hall).
  simpl in *. split.
  - rewrite (by_key_inv_keys _ Hinv). by destruct Hinv.
  - split; [done|]. split; [|done].
    intros x. split.
    + intros Hx. eapply elem_of_sublist; [exact Hx | exact Hsub]. 
    + intros Hx. apply list_elem_of_fmap. exists (by_ x, x). split; [done | by apply Hin].
Qed.

(** The two ways the items can conflict: an item stored in [by_key]
    against a later one, or two items still to be read. *)
Lemma unique_loop_conflict (dedupe : bool) (items : list T) :
  forall by_key,
    by_key_inv by_ by_key ->
    (exists e, unique_loop by_ str_key str_item items dedupe by_key = inl e) <->
    ((exists x y, x ∈ by_key.*2 /\ y ∈ items /\ by_ x = by_ y /\ (dedupe = false \/ x <> y)) \/
     (exists l1 x l2 y l3, items = (l1 ++ x :: l2 ++ y :: l3)%list /\ by_ x = by_ y /\
                           (dedupe = false \/ x <> y))).
Proof.
  induction items as [|item rest IH]; intros by_key Hinv; simpl.
  - split.
    + intros [e He]. discriminate.
    + intros [(x & y & _ & Hy & _)|(l1 & x & l2 & y & l3 & Heq & _)].
      * by apply elem_of_nil in Hy.
      * by destruct l1.
  - destruct (dict_get by_key (by_ item)) as [found|] eqn:Hget.
    + pose proof (dict_get_Some _ _ _ Hget) as Hfound.
      assert (Hfound2 : found ∈ by_key.*2).
      { apply list_elem_of_fmap. by exists (by_ item, found). }
      assert (Hkey : by_ found = by_ item).
      { destruct Hinv as [_ Hall]. rewrite Forall_forall in Hall.
        by specialize (Hall _ Hfound). }
      destruct (negb dedupe || negb (bool_decide (found = item))) eqn:Hc.
      * split; [|eauto]. intros _. left. exists found, item.
        split; [done|]. split; [apply list_elem_of_here|]. split; [done|].
        apply orb_true_iff in Hc as [Hd|Hne].
        -- left. by apply negb_true_iff in Hd.
        -- right. by apply negb_true_iff, bool_decide_eq_false in Hne.
      * apply orb_false_iff in Hc as [Hd Heq].
        apply negb_false_iff in Hd. apply negb_false_iff, bool_decide_eq_true in Heq.
        subst found. rewrite (IH _ Hinv). split.
        -- intros [(x & y & Hx & Hy & Hk & Hd')|(l1 & x & l2 & y & l3 & -> & Hk & Hd')].
           ++ left. exists x, y. split; [done|].
              split; [by apply list_elem_of_further | done].
           ++ right. by exists (item :: l1), x, l2, y, l3.
        -- intros [(x & y & Hx & Hy & Hk & Hd')|(l1 & x & l2 & y & l3 & Heq & Hk & Hd')].
           ++ apply elem_of_cons in Hy as [->|Hy]; [|left; by exists x, y].
              destruct Hd' as [Hd'|Hne]; [by rewrite Hd in Hd'|].
              destruct Hne. eapply by_key_inv_same_key; [exact Hinv | | exact Hfound].
              rewrite <- Hk. by apply by_key_inv_item.
           ++ destruct l1 as [|z l1]; simpl in Heq; inversion Heq; subst.
              ** left. exists x, y. split; [done|]. split; [|done].
                 apply elem_of_app. right. apply list_elem_of_here.
              ** right. by exists l1, x, l2, y, l3.
    + pose proof (by_key_inv_snoc _ _ Hinv Hget) as Hinv1.
      rewrite (IH _ Hinv1). rewrite fmap_app. simpl. split.
      * intros [(x & y & Hx & Hy & Hk & Hd')|(l1 & x & l2 & y & l3 & -> & Hk & Hd')].
        -- apply elem_of_app in Hx as [Hx|Hx].
           ++ left. exists x, y. split; [done|].
              split; [by apply list_elem_of_further | done].
           ++ apply list_elem_of_singleton in Hx as ->.
              apply list_elem_of_split in Hy as (l2 & l3 & ->).
              right. by exists [], item, l2, y, l3.
        -- right. by exists (item :: l1), x, l2, y, l3.
      * intros [(x & y & Hx & Hy & Hk & Hd')|(l1 & x & l2 & y & l3 & Heq & Hk & Hd')].
        -- apply elem_of_cons in Hy as [->|Hy].
           ++ apply dict_get_None in Hget. destruct Hget.
              rewrite <- Hk. apply list_elem_of_fmap. exists (by_ x, x).
              split; [done | by apply by_key_inv_item].
           ++ left. exists x, y. split; [|done]. apply elem_of_app. by left.
        -- destruct l1 as [|z l1]; simpl in Heq; inversion Heq; subst.
           ++ left. exists x, y. split; [apply elem_of_app; right; apply list_elem_of_here|].
              split; [|done]. apply elem_of_app. right. apply list_elem_of_here.
           ++ right. by exists l1, x, l2, y, l3.
Qed.

(** X2.  [unique] raises exactly when two items of the input have the
    same key and, with [dedupe], differ; what it raises is a
    [ValueError]. *)
Theorem unique_raises_on_conflict (items : list T) (dedupe : bool) :
  (exists msg, unique by_ str_key str_item items dedupe = inl (ValueError msg)) <->
  (exists l1 x l2 y l3,
      items = (l1 ++ x :: l2 ++ y :: l3)%list /\ by_ x = by_ y /\ (dedupe = false \/ x <> y)).
Proof.
  assert (Hinv0 : by_key_inv by_ []) by (split; [apply NoDup_nil_2 | apply Forall_nil_2]).
  pose proof (unique_loop_conflict dedupe items [] Hinv0) as Hc.
  assert (Hval : forall its by_key e,
             unique_loop by_ str_key str_item its dedupe by_key = inl e ->
             exists msg, e = ValueError msg).
  { induction its as [|item rest IH]; intros by_key e; simpl; [done|].
    destruct (dict_get by_key (by_ item)); [|by apply IH].
    destruct (negb dedupe || negb (bool_decide (t = item))); [|by apply IH].
    intros [= <-]. eauto. }
  unfold unique. split.
  - intros [msg Hrun].
    destruct (unique_loop by_ str_key str_item items dedupe []) as [e|r] eqn:Hloop;
      [|discriminate].
    destruct (proj1 Hc (ex_intro _ e eq_refl)) as [(x & y & Hx & _)|Hconf]; [|done].
    by apply elem_of_nil in Hx.
  - intros Hconf. destruct (proj2 Hc (or_intror Hconf)) as [e He].
    rewrite He. simpl. destruct (Hval _ _ _ He) as [msg ->]. eauto.
Qed.

Lemma unique_loop_fresh (dedupe : bool) (items : list T) :
  forall by_key,
    NoDup (by_key.*1 ++ (by_ <$> items)) ->
    unique_loop by_ str_key str_item items dedupe by_key
    = inr (by_key ++ ((fun x => (by_ x, x)) <$> items))%list.
Proof.
  induction items as [|item rest IH]; intros by_key Hnd; simpl.
  - by rewrite app_nil_r.
  - assert (Hget : dict_get by_key (by_ item) = None).
    { apply dict_get_None. intros Hin. apply NoDup_app in Hnd as (_ & Hdis & _).
      apply (Hdis _ Hin). apply list_elem_of_here. }
    rewrite Hget. rewrite IH.
    + by rewrite <- app_assoc.
    + rewrite fmap_app. simpl. rewrite <- app_assoc. exact Hnd.
Qed.

(** X3.  [unique] changes nothing in a list whose keys are pairwise
    distinct; so it changes nothing in its own result, with or without
    [dedupe]. *)
Theorem unique_idempotent (items : list T) (dedupe dedupe' : bool) (l : list T) :
  unique by_ str_key str_item items dedupe = inr l ->
  unique by_ str_key str_item l dedupe' = inr l.
Proof.
  unfold unique. intros Hrun.
  destruct (unique_loop by_ str_key str_item items dedupe []) as [e|result] eqn:Hloop;
    [discriminate|].
  simpl in Hrun. inversion Hrun; subst l. clear Hrun.
  assert (Hinv0 : by_key_inv by_ []) by (split; [apply NoDup_nil_2 | apply Forall_nil_2]).
  destruct (unique_loop_inr _ _ _ _ Hinv0 Hloop) as (new & -> & Hinv & _).
  simpl in *. rewrite unique_loop_fresh.
  - simpl. f_equal. rewrite <- list_fmap_compose. by apply list_fmap_id.
  - simpl. rewrite (by_key_inv_keys _ Hinv). by destruct Hinv.
Qed.

Lemma sort_insert_Permutation (x : T) (l : list T) :
  sort_insert by_ key_lt x l ≡ₚ x :: l.
Proof.
  induction l as [|y l IH]; simpl; [done|].
  destruct (key_lt (by_ y) (by_ x)); [|done].
  rewrite IH. apply Permutation_swap.
Qed.

Lemma sort_by_key_Permutation (l : list T) : sort_by_key by_ key_lt l ≡ₚ l.
Proof.
  induction l as [|x l IH]; simpl; [done|].
  unfold sort_by_key in *. simpl. by rewrite sort_insert_Permutation, IH.
Qed.

Section Sorting.

(** The order of the keys is a strict total order. *)
Hypothesis key_lt_trans :
  forall a b c, key_lt a b = true -> key_lt b c = true -> key_lt a c = true.
Hypothesis key_lt_total :
  forall a b, a <> b -> key_lt a b = true \/ key_lt b a = true.

Lemma sort_insert_sorted (x : T) (l : list T) :
  by_ x ∉ by_ <$> l ->
  StronglySorted (fun a b => key_lt (by_ a) (by_ b) = true) l ->
  StronglySorted (fun a b => key_lt (by_ a) (by_ b) = true) (sort_insert by_ key_lt x l).
Proof.
  intros Hnot Hsorted. induction Hsorted as [|y l Hsorted IH Hall]; simpl.
  - apply SSorted_cons; [apply SSorted_nil | apply Forall_nil_2].
  - assert (Hne : by_ x <> by_ y).
    { intros Heq. apply Hnot. rewrite Heq. apply list_elem_of_here. }
    assert (Hnot' : by_ x ∉ by_ <$> l).
    { intros Hin. apply Hnot. by apply list_elem_of_further. }
    destruct (key_lt (by_ y) (by_ x)) eqn:Hlt.
    + apply SSorted_cons; [by apply IH|].
      apply Forall_forall. intros z Hz.
      rewrite sort_insert_Permutation in Hz.
      apply elem_of_cons in Hz as [->|Hz]; [done|].
      rewrite Forall_forall in Hall. by apply Hall.
    + assert (Hxy : key_lt (by_ x) (by_ y) = true).
      { destruct (key_lt_total _ _ Hne) as [?|Hyx]; [done | congruence]. }
      apply SSorted_cons; [by apply SSorted_cons|].
      apply Forall_cons. split; [done|].
      eapply Forall_impl; [exact Hall|]. intros z Hz. simpl in Hz. by eapply key_lt_trans.
Qed.

(** X4.  When [unique_sorted] succeeds, its result is the result of
    [unique] put in strictly increasing order of the keys: it is a
    permutation of that result, every item is below all the items after
    it, and the items are those of the input. *)
Theorem unique_sorted_is_sorted (items : list T) (dedupe : bool) (l : list T) :
  unique_sorted by_ str_key str_item key_lt items dedupe = inr l ->
  (exists u, unique by_ str_key str_item items dedupe = inr u /\ l ≡ₚ u) /\
  StronglySorted (fun a b => key_lt (by_ a) (by_ b) = true) l /\
  (forall x, x ∈ l <-> x ∈ items).
Proof.
  unfold unique_sorted. intros Hrun.
  destruct (unique by_ str_key str_item items dedupe) as [e|u] eqn:Hu; [discriminate|].
  simpl in Hrun. inversion Hrun; subst l. clear Hrun.
  assert (Hkeys : NoDup (by_ <$> u) /\ forall x, x ∈ u <-> x ∈ items).
  { unfold unique in Hu.
    destruct (unique_loop by_ str_key str_item items dedupe []) as [e|result] eqn:Hloop;
      [discriminate|].
    simpl in Hu. inversion Hu; subst u. clear Hu.
    assert (Hinv0 : by_key_inv by_ []) by (split; [apply NoDup_nil_2 | apply Forall_nil_2]).
    destruct (unique_loop_inr _ _ _ _ Hinv0 Hloop) as (new & -> & Hinv & Hsub & Hin & _).
    simpl in *. split.
    - rewrite (by_key_inv_keys _ Hinv). by destruct Hinv.
    - intros x. split.
      + intros Hx. eapply elem_of_sublist; [exact Hx | exact Hsub].
      + intros Hx. apply list_elem_of_fmap. exists (by_ x, x). split; [done | by apply Hin]. }
  destruct Hkeys as [Hnd Hsame].
  split; [exists u; split; [done | apply sort_by_key_Permutation]|]. split.
  - clear Hu Hsame. induction u as [|x u IH]; [apply SSorted_nil|].
    simpl in Hnd. apply NoDup_cons in Hnd as [Hnot Hnd].
    unfold sort_by_key. simpl. apply sort_insert_sorted; [|by apply IH].
    intros Hin. apply Hnot.
    apply list_elem_of_fmap in Hin as (y & Hy & Hin). rewrite Hy.
    apply list_elem_of_fmap. exists y. split; [done|].
    fold (sort_by_key by_ key_lt u) in Hin. by rewrite sort_by_key_Permutation in Hin.
  - intros x. by rewrite sort_by_key_Permutation.
Qed.

End Sorting.

End ValidatorProperties.

(** * The properties on concrete inputs *)

(** C1 on four pairs of sets, one for each case. *)
Lemma checksums_to_match_policy_witness :
  let dpi := Sample.sdist_dpi "foo-1.0.tar.gz" false in
  checksums_to_match (dpi {[ Sample.sha_a; Sample.sha_b ]} {[ Sample.sha_b ]})
  = {[ Sample.sha_a; Sample.sha_b ]} ∩ {[ Sample.sha_b ]} /\
  checksums_to_match (dpi {[ Sample.sha_a ]} ∅) = {[ Sample.sha_a ]} /\
  checksums_to_match (dpi ∅ {[ Sample.sha_b ]}) = {[ Sample.sha_b ]} /\
  checksums_to_match (dpi ∅ ∅) = ∅.
Proof.
  assert (Ha : ({[ Sample.sha_a ]} : gset ChecksumInfo) ≠ ∅)
    by (apply (bool_decide_unpack _); vm_compute; exact I).
  assert (Hb : ({[ Sample.sha_b ]} : gset ChecksumInfo) ≠ ∅)
    by (apply (bool_decide_unpack _); vm_compute; exact I).
  assert (Hab : ({[ Sample.sha_a; Sample.sha_b ]} : gset ChecksumInfo) ≠ ∅)
    by (apply (bool_decide_unpack _); vm_compute; exact I).
  simpl. unfold Sample.sdist_dpi.
  split; [|split; [|split]].
  - apply (checksums_to_match_policy "foo" "1.0" "sdist"
             ["/"; "out"; "deps"; "pip"; "foo-1.0.tar.gz"]
             "https://files.example.org/foo-1.0.tar.gz" PYPI_SIMPLE_ENDPOINT false
             {[ Sample.sha_a; Sample.sha_b ]} {[ Sample.sha_b ]}); [exact Hab | exact Hb].
  - apply (checksums_to_match_policy "foo" "1.0" "sdist"
             ["/"; "out"; "deps"; "pip"; "foo-1.0.tar.gz"]
             "https://files.example.org/foo-1.0.tar.gz" PYPI_SIMPLE_ENDPOINT false
             {[ Sample.sha_a ]} ∅); [exact Ha | reflexivity].
  - apply (checksums_to_match_policy "foo" "1.0" "sdist"
             ["/"; "out"; "deps"; "pip"; "foo-1.0.tar.gz"]
             "https://files.example.org/foo-1.0.tar.gz" PYPI_SIMPLE_ENDPOINT false
             ∅ {[ Sample.sha_b ]}); [reflexivity | exact Hb].
  - apply (checksums_to_match_policy "foo" "1.0" "sdist"
             ["/"; "out"; "deps"; "pip"; "foo-1.0.tar.gz"]
             "https://files.example.org/foo-1.0.tar.gz" PYPI_SIMPLE_ENDPOINT false
             ∅ ∅); reflexivity.
Defined.



(** C6 as stated fails: [foo==1.0] against a page with a yanked
    [foo-1.0.tar.gz] and a [foo-1.0.zip] that is not yanked.  Both pass
    the checksum filter; ranking the format before the yank status would
    select the [.tar.gz], the code returns the [.zip]. *)
Lemma sdist_format_before_yanked_counterexample :
  let tgz := Sample.sdist_dpi "foo-1.0.tar.gz" true {[ Sample.sha_a ]} ∅ in
  let zip := Sample.sdist_dpi "foo-1.0.zip" false {[ Sample.sha_a ]} ∅ in
  collect_distributions Sample.canonicalize_version "foo" "1.0" Sample.pip_deps_dir
    PYPI_SIMPLE_ENDPOINT ∅ ["sdist"] "1.0"
    [Sample.sdist_package "foo-1.0.tar.gz" true "aaaa";
     Sample.sdist_package "foo-1.0.zip" false "aaaa"] [] [] Sample.empty_state
  = (Sample.empty_state, inr ([tgz; zip], [])) /\
  PyStr.endswith (PathLib.name (dpi_path tgz)) ".tar.gz" = true /\
  PyStr.endswith (PathLib.name (dpi_path zip)) ".tar.gz" = false /\
  _process_package_distributions Sample.canonicalize_version Sample.page_two_sdists
    Sample.foo_plain Sample.pip_deps_dir false PYPI_SIMPLE_ENDPOINT Sample.empty_state
  = (Sample.empty_state, inr [zip]).
Proof. vm_compute. repeat split; reflexivity. Qed.

(** C6 (amended) on the same page: the returned sdist is not yanked. *)
Lemma sdist_selection_witness :
  let tgz := Sample.sdist_dpi "foo-1.0.tar.gz" true {[ Sample.sha_a ]} ∅ in
  let zip := Sample.sdist_dpi "foo-1.0.zip" false {[ Sample.sha_a ]} ∅ in
  req_version_specs Sample.foo_plain = [("==", "1.0")] /\
  Sample.page_two_sdists PYPI_SIMPLE_ENDPOINT (req_package Sample.foo_plain)
  = inr [Sample.sdist_package "foo-1.0.tar.gz" true "aaaa";
         Sample.sdist_package "foo-1.0.zip" false "aaaa"] /\
  exists best st2,
    _process_package_distributions Sample.canonicalize_version Sample.page_two_sdists
      Sample.foo_plain Sample.pip_deps_dir false PYPI_SIMPLE_ENDPOINT Sample.empty_state
    = (st2, inr [best]) /\
    best ∈ [tgz; zip] /\ dpi_is_yanked best = false.
Proof.
  intros tgz zip.
  assert (Hspec : req_version_specs Sample.foo_plain = [("==", "1.0")]) by reflexivity.
  assert (Hpage :
    Sample.page_two_sdists PYPI_SIMPLE_ENDPOINT (req_package Sample.foo_plain)
    = inr [Sample.sdist_package "foo-1.0.tar.gz" true "aaaa";
           Sample.sdist_package "foo-1.0.zip" false "aaaa"]) by reflexivity.
  assert (Hcollect :
    collect_distributions Sample.canonicalize_version (req_package Sample.foo_plain) "1.0"
      Sample.pip_deps_dir PYPI_SIMPLE_ENDPOINT
      (list_to_set (map _to_checksum_info (req_hashes Sample.foo_plain)))
      (if false then ["sdist"; "wheel"] else ["sdist"])
      (Sample.canonicalize_version "1.0")
      [Sample.sdist_package "foo-1.0.tar.gz" true "aaaa";
       Sample.sdist_package "foo-1.0.zip" false "aaaa"] [] [] Sample.empty_state
    = (Sample.empty_state, inr ([tgz; zip], []))) by (vm_compute; reflexivity).
  split; [exact Hspec|]. split; [exact Hpage|].
  destruct (sdist_selection Sample.canonicalize_version Sample.page_two_sdists
              Sample.foo_plain Sample.pip_deps_dir false PYPI_SIMPLE_ENDPOINT
              Sample.empty_state Sample.empty_state "==" "1.0" []
              [Sample.sdist_package "foo-1.0.tar.gz" true "aaaa";
               Sample.sdist_package "foo-1.0.zip" false "aaaa"]
              tgz [zip] [] Hspec Hpage Hcollect)
    as (best & st2 & Hrun & Hin & _ & Hyanked & _).
  exists best, st2. split; [exact Hrun|]. split; [exact Hin|].
  apply Hyanked. exists zip. split; [|reflexivity].
  apply list_elem_of_further, list_elem_of_here.
Defined.

(** C3 as stated fails: a wheel whose content matches none of the
    checksums to verify.  The file is removed and a warning is logged,
    but no error is raised: [_process_req] returns the entry of the
    dependency. *)
Lemma checksum_mismatch_is_fatal_counterexample :
  let run :=
    _process_req Sample.file_digest Sample.namelist Sample.namelist
      Sample.foo_plain Sample.requirements_txt Sample.pip_deps_dir
      (download_info_of Sample.mismatched_wheel) (Some Sample.mismatched_wheel)
      Sample.downloaded_state in
  has_checksums_to_match Sample.mismatched_wheel = true /\
  fs Sample.downloaded_state !! dpi_path Sample.mismatched_wheel = Some "zzzz" /\
  Sample.file_digest "sha256" "zzzz" ≠ Some (hexdigest Sample.sha_a) /\
  elements (checksums_to_match Sample.mismatched_wheel) = [Sample.sha_a] /\
  run.1 = mkState ∅ [(WARNING, "Download 'foo-1.0-py3-none-any.whl' was removed from the output directory")] /\
  (exists info, run.2 = inr info /\ info !! "package" = Some (PStr "foo")).
Proof.
  vm_compute. repeat split; try reflexivity; try discriminate.
  eexists. split; reflexivity.
Qed.

(** C3 (amended) on the same wheel. *)
Lemma checksum_mismatch_removes_artifact_witness :
  let run :=
    _process_req Sample.file_digest Sample.namelist Sample.namelist
      Sample.foo_plain Sample.requirements_txt Sample.pip_deps_dir
      (download_info_of Sample.mismatched_wheel) (Some Sample.mismatched_wheel)
      Sample.downloaded_state in
  fs Sample.downloaded_state !! dpi_path Sample.mismatched_wheel = Some "zzzz" /\
  has_checksums_to_match Sample.mismatched_wheel = true /\
  (forall c, c ∈ checksums_to_match Sample.mismatched_wheel ->
             Sample.file_digest (algorithm c) "zzzz" ≠ Some (hexdigest c)) /\
  fs run.1 = delete (dpi_path Sample.mismatched_wheel) (fs Sample.downloaded_state) /\
  (forall e, run.2 = inl e -> is_rejection e = false).
Proof.
  intros run.
  assert (Hfile : fs Sample.downloaded_state !! dpi_path Sample.mismatched_wheel
                  = Some "zzzz") by (vm_compute; reflexivity).
  assert (Hhas : has_checksums_to_match Sample.mismatched_wheel = true)
    by (vm_compute; reflexivity).
  assert (Hno : forall c, c ∈ checksums_to_match Sample.mismatched_wheel ->
                          Sample.file_digest (algorithm c) "zzzz" ≠ Some (hexdigest c)).
  { intros c Hc.
    assert (Hctm : checksums_to_match Sample.mismatched_wheel = {[ Sample.sha_a ]})
      by (vm_compute; reflexivity).
    rewrite Hctm in Hc. apply elem_of_singleton in Hc. subst c.
    vm_compute. discriminate. }
  split; [exact Hfile|]. split; [exact Hhas|]. split; [exact Hno|].
  destruct (checksum_mismatch_removes_artifact Sample.file_digest Sample.namelist
              Sample.namelist Sample.foo_plain Sample.requirements_txt
              Sample.pip_deps_dir Sample.mismatched_wheel Sample.downloaded_state
              "zzzz" Hfile Hhas Hno) as (_ & Hfs & _ & Herr & _).
  split; [exact Hfs | exact Herr].
Defined.

(** C4 on [foo==1.0], which passes, and on [foo>=1.0], which is rejected
    and fails the list that holds it. *)
Lemma unpinned_pypi_requirement_rejected_witness :
  req_kind Sample.foo_pinned = "pypi" /\ req_kind Sample.foo_unpinned = "pypi" /\
  (exists op version,
      req_version_specs Sample.foo_pinned = [(op, version)] /\ (op = "==" \/ op = "===")) /\
  ~ (exists op version,
        req_version_specs Sample.foo_unpinned = [(op, version)]
        /\ (op = "==" \/ op = "===")) /\
  _validate_requirement Sample.urlparse Sample.foo_pinned false = inr tt /\
  _validate_requirement Sample.urlparse Sample.foo_unpinned false
  = inl (PackageRejected "Requirement must be pinned to an exact version: foo>=1.0"
           (Some ("Please pin all packages as <name>==<version>" +:+ String "010"%char
                  "You may wish to use a tool such as pip-compile to pin automatically."))
           (Some PIP_REQUIREMENTS_TXT_DOC)) /\
  exists e,
    _validate_requirements Sample.urlparse [Sample.foo_pinned; Sample.foo_unpinned] false
    = inl e.
Proof.
  assert (Hpinned : exists op version,
             req_version_specs Sample.foo_pinned = [(op, version)]
             /\ (op = "==" \/ op = "===")).
  { exists "==", "1.0". split; [reflexivity | left; reflexivity]. }
  assert (Hunpinned : ~ (exists op version,
             req_version_specs Sample.foo_unpinned = [(op, version)]
             /\ (op = "==" \/ op = "==="))).
  { intros (op & version & Hspec & Hop). simpl in Hspec. inversion Hspec; subst.
    destruct Hop; discriminate. }
  split; [reflexivity|]. split; [reflexivity|].
  split; [exact Hpinned|]. split; [exact Hunpinned|].
  destruct (unpinned_pypi_requirement_rejected Sample.APP_NAME Sample.urlparse Sample.geturl
              Sample.unquote Sample.canonicalize_version Sample.extract_git_info
              Sample.file_digest Sample.namelist Sample.namelist Sample.page_one_sdist
              Sample.async_download_files Sample.download_binary_file
              Sample.clone_as_tarball Sample.foo_pinned false eq_refl) as [Hpass _].
  destruct (unpinned_pypi_requirement_rejected Sample.APP_NAME Sample.urlparse Sample.geturl
              Sample.unquote Sample.canonicalize_version Sample.extract_git_info
              Sample.file_digest Sample.namelist Sample.namelist Sample.page_one_sdist
              Sample.async_download_files Sample.download_binary_file
              Sample.clone_as_tarball Sample.foo_unpinned false eq_refl) as [_ Hfail].
  destruct (Hfail Hunpinned) as (Hone & _ & Hlist & _).
  split; [exact (Hpass Hpinned)|]. split; [exact Hone|].
  apply Hlist. apply list_elem_of_further, list_elem_of_here.
Defined.

(** C5 on a Mercurial URL, on a git URL pinned to a branch and on a git
    URL pinned to a full commit. *)
Lemma vcs_requirement_validation_witness :
  let hg_url := "hg+https://example.org/org/bar@" +:+ Sample.commit in
  let branch_url := "git+https://github.com/org/bar@main" in
  let commit_url := "git+https://github.com/org/bar@" +:+ Sample.commit in
  (url Sample.bar_hg = inr hg_url /\ url Sample.bar_branch = inr branch_url
   /\ url Sample.bar_vcs = inr commit_url) /\
  (PyStr.startswith (scheme (Sample.urlparse hg_url)) "git" = false
   /\ PyStr.startswith (scheme (Sample.urlparse branch_url)) "git" = true
   /\ PyStr.startswith (scheme (Sample.urlparse commit_url)) "git" = true) /\
  (~ ends_with_git_ref (path (Sample.urlparse branch_url))
   /\ ends_with_git_ref (path (Sample.urlparse commit_url))) /\
  (exists reason solution docs,
      _validate_requirement Sample.urlparse Sample.bar_hg false
      = inl (UnsupportedFeature reason solution docs)) /\
  (exists reason solution docs,
      _validate_requirement Sample.urlparse Sample.bar_branch false
      = inl (PackageRejected reason solution docs)) /\
  _validate_requirement Sample.urlparse Sample.bar_vcs false = inr tt /\
  exists e,
    _validate_requirements Sample.urlparse [Sample.bar_vcs; Sample.bar_branch] false = inl e.
Proof.
  intros hg_url branch_url commit_url.
  assert (Hbranch : ~ ends_with_git_ref (path (Sample.urlparse branch_url))).
  { intros H. apply GIT_REF_IN_PATH_search_ends in H; [|vm_compute; reflexivity].
    vm_compute in H. discriminate. }
  assert (Hcommit : ends_with_git_ref (path (Sample.urlparse commit_url))).
  { exists "/org/bar", Sample.commit. repeat split; vm_compute; reflexivity. }
  pose proof (vcs_requirement_validation Sample.APP_NAME Sample.urlparse Sample.geturl
                Sample.unquote Sample.canonicalize_version Sample.extract_git_info
                Sample.file_digest Sample.namelist Sample.namelist Sample.page_one_sdist
                Sample.async_download_files Sample.download_binary_file
                Sample.clone_as_tarball Sample.bar_hg false hg_url
                eq_refl eq_refl eq_refl) as (Hhg & _).
  pose proof (vcs_requirement_validation Sample.APP_NAME Sample.urlparse Sample.geturl
                Sample.unquote Sample.canonicalize_version Sample.extract_git_info
                Sample.file_digest Sample.namelist Sample.namelist Sample.page_one_sdist
                Sample.async_download_files Sample.download_binary_file
                Sample.clone_as_tarball Sample.bar_branch false branch_url
                eq_refl eq_refl eq_refl) as (_ & Hrej & _ & _ & Hfatal).
  pose proof (vcs_requirement_validation Sample.APP_NAME Sample.urlparse Sample.geturl
                Sample.unquote Sample.canonicalize_version Sample.extract_git_info
                Sample.file_digest Sample.namelist Sample.namelist Sample.page_one_sdist
                Sample.async_download_files Sample.download_binary_file
                Sample.clone_as_tarball Sample.bar_vcs false commit_url
                eq_refl eq_refl eq_refl) as (_ & _ & Hok & _).
  split; [repeat split|]. split; [repeat split|]. split; [by split|].
  split; [eexists _, _, _; apply Hhg; reflexivity|].
  split; [eexists _, _, _; apply Hrej; [reflexivity | exact Hbranch]|].
  split; [apply Hok; [reflexivity | exact Hcommit]|].
  eapply (proj1 (Hfatal _ (Hrej eq_refl Hbranch))).
  apply list_elem_of_further, list_elem_of_here.
Defined.

(** C10 on a requirements file holding one VCS requirement: the entry
    has the flag set and the component names [requirements.txt]. *)
Lemma vcs_always_missing_req_file_checksum_witness :
  let run :=
    _download_dependencies Sample.APP_NAME Sample.urlparse Sample.geturl Sample.unquote
      Sample.canonicalize_version Sample.extract_git_info Sample.file_digest
      Sample.namelist Sample.namelist Sample.page_one_sdist
      Sample.async_download_files Sample.download_binary_file Sample.clone_as_tarball
      Sample.output_dir Sample.vcs_file false Sample.empty_state in
  req_kind Sample.bar_vcs = "vcs" /\
  exists d dep c,
    run.2 = inr [d] /\
    d !! "kind" = Some (PStr "vcs") /\
    d !! "missing_req_file_checksum" = Some (PBool true) /\
    _resolve_pip_dependency d = inr dep /\
    dependency_component Sample.urldefrag Sample.parse_qs Sample.purl_to_string dep = inr c /\
    missing_hash_in_file (comp_properties c) = {[ "requirements.txt" ]}.
Proof.
  intros run. split; [reflexivity|].
  set (d := match run.2 with inr [d] => d | _ => ∅ end).
  set (dep := match _resolve_pip_dependency d with inr dep => dep | inl _ => ∅ end).
  set (c := match dependency_component Sample.urldefrag Sample.parse_qs
                    Sample.purl_to_string dep with
            | inr c => c
            | inl _ => mkComponent "" None "" (mkPropertySet ∅ false false)
            end).
  assert (Hrun : run = (run.1, inr [d])) by (vm_compute; reflexivity).
  assert (Hkind : d !! "kind" = Some (PStr "vcs")) by (vm_compute; reflexivity).
  assert (Hdep : _resolve_pip_dependency d = inr dep) by (vm_compute; reflexivity).
  assert (Hc : dependency_component Sample.urldefrag Sample.parse_qs
                 Sample.purl_to_string dep = inr c) by (vm_compute; reflexivity).
  destruct (vcs_always_missing_req_file_checksum Sample.APP_NAME Sample.urlparse Sample.geturl
              Sample.unquote Sample.urldefrag Sample.parse_qs
              Sample.canonicalize_version Sample.extract_git_info Sample.file_digest
              Sample.namelist Sample.namelist Sample.page_one_sdist
              Sample.async_download_files Sample.download_binary_file
              Sample.clone_as_tarball Sample.purl_to_string) as (_ & _ & Hfile).
  destruct (Hfile Sample.output_dir Sample.vcs_file false Sample.empty_state run.1 [d] d
              Hrun (list_elem_of_here _ _) Hkind) as [Hmissing Hcomponent].
  destruct (Hcomponent dep Hdep) as [_ Hproperty].
  exists d, dep, c.
  split; [by rewrite Hrun|]. split; [exact Hkind|]. split; [exact Hmissing|].
  split; [exact Hdep|]. split; [exact Hc|].
  exact (Hproperty c Hc).
Defined.


(** C9 on two URL requirements for the same archive under different
    addresses, and on a VCS requirement. *)
Lemma external_requirement_filepath_deterministic_witness :
  (req_kind Sample.baz_url = "url" /\ req_kind Sample.baz_mirror = "url"
   /\ req_kind Sample.bar_vcs = "vcs") /\
  url_identifying_data Sample.urlparse Sample.unquote Sample.baz_url
  = inr ("baz", "sha256", "cccc", ".tar.gz", "") /\
  url_identifying_data Sample.urlparse Sample.unquote Sample.baz_mirror
  = inr ("baz", "sha256", "cccc", ".tar.gz", "") /\
  vcs_identifying_data Sample.extract_git_info Sample.bar_vcs
  = inr ("github.com", "org", "bar", Sample.commit) /\
  _validate_requirement Sample.urlparse Sample.baz_url false = inr tt /\
  _get_external_requirement_filepath Sample.urlparse Sample.unquote
    Sample.extract_git_info Sample.baz_url
  = inr ["external-baz"; "baz-external-sha256-cccc.tar.gz"] /\
  _get_external_requirement_filepath Sample.urlparse Sample.unquote
    Sample.extract_git_info Sample.baz_mirror
  = _get_external_requirement_filepath Sample.urlparse Sample.unquote
      Sample.extract_git_info Sample.baz_url /\
  _get_external_requirement_filepath Sample.urlparse Sample.unquote
    Sample.extract_git_info Sample.bar_vcs
  = inr ["github.com"; "org"; "bar";
         "bar-external-gitcommit-" +:+ Sample.commit +:+ ".tar.gz"] /\
  exists data, url_identifying_data Sample.urlparse Sample.unquote Sample.baz_url = inr data.
Proof.
  destruct (external_requirement_filepath_deterministic Sample.urlparse Sample.unquote
              Sample.extract_git_info) as (Hurl & Hvcs & Hsame & _ & Hvalid).
  assert (Hbaz : url_identifying_data Sample.urlparse Sample.unquote Sample.baz_url
                 = inr ("baz", "sha256", "cccc", ".tar.gz", ""))
    by (vm_compute; reflexivity).
  assert (Hmirror : url_identifying_data Sample.urlparse Sample.unquote Sample.baz_mirror
                    = inr ("baz", "sha256", "cccc", ".tar.gz", ""))
    by (vm_compute; reflexivity).
  assert (Hbar : vcs_identifying_data Sample.extract_git_info Sample.bar_vcs
                 = inr ("github.com", "org", "bar", Sample.commit))
    by (vm_compute; reflexivity).
  assert (Hok : _validate_requirement Sample.urlparse Sample.baz_url false = inr tt)
    by (vm_compute; reflexivity).
  split; [repeat split|]. split; [exact Hbaz|]. split; [exact Hmirror|].
  split; [exact Hbar|]. split; [exact Hok|].
  split; [exact (Hurl Sample.baz_url _ _ _ _ _ eq_refl Hbaz)|].
  split.
  - destruct (Hsame Sample.baz_mirror Sample.baz_url _ eq_refl eq_refl Hmirror Hbaz)
      as (p & -> & ->). reflexivity.
  - split; [exact (Hvcs Sample.bar_vcs _ _ _ _ eq_refl Hbar)|].
    exact (Hvalid Sample.baz_url false eq_refl Hok).
Defined.


(** * Further properties on concrete inputs *)

(** X1 on three items, the third a repetition of the first. *)
Lemma unique_keeps_one_item_per_key_witness :
  let items := [("b", 2); ("a", 1); ("b", 2)] in
  let l := [("b", 2); ("a", 1)] in
  unique Sample.item_key Sample.key_str Sample.item_str items true = inr l /\
  NoDup (Sample.item_key <$> l) /\
  sublist l items /\
  (forall x, x ∈ l <-> x ∈ items) /\
  (true = false -> l = items).
Proof.
  split; [reflexivity|].
  apply (unique_keeps_one_item_per_key Sample.item_key Sample.key_str Sample.item_str).
  reflexivity.
Defined.

(** X2 on two items with the key 2 and different names. *)
Lemma unique_raises_on_conflict_witness :
  exists msg,
    unique Sample.item_key Sample.key_str Sample.item_str [("b", 2); ("a", 1); ("c", 2)] true
    = inl (ValueError msg).
Proof.
  apply (unique_raises_on_conflict Sample.item_key Sample.key_str Sample.item_str).
  exists [], ("b", 2), [("a", 1)], ("c", 2), [].
  split; [reflexivity|]. split; [reflexivity|]. right. discriminate.
Defined.

(** X3 on the items of X1. *)
Lemma unique_idempotent_witness :
  unique Sample.item_key Sample.key_str Sample.item_str
    [("b", 2); ("a", 1); ("b", 2)] true = inr [("b", 2); ("a", 1)] /\
  unique Sample.item_key Sample.key_str Sample.item_str
    [("b", 2); ("a", 1)] false = inr [("b", 2); ("a", 1)].
Proof.
  split; [reflexivity|].
  apply (unique_idempotent Sample.item_key Sample.key_str Sample.item_str
           [("b", 2); ("a", 1); ("b", 2)] true false).
  reflexivity.
Defined.

(** X4 on the items of X1, the keys ordered as numbers. *)
Lemma unique_sorted_is_sorted_witness :
  let items := [("b", 2); ("a", 1); ("b", 2)] in
  let l := [("a", 1); ("b", 2)] in
  unique_sorted Sample.item_key Sample.key_str Sample.item_str Nat.ltb items true = inr l /\
  (exists u, unique Sample.item_key Sample.key_str Sample.item_str items true = inr u
             /\ l ≡ₚ u) /\
  StronglySorted (fun a b => (Sample.item_key a <? Sample.item_key b)%nat = true) l /\
  (forall x, x ∈ l <-> x ∈ items).
Proof.
  split; [reflexivity|].
  apply (unique_sorted_is_sorted Sample.item_key Sample.key_str Sample.item_str Nat.ltb).
  - intros a b c Hab Hbc. apply Nat.ltb_lt in Hab, Hbc. apply Nat.ltb_lt. lia.
  - intros a b Hne. rewrite !Nat.ltb_lt. lia.
  - reflexivity.
Defined.
